(** * Subscription aggregator: the cost query and the update path

    A shallow embedding of the Go service (packages models, repository,
    service and handler) and the properties of its cost aggregation, of its
    update operation and of its error mapping at the HTTP boundary.

    The database is a list of rows; every SQL statement of the repository is
    given its meaning on that list.  What the program cannot decide (the wall
    clock, the UUID generator, the failures of the database driver, the ILIKE
    operator of the database) is gathered in an environment record. *)

From Stdlib Require Import ZArith List String Ascii Bool Lia Sorted.
Import ListNotations.

Local Open Scope string_scope.
Local Open Scope Z_scope.

(** ** Package time *)

Module time.

(** [time.Month]: January = 1 ... December = 12. *)
Inductive Month :=
| January | February | March | April | May | June
| July | August | September | October | November | December.

Definition Month_int (m : Month) : Z :=
  match m with
  | January => 1 | February => 2 | March => 3 | April => 4
  | May => 5 | June => 6 | July => 7 | August => 8
  | September => 9 | October => 10 | November => 11 | December => 12
  end.

Definition Month_of_int (z : Z) : option Month :=
  match z with
  | 1 => Some January | 2 => Some February | 3 => Some March
  | 4 => Some April | 5 => Some May | 6 => Some June
  | 7 => Some July | 8 => Some August | 9 => Some September
  | 10 => Some October | 11 => Some November | 12 => Some December
  | _ => None
  end.

(** A [time.Time] in UTC, by its calendar fields; [Nsec] counts the
    nanoseconds since midnight.  The same fields are what a PostgreSQL
    timestamp holds. *)
Record Time := Date { Year : Z; Mon : Month; Day : Z; Nsec : Z }.

(** [t.Before(u)]: the order of instants is the lexicographic order of the
    calendar fields. *)
Definition Before (t u : Time) : bool :=
  (Year t <? Year u) ||
  ((Year t =? Year u) &&
   ((Month_int (Mon t) <? Month_int (Mon u)) ||
    ((Month_int (Mon t) =? Month_int (Mon u)) &&
     ((Day t <? Day u) ||
      ((Day t =? Day u) && (Nsec t <? Nsec u)))))).

Definition After (t u : Time) : bool := Before u t.

(** [*time.ParseError] and its [Error] method. *)
Record ParseError := mkParseError {
  Layout : string; Value : string;
  LayoutElem : string; ValueElem : string; Message : string }.

Definition lowerhex (n : nat) : ascii :=
  match String.get n "0123456789abcdef" with
  | Some c => c
  | None => "0"%char
  end.

(** [quote] of package time, byte by byte: a byte below the space or from
    0x80 on is written as a backslash, an x and its two hexadecimal digits; a
    double quote and a backslash are preceded by a backslash. *)
Fixpoint quote_bytes (s : string) : string :=
  match s with
  | EmptyString => EmptyString
  | String c s' =>
      let n := nat_of_ascii c in
      if (128 <=? n)%nat || (n <? 32)%nat then
        String "\" (String "x" (String (lowerhex (n / 16))
          (String (lowerhex (n mod 16)) (quote_bytes s'))))
      else if Ascii.eqb c (ascii_of_nat 34) || Ascii.eqb c "\" then
        String "\" (String c (quote_bytes s'))
      else String c (quote_bytes s')
  end.

Definition quote (s : string) : string :=
  String (ascii_of_nat 34)
    (quote_bytes s ++ String (ascii_of_nat 34) EmptyString).

Definition ParseError_Error (e : ParseError) : string :=
  if String.eqb (Message e) "" then
    "parsing time " ++ quote (Value e) ++ " as " ++ quote (Layout e) ++
    ": cannot parse " ++ quote (ValueElem e) ++ " as " ++ quote (LayoutElem e)
  else
    "parsing time " ++ quote (Value e) ++ Message e.

Definition isDigit (c : ascii) : bool :=
  let n := nat_of_ascii c in (48 <=? n)%nat && (n <=? 57)%nat.

Definition digit (c : ascii) : Z := Z.of_nat (nat_of_ascii c) - 48.

(** [time.Parse] at the layout [01-2006], the only layout the program
    uses: two digits of month, a dash, four digits of year, nothing after.
    The day is the first of the month, the time of day is midnight. *)
Definition Parse_01_2006 (value : string) : ParseError + Time :=
  let layout := "01-2006" in
  let bad lelem velem msg := inl (mkParseError layout value lelem velem msg) in
  match value with
  | String m1 (String m2 rest) =>
      if isDigit m1 && isDigit m2 then
        match Month_of_int (10 * digit m1 + digit m2) with
        | None => bad "01" rest ": month out of range"
        | Some mon =>
            match rest with
            | String "-" rest' =>
                match rest' with
                | String y1 (String y2 (String y3 (String y4 extra))) =>
                    if isDigit y1 && isDigit y2 && isDigit y3 && isDigit y4 then
                      match extra with
                      | EmptyString =>
                          inr (Date (1000 * digit y1 + 100 * digit y2 +
                                     10 * digit y3 + digit y4) mon 1 0)
                      | _ => bad "" extra (": extra text: " ++ quote extra)
                      end
                    else bad "2006" rest' ""
                | _ => bad "2006" rest' ""
                end
            | _ => bad "-" rest ""
            end
        end
      else bad "01" value ""
  | _ => bad "01" value ""
  end.

End time.

(** ** Package uuid *)

Module uuid.
(** A [uuid.UUID] is a 128-bit value. *)
Definition UUID := N.
Definition eqb (a b : UUID) : bool := N.eqb a b.
End uuid.

(** ** Errors *)

(** The error values the program builds or receives. *)
Inductive error :=
| ErrNotFound                          (* repository.ErrNotFound *)
| ErrNoRows                            (* sql.ErrNoRows *)
| DriverError (msg : string)           (* an error of database/sql or of the driver *)
| ParseError (e : time.ParseError)     (* an error of time.Parse *)
| UUIDError (msg : string)             (* an error of uuid.Parse *)
| BindError (msg : string)             (* an error of gin's ShouldBindJSON *)
| Errorf (prefix : string) (err : error).
                                       (* fmt.Errorf(prefix + "%w", err) *)

(** [err.Error()] *)
Fixpoint Error (e : error) : string :=
  match e with
  | ErrNotFound => "subscription not found"
  | ErrNoRows => "sql: no rows in result set"
  | DriverError msg => msg
  | ParseError pe => time.ParseError_Error pe
  | UUIDError msg => msg
  | BindError msg => msg
  | Errorf prefix err => prefix ++ Error err
  end.

Definition ParseError_eq_dec (a b : time.ParseError) : {a = b} + {a <> b}.
Proof. decide equality; apply string_dec. Defined.

Definition error_eq_dec (a b : error) : {a = b} + {a <> b}.
Proof. decide equality; solve [apply string_dec | apply ParseError_eq_dec]. Defined.

(** [errors.Is(err, target)]: [target] is [err] or an error [err] wraps. *)
Fixpoint errors_Is (err target : error) : bool :=
  if error_eq_dec err target then true
  else match err with
       | Errorf _ inner => errors_Is inner target
       | _ => false
       end.

(** A Go result pair [(value, error)]. *)
Inductive Result (A : Type) :=
| Ok (a : A)
| Err (e : error).
Arguments Ok {A} a.
Arguments Err {A} e.

Definition of_parse (r : time.ParseError + time.Time) : Result time.Time :=
  match r with
  | inl pe => Err (ParseError pe)
  | inr t => Ok t
  end.

(** ** Package models *)

Module Subscription.
Record t := mk {
  ID : uuid.UUID;
  ServiceName : string;
  Price : Z;
  UserID : uuid.UUID;
  StartDate : time.Time;
  EndDate : option time.Time;
  CreatedAt : time.Time;
  UpdatedAt : time.Time }.

Definition set_ServiceName (v : string) (s : t) : t :=
  mk (ID s) v (Price s) (UserID s) (StartDate s) (EndDate s) (CreatedAt s) (UpdatedAt s).
Definition set_Price (v : Z) (s : t) : t :=
  mk (ID s) (ServiceName s) v (UserID s) (StartDate s) (EndDate s) (CreatedAt s) (UpdatedAt s).
Definition set_StartDate (v : time.Time) (s : t) : t :=
  mk (ID s) (ServiceName s) (Price s) (UserID s) v (EndDate s) (CreatedAt s) (UpdatedAt s).
Definition set_EndDate (v : option time.Time) (s : t) : t :=
  mk (ID s) (ServiceName s) (Price s) (UserID s) (StartDate s) v (CreatedAt s) (UpdatedAt s).
Definition set_UpdatedAt (v : time.Time) (s : t) : t :=
  mk (ID s) (ServiceName s) (Price s) (UserID s) (StartDate s) (EndDate s) (CreatedAt s) v.
End Subscription.

Module CreateSubscriptionReq.
Record t := mk {
  ServiceName : string;
  Price : Z;
  UserID : string;
  StartDate : string;
  EndDate : string }.
End CreateSubscriptionReq.

Module UpdateSubscriptionReq.
Record t := mk {
  ServiceName : string;
  Price : Z;
  StartDate : string;
  EndDate : string }.
End UpdateSubscriptionReq.

Module SubscriptionFilter.
Record t := mk {
  UserID : option uuid.UUID;
  ServiceName : string;
  Limit : Z;
  Offset : Z }.
End SubscriptionFilter.

Module CostFilter.
Record t := mk {
  UserID : option uuid.UUID;
  ServiceName : string;
  StartDate : time.Time;
  EndDate : time.Time }.
End CostFilter.

Module TotalCostResponse.
Record t := mk {
  TotalCost : Z;
  Currency : string }.
End TotalCostResponse.

(** ** The database and the outside world *)

(** The statements the repository sends to the database. *)
Inductive Stmt :=
| INSERT (row : Subscription.t)
| SELECT_BY_ID (id : uuid.UUID)
| SELECT_ALL (filter : SubscriptionFilter.t)
| UPDATE (row : Subscription.t)
| DELETE (id : uuid.UUID)
| SELECT_TOTAL_COST (filter : CostFilter.t)
| BEGIN
| SELECT_FOR_UPDATE (id : uuid.UUID)
| COMMIT
| ROLLBACK.

(** What the program does not decide.  [Now n] is the n-th reading of the
    wall clock and [NewUUID n] the n-th generated identifier;
    [driver_fault n], when present, is the message of the error with which the
    n-th statement sent to the database fails (lost connection, violated
    constraint, ...), and [rows_fault n] the error of asking that statement's
    result for its number of rows; [ILIKE subject pattern] is the operator of
    the database. *)
Record Env := {
  Now : nat -> time.Time;
  NewUUID : nat -> uuid.UUID;
  uuid_Parse : string -> Result uuid.UUID;
  driver_fault : nat -> option string;
  rows_fault : nat -> option string;
  ILIKE : string -> string -> bool }.

(** The state: the rows of table [subscriptions] in insertion order, the
    statements sent so far (oldest first), and how many times the clock and
    the generator were read. *)
Record World := {
  table : list Subscription.t;
  stmts : list Stmt;
  n_now : nat;
  n_uuid : nat }.

Definition set_table (t : list Subscription.t) (w : World) : World :=
  {| table := t; stmts := stmts w; n_now := n_now w; n_uuid := n_uuid w |}.

(** The state before any request: the empty table. *)
Definition initial : World :=
  {| table := []; stmts := []; n_now := 0; n_uuid := 0 |}.

(** Computations on the state. *)
Definition M (A : Type) : Type := World -> A * World.

Definition ret {A} (a : A) : M A := fun w => (a, w).

Definition bind {A B} (m : M A) (k : A -> M B) : M B :=
  fun w => let (a, w') := m w in k a w'.

Notation "x <- m ;; k" := (bind m (fun x => k))
  (at level 61, m at next level, right associativity).

(** ** The SQL the repository uses *)

Module sql.
Section WithEnv.
Variable env : Env.

(** Comparison, LEAST and GREATEST of timestamps; EXTRACT. *)
Definition le (a b : time.Time) : bool := negb (time.Before b a).
Definition ge (a b : time.Time) : bool := le b a.
Definition LEAST (a b : time.Time) : time.Time :=
  if time.Before b a then b else a.
Definition GREATEST (a b : time.Time) : time.Time :=
  if time.Before a b then b else a.
Definition EXTRACT_YEAR (t : time.Time) : Z := time.Year t.
Definition EXTRACT_MONTH (t : time.Time) : Z := time.Month_int (time.Mon t).

(** COALESCE of a nullable value with a default. *)
Definition COALESCE {A} (v : option A) (d : A) : A :=
  match v with
  | Some a => a
  | None => d
  end.

(** SUM is NULL over no row. *)
Definition SUM (l : list Z) : option Z :=
  match l with
  | [] => None
  | _ => Some (fold_right Z.add 0 l)
  end.

(** The cast [::integer] fails outside of 32 bits. *)
Definition cast_integer (z : Z) : Result Z :=
  if (-2147483648 <=? z) && (z <=? 2147483647) then Ok z
  else Err (DriverError "pq: integer out of range").

(** Sending a statement: it joins the log, and the driver may fail it. *)
Definition send (s : Stmt) : M (option string) :=
  fun w => (driver_fault env (List.length (stmts w)),
            {| table := table w; stmts := (stmts w ++ [s])%list;
               n_now := n_now w; n_uuid := n_uuid w |}).

(** The value of [sql.Result]. *)
Record ExecResult := {
  rows : Z;
  rows_err : option string }.

Definition RowsAffected (r : ExecResult) : Result Z :=
  match rows_err r with
  | Some msg => Err (DriverError msg)
  | None => Ok (rows r)
  end.

Definition has_id (id : uuid.UUID) (r : Subscription.t) : bool :=
  uuid.eqb (Subscription.ID r) id.

(** UPDATE ... SET service_name, price, start_date, end_date, updated_at:
    the five columns of the statement are written, the others are kept. *)
Definition set_columns (new old : Subscription.t) : Subscription.t :=
  Subscription.mk (Subscription.ID old)
                  (Subscription.ServiceName new)
                  (Subscription.Price new)
                  (Subscription.UserID old)
                  (Subscription.StartDate new)
                  (Subscription.EndDate new)
                  (Subscription.CreatedAt old)
                  (Subscription.UpdatedAt new).

(** What a data-changing statement does to the table, and how many rows it
    touches. *)
Definition effect (s : Stmt) (t : list Subscription.t)
  : list Subscription.t * Z :=
  match s with
  | INSERT row => ((t ++ [row])%list, 1)
  | UPDATE row =>
      (map (fun r => if has_id (Subscription.ID row) r
                     then set_columns row r else r) t,
       Z.of_nat (List.length (filter (has_id (Subscription.ID row)) t)))
  | DELETE id =>
      (filter (fun r => negb (has_id id r)) t,
       Z.of_nat (List.length (filter (has_id id) t)))
  | _ => (t, 0)
  end.

(** [db.ExecContext] *)
Definition ExecContext (s : Stmt) : M (Result ExecResult) :=
  fun w =>
    let n := List.length (stmts w) in
    let (fault, w1) := send s w in
    match fault with
    | Some msg => (Err (DriverError msg), w1)
    | None =>
        let (t', k) := effect s (table w1) in
        (Ok {| rows := k; rows_err := rows_fault env n |}, set_table t' w1)
    end.

(** [db.GetContext] of one subscription by id: the first row, or
    [sql.ErrNoRows]. *)
Definition GetContext_by_id (s : Stmt) (id : uuid.UUID)
  : M (Result Subscription.t) :=
  fault <- send s ;;
  fun w =>
    match fault with
    | Some msg => (Err (DriverError msg), w)
    | None =>
        match find (has_id id) (table w) with
        | Some r => (Ok r, w)
        | None => (Err ErrNoRows, w)
        end
    end.

(** The term summed by the cost query, for one row:
    price * (year and month of LEAST(COALESCE(end_date, $1), $1)
             - year and month of GREATEST(start_date, $2) + 1). *)
Definition cost_term (p1 p2 : time.Time) (r : Subscription.t) : Z :=
  Subscription.Price r *
  (EXTRACT_YEAR (LEAST (COALESCE (Subscription.EndDate r) p1) p1) * 12 +
   EXTRACT_MONTH (LEAST (COALESCE (Subscription.EndDate r) p1) p1) -
   EXTRACT_YEAR (GREATEST (Subscription.StartDate r) p2) * 12 -
   EXTRACT_MONTH (GREATEST (Subscription.StartDate r) p2) + 1).

(** WHERE start_date <= $1 AND (end_date IS NULL OR end_date >= $2) *)
Definition cost_where (p1 p2 : time.Time) (r : Subscription.t) : bool :=
  le (Subscription.StartDate r) p1 &&
  match Subscription.EndDate r with
  | None => true
  | Some e => ge e p2
  end.

(** The conditions the repository appends to a query. *)
Definition user_id_eq (u : uuid.UUID) (r : Subscription.t) : bool :=
  uuid.eqb (Subscription.UserID r) u.
Definition service_name_ILIKE (pattern : string) (r : Subscription.t) : bool :=
  ILIKE env (Subscription.ServiceName r) pattern.

Definition all_hold (conditions : list (Subscription.t -> bool))
           (r : Subscription.t) : bool :=
  forallb (fun c => c r) conditions.

(** [db.GetContext] of the cost query with parameters [$1], [$2] and the
    appended conditions. *)
Definition GetContext_total_cost (s : Stmt) (p1 p2 : time.Time)
           (conditions : list (Subscription.t -> bool)) : M (Result Z) :=
  fault <- send s ;;
  fun w =>
    match fault with
    | Some msg => (Err (DriverError msg), w)
    | None =>
        let selected :=
          filter (fun r => cost_where p1 p2 r && all_hold conditions r)
                 (table w) in
        (cast_integer (COALESCE (SUM (map (cost_term p1 p2) selected)) 0), w)
    end.

(** ORDER BY created_at DESC (rows of equal created_at keep their order). *)
Fixpoint insert_desc (r : Subscription.t) (l : list Subscription.t)
  : list Subscription.t :=
  match l with
  | [] => [r]
  | x :: l' =>
      if time.Before (Subscription.CreatedAt r) (Subscription.CreatedAt x)
      then x :: insert_desc r l'
      else r :: l
  end.

Definition ORDER_BY_created_at_DESC (l : list Subscription.t)
  : list Subscription.t :=
  fold_right insert_desc [] l.

(** [db.SelectContext] of the list query. *)
Definition SelectContext_all (s : Stmt)
           (conditions : list (Subscription.t -> bool))
           (limit offset : option Z) : M (Result (list Subscription.t)) :=
  fault <- send s ;;
  fun w =>
    match fault with
    | Some msg => (Err (DriverError msg), w)
    | None =>
        let selected :=
          ORDER_BY_created_at_DESC (filter (all_hold conditions) (table w)) in
        let skipped :=
          match offset with
          | Some o => skipn (Z.to_nat o) selected
          | None => selected
          end in
        let taken :=
          match limit with
          | Some l => firstn (Z.to_nat l) skipped
          | None => skipped
          end in
        (Ok taken, w)
    end.

End WithEnv.
End sql.

(** [time.Now()] and [uuid.New()]: the next reading of each source. *)
Definition time_Now (env : Env) : M time.Time :=
  fun w => (Now env (n_now w),
            {| table := table w; stmts := stmts w;
               n_now := S (n_now w); n_uuid := n_uuid w |}).

Definition uuid_New (env : Env) : M uuid.UUID :=
  fun w => (NewUUID env (n_uuid w),
            {| table := table w; stmts := stmts w;
               n_now := n_now w; n_uuid := S (n_uuid w) |}).

(** ** Package repository *)

Module repository.
Section WithEnv.
Variable env : Env.

Definition Create (subscription : Subscription.t) : M (Result unit) :=
  r <- sql.ExecContext env (INSERT subscription) ;;
  match r with
  | Err err => ret (Err (Errorf "failed to create subscription: " err))
  | Ok _ => ret (Ok tt)
  end.

Definition GetByID (id : uuid.UUID) : M (Result Subscription.t) :=
  r <- sql.GetContext_by_id env (SELECT_BY_ID id) id ;;
  match r with
  | Err err =>
      if errors_Is err ErrNoRows then ret (Err ErrNotFound)
      else ret (Err (Errorf "failed to get subscription: " err))
  | Ok subscription => ret (Ok subscription)
  end.

Definition GetAll (filter : SubscriptionFilter.t)
  : M (Result (list Subscription.t)) :=
  let conditions : list (Subscription.t -> bool) := [] in
  let conditions :=
    match SubscriptionFilter.UserID filter with
    | Some u => (conditions ++ [sql.user_id_eq u])%list
    | None => conditions
    end in
  let conditions :=
    if String.eqb (SubscriptionFilter.ServiceName filter) "" then conditions
    else (conditions ++
          [sql.service_name_ILIKE env
             ("%" ++ SubscriptionFilter.ServiceName filter ++ "%")])%list in
  let limit :=
    if SubscriptionFilter.Limit filter >? 0
    then Some (SubscriptionFilter.Limit filter) else None in
  let offset :=
    if SubscriptionFilter.Offset filter >? 0
    then Some (SubscriptionFilter.Offset filter) else None in
  r <- sql.SelectContext_all env (SELECT_ALL filter) conditions limit offset ;;
  match r with
  | Err err => ret (Err (Errorf "failed to get subscriptions: " err))
  | Ok subscriptions => ret (Ok subscriptions)
  end.

Definition Update (subscription : Subscription.t) : M (Result unit) :=
  r <- sql.ExecContext env (UPDATE subscription) ;;
  match r with
  | Err err => ret (Err (Errorf "failed to update subscription: " err))
  | Ok result =>
      match sql.RowsAffected result with
      | Err err => ret (Err (Errorf "failed to get rows affected: " err))
      | Ok rowsAffected =>
          if rowsAffected =? 0 then ret (Err ErrNotFound)
          else ret (Ok tt)
      end
  end.

Definition Delete (id : uuid.UUID) : M (Result unit) :=
  r <- sql.ExecContext env (DELETE id) ;;
  match r with
  | Err err => ret (Err (Errorf "failed to delete subscription: " err))
  | Ok result =>
      match sql.RowsAffected result with
      | Err err => ret (Err (Errorf "failed to get rows affected: " err))
      | Ok rowsAffected =>
          if rowsAffected =? 0 then ret (Err ErrNotFound)
          else ret (Ok tt)
      end
  end.

Definition GetTotalCost (filter : CostFilter.t) : M (Result Z) :=
  let conditions : list (Subscription.t -> bool) := [] in
  let conditions :=
    match CostFilter.UserID filter with
    | Some u => (conditions ++ [sql.user_id_eq u])%list
    | None => conditions
    end in
  let conditions :=
    if String.eqb (CostFilter.ServiceName filter) "" then conditions
    else (conditions ++
          [sql.service_name_ILIKE env
             ("%" ++ CostFilter.ServiceName filter ++ "%")])%list in
  r <- sql.GetContext_total_cost env (SELECT_TOTAL_COST filter)
         (CostFilter.EndDate filter) (CostFilter.StartDate filter)
         conditions ;;
  match r with
  | Err err => ret (Err (Errorf "failed to calculate total cost: " err))
  | Ok totalCost => ret (Ok totalCost)
  end.

(** Modelled from the spec: the abort of a transaction, part of the absent
    [UpdateAtomically]; the table is again the one the transaction started
    from. *)
Definition rollback (t0 : list Subscription.t) : M unit :=
  _ <- sql.send env ROLLBACK ;;
  fun w => (tt, set_table t0 w).

(** Modelled from the spec: the body of [UpdateAtomically], which the
    repository interface declares and the repository tests call, and which
    the repository file does not define.  The spec's six steps: read the
    row of [id] for update inside a transaction; no row: abort with
    NotFound; run the mutation, and abort with its error if it fails; stamp
    updated_at with the current time; write the row and commit; return the
    entity.  Any failure leaves no write. *)
Definition UpdateAtomically (id : uuid.UUID)
           (updateFn : Subscription.t -> Result Subscription.t)
  : M (Result Subscription.t) :=
  fun w0 =>
    let t0 := table w0 in
    (fault <- sql.send env BEGIN ;;
     match fault with
     | Some msg => ret (Err (DriverError msg))
     | None =>
         r <- sql.GetContext_by_id env (SELECT_FOR_UPDATE id) id ;;
         match r with
         | Err err =>
             _ <- rollback t0 ;;
             ret (Err (if errors_Is err ErrNoRows then ErrNotFound else err))
         | Ok subscription =>
             match updateFn subscription with
             | Err err => _ <- rollback t0 ;; ret (Err err)
             | Ok subscription =>
                 now <- time_Now env ;;
                 let subscription := Subscription.set_UpdatedAt now subscription in
                 r <- sql.ExecContext env (UPDATE subscription) ;;
                 match r with
                 | Err err => _ <- rollback t0 ;; ret (Err err)
                 | Ok _ =>
                     fault <- sql.send env COMMIT ;;
                     match fault with
                     | Some msg =>
                         fun w => (Err (DriverError msg), set_table t0 w)
                     | None => ret (Ok subscription)
                     end
                 end
             end
         end
     end) w0.

End WithEnv.
End repository.

(** ** Package service *)

Module service.
Section WithEnv.
Variable env : Env.

Definition parseMonthYear (s : string) : Result time.Time :=
  of_parse (time.Parse_01_2006 s).

Definition Create (req : CreateSubscriptionReq.t) : M (Result Subscription.t) :=
  match uuid_Parse env (CreateSubscriptionReq.UserID req) with
  | Err err => ret (Err (Errorf "invalid user_id format: " err))
  | Ok userID =>
      match parseMonthYear (CreateSubscriptionReq.StartDate req) with
      | Err err => ret (Err (Errorf "invalid start_date format: " err))
      | Ok startDate =>
          let endDate : Result (option time.Time) :=
            if String.eqb (CreateSubscriptionReq.EndDate req) "" then Ok None
            else match parseMonthYear (CreateSubscriptionReq.EndDate req) with
                 | Err err => Err (Errorf "invalid end_date format: " err)
                 | Ok ed => Ok (Some ed)
                 end in
          match endDate with
          | Err err => ret (Err err)
          | Ok endDate =>
              now <- time_Now env ;;
              id <- uuid_New env ;;
              let subscription :=
                Subscription.mk id
                  (CreateSubscriptionReq.ServiceName req)
                  (CreateSubscriptionReq.Price req)
                  userID startDate endDate now now in
              r <- repository.Create env subscription ;;
              match r with
              | Err err => ret (Err err)
              | Ok _ => ret (Ok subscription)
              end
          end
      end
  end.

Definition GetByID (id : uuid.UUID) : M (Result Subscription.t) :=
  repository.GetByID env id.

Definition GetAll (filter : SubscriptionFilter.t)
  : M (Result (list Subscription.t)) :=
  repository.GetAll env filter.

Definition Update (id : uuid.UUID) (req : UpdateSubscriptionReq.t)
  : M (Result Subscription.t) :=
  r <- repository.GetByID env id ;;
  match r with
  | Err err => ret (Err err)
  | Ok subscription =>
      let subscription :=
        if negb (String.eqb (UpdateSubscriptionReq.ServiceName req) "")
        then Subscription.set_ServiceName
               (UpdateSubscriptionReq.ServiceName req) subscription
        else subscription in
      let subscription :=
        if UpdateSubscriptionReq.Price req >? 0
        then Subscription.set_Price (UpdateSubscriptionReq.Price req) subscription
        else subscription in
      let r :=
        if negb (String.eqb (UpdateSubscriptionReq.StartDate req) "")
        then match parseMonthYear (UpdateSubscriptionReq.StartDate req) with
             | Err err => Err (Errorf "invalid start_date format: " err)
             | Ok startDate =>
                 Ok (Subscription.set_StartDate startDate subscription)
             end
        else Ok subscription in
      match r with
      | Err err => ret (Err err)
      | Ok subscription =>
          let r :=
            if negb (String.eqb (UpdateSubscriptionReq.EndDate req) "")
            then match parseMonthYear (UpdateSubscriptionReq.EndDate req) with
                 | Err err => Err (Errorf "invalid end_date format: " err)
                 | Ok endDate =>
                     Ok (Subscription.set_EndDate (Some endDate) subscription)
                 end
            else Ok subscription in
          match r with
          | Err err => ret (Err err)
          | Ok subscription =>
              now <- time_Now env ;;
              let subscription := Subscription.set_UpdatedAt now subscription in
              r <- repository.Update env subscription ;;
              match r with
              | Err err => ret (Err err)
              | Ok _ => ret (Ok subscription)
              end
          end
      end
  end.

(** The same steps in three groups, for the statements below: the four
    conditional assignments of [Update]; the part of [Update] up to the
    stamp (read with [GetByID], assign, stamp); the part after it (write
    with the repository's [Update]). *)
Definition Update_assign (req : UpdateSubscriptionReq.t)
           (subscription : Subscription.t) : Result Subscription.t :=
  let subscription :=
    if negb (String.eqb (UpdateSubscriptionReq.ServiceName req) "")
    then Subscription.set_ServiceName (UpdateSubscriptionReq.ServiceName req)
           subscription
    else subscription in
  let subscription :=
    if UpdateSubscriptionReq.Price req >? 0
    then Subscription.set_Price (UpdateSubscriptionReq.Price req) subscription
    else subscription in
  let r :=
    if negb (String.eqb (UpdateSubscriptionReq.StartDate req) "")
    then match parseMonthYear (UpdateSubscriptionReq.StartDate req) with
         | Err err => Err (Errorf "invalid start_date format: " err)
         | Ok startDate => Ok (Subscription.set_StartDate startDate subscription)
         end
    else Ok subscription in
  match r with
  | Err err => Err err
  | Ok subscription =>
      if negb (String.eqb (UpdateSubscriptionReq.EndDate req) "")
      then match parseMonthYear (UpdateSubscriptionReq.EndDate req) with
           | Err err => Err (Errorf "invalid end_date format: " err)
           | Ok endDate => Ok (Subscription.set_EndDate (Some endDate) subscription)
           end
      else Ok subscription
  end.

Definition Update_read (id : uuid.UUID) (req : UpdateSubscriptionReq.t)
  : M (Result Subscription.t) :=
  r <- repository.GetByID env id ;;
  match r with
  | Err err => ret (Err err)
  | Ok subscription =>
      match Update_assign req subscription with
      | Err err => ret (Err err)
      | Ok subscription =>
          now <- time_Now env ;;
          ret (Ok (Subscription.set_UpdatedAt now subscription))
      end
  end.

Definition Update_write (subscription : Subscription.t)
  : M (Result Subscription.t) :=
  r <- repository.Update env subscription ;;
  match r with
  | Err err => ret (Err err)
  | Ok _ => ret (Ok subscription)
  end.

Definition Delete (id : uuid.UUID) : M (Result unit) :=
  repository.Delete env id.

Definition GetTotalCost (filter : CostFilter.t)
  : M (Result TotalCostResponse.t) :=
  r <- repository.GetTotalCost env filter ;;
  match r with
  | Err err => ret (Err err)
  | Ok totalCost => ret (Ok (TotalCostResponse.mk totalCost "RUB"))
  end.

End WithEnv.
End service.

(** ** Package strconv *)

Module strconv.

Fixpoint digits (s : string) (acc : Z) : option Z :=
  match s with
  | EmptyString => Some acc
  | String c s' =>
      if time.isDigit c then digits s' (10 * acc + time.digit c) else None
  end.

(** [strconv.Atoi]: an optional sign, then one digit or more, and a value
    that fits the 64 bits of an int. *)
Definition Atoi (s : string) : option Z :=
  let unsigned (s : string) : option Z :=
    match s with
    | EmptyString => None
    | _ => digits s 0
    end in
  let v :=
    match s with
    | String "+" s' => unsigned s'
    | String "-" s' => option_map Z.opp (unsigned s')
    | _ => unsigned s
    end in
  match v with
  | Some z =>
      if (- 9223372036854775808 <=? z) && (z <=? 9223372036854775807)
      then Some z else None
  | None => None
  end.

End strconv.

(** ** Package handler *)

Module handler.

(** What a handler writes: [c.JSON(code, obj)] or [c.Status(code)]. *)
Inductive JSONValue :=
| ErrorResponse (Error : string)
| OfSubscription (s : Subscription.t)
| OfSubscriptions (l : list Subscription.t)
| OfTotalCost (r : TotalCostResponse.t).

Inductive Response :=
| JSON (code : Z) (obj : JSONValue)
| Status (code : Z).

Definition StatusOK := 200.
Definition StatusCreated := 201.
Definition StatusNoContent := 204.
Definition StatusBadRequest := 400.
Definition StatusNotFound := 404.
Definition StatusInternalServerError := 500.

Definition code_of (r : Response) : Z :=
  match r with
  | JSON code _ => code
  | Status code => code
  end.

Definition parseMonthYear (s : string) : Result time.Time :=
  of_parse (time.Parse_01_2006 s).

Definition parseQueryInt (s : string) : option Z := strconv.Atoi s.

Section WithEnv.
Variable env : Env.

(** The handlers take what gin hands them: [bound] is the outcome of
    [c.ShouldBindJSON], [idParam] is [c.Param] of id, and the other strings
    are the [c.Query] values (empty when the parameter is absent). *)

Definition CreateSubscription (bound : Result CreateSubscriptionReq.t)
  : M Response :=
  match bound with
  | Err err =>
      ret (JSON StatusBadRequest
             (ErrorResponse ("invalid request body: " ++ Error err)))
  | Ok req =>
      r <- service.Create env req ;;
      match r with
      | Err err => ret (JSON StatusInternalServerError (ErrorResponse (Error err)))
      | Ok subscription => ret (JSON StatusCreated (OfSubscription subscription))
      end
  end.

Definition GetSubscription (idParam : string) : M Response :=
  match uuid_Parse env idParam with
  | Err _ => ret (JSON StatusBadRequest (ErrorResponse "invalid subscription ID"))
  | Ok id =>
      r <- service.GetByID env id ;;
      match r with
      | Err err =>
          if errors_Is err ErrNotFound
          then ret (JSON StatusNotFound (ErrorResponse "subscription not found"))
          else ret (JSON StatusInternalServerError (ErrorResponse (Error err)))
      | Ok subscription => ret (JSON StatusOK (OfSubscription subscription))
      end
  end.

Definition GetAllSubscriptions (service_name user_id limit offset : string)
  : M Response :=
  let userID : Result (option uuid.UUID) :=
    if negb (String.eqb user_id "") then
      match uuid_Parse env user_id with
      | Err err => Err err
      | Ok u => Ok (Some u)
      end
    else Ok None in
  match userID with
  | Err _ => ret (JSON StatusBadRequest (ErrorResponse "invalid user_id format"))
  | Ok userID =>
      let l :=
        if negb (String.eqb limit "") then
          match parseQueryInt limit with
          | Some l => if l >? 0 then l else 20
          | None => 20
          end
        else 20 in
      let o :=
        if negb (String.eqb offset "") then
          match parseQueryInt offset with
          | Some o => if o >=? 0 then o else 0
          | None => 0
          end
        else 0 in
      let filter := SubscriptionFilter.mk userID service_name l o in
      r <- service.GetAll env filter ;;
      match r with
      | Err err => ret (JSON StatusInternalServerError (ErrorResponse (Error err)))
      | Ok subscriptions => ret (JSON StatusOK (OfSubscriptions subscriptions))
      end
  end.

Definition UpdateSubscription (idParam : string)
           (bound : Result UpdateSubscriptionReq.t) : M Response :=
  match uuid_Parse env idParam with
  | Err _ => ret (JSON StatusBadRequest (ErrorResponse "invalid subscription ID"))
  | Ok id =>
      match bound with
      | Err err =>
          ret (JSON StatusBadRequest
                 (ErrorResponse ("invalid request body: " ++ Error err)))
      | Ok req =>
          r <- service.Update env id req ;;
          match r with
          | Err err =>
              if errors_Is err ErrNotFound
              then ret (JSON StatusNotFound (ErrorResponse "subscription not found"))
              else ret (JSON StatusInternalServerError (ErrorResponse (Error err)))
          | Ok subscription => ret (JSON StatusOK (OfSubscription subscription))
          end
      end
  end.

Definition DeleteSubscription (idParam : string) : M Response :=
  match uuid_Parse env idParam with
  | Err _ => ret (JSON StatusBadRequest (ErrorResponse "invalid subscription ID"))
  | Ok id =>
      r <- service.Delete env id ;;
      match r with
      | Err err =>
          if errors_Is err ErrNotFound
          then ret (JSON StatusNotFound (ErrorResponse "subscription not found"))
          else ret (JSON StatusInternalServerError (ErrorResponse (Error err)))
      | Ok _ => ret (Status StatusNoContent)
      end
  end.

Definition GetTotalCost (start_date end_date service_name user_id : string)
  : M Response :=
  if String.eqb start_date "" || String.eqb end_date "" then
    ret (JSON StatusBadRequest
           (ErrorResponse "start_date and end_date are required"))
  else
    match parseMonthYear start_date with
    | Err _ =>
        ret (JSON StatusBadRequest
               (ErrorResponse "invalid start_date format, expected MM-YYYY"))
    | Ok startDate =>
        match parseMonthYear end_date with
        | Err _ =>
            ret (JSON StatusBadRequest
                   (ErrorResponse "invalid end_date format, expected MM-YYYY"))
        | Ok endDate =>
            let userID : Result (option uuid.UUID) :=
              if negb (String.eqb user_id "") then
                match uuid_Parse env user_id with
                | Err err => Err err
                | Ok u => Ok (Some u)
                end
              else Ok None in
            match userID with
            | Err _ =>
                ret (JSON StatusBadRequest (ErrorResponse "invalid user_id format"))
            | Ok userID =>
                let filter := CostFilter.mk userID service_name startDate endDate in
                r <- service.GetTotalCost env filter ;;
                match r with
                | Err err =>
                    ret (JSON StatusInternalServerError (ErrorResponse (Error err)))
                | Ok result => ret (JSON StatusOK (OfTotalCost result))
                end
            end
        end
    end.

End WithEnv.
End handler.

(** ** An environment to run the model on *)

(** LIKE patterns over ASCII: [%] stands for any string, [_] for any one
    character, a backslash takes the next character literally; ILIKE
    compares letters without their case. *)
Module like.

Inductive token :=
| AnyString
| AnyChar
| Literal (c : ascii).

Fixpoint tokens (pattern : string) : list token :=
  match pattern with
  | EmptyString => []
  | String c p =>
      if Ascii.eqb c "%" then AnyString :: tokens p
      else if Ascii.eqb c "_" then AnyChar :: tokens p
      else if Ascii.eqb c "\" then
        match p with
        | String d p' => Literal d :: tokens p'
        | EmptyString => [Literal c]
        end
      else Literal c :: tokens p
  end.

Definition lower (c : ascii) : ascii :=
  let n := nat_of_ascii c in
  if (65 <=? n)%nat && (n <=? 90)%nat then ascii_of_nat (n + 32) else c.

Fixpoint matches (ts : list token) (s : string) : bool :=
  match ts with
  | [] => match s with EmptyString => true | _ => false end
  | AnyString :: ts' =>
      (fix skip (s : string) : bool :=
         matches ts' s ||
         match s with
         | EmptyString => false
         | String _ s' => skip s'
         end) s
  | AnyChar :: ts' =>
      match s with
      | EmptyString => false
      | String _ s' => matches ts' s'
      end
  | Literal c :: ts' =>
      match s with
      | EmptyString => false
      | String d s' => Ascii.eqb (lower c) (lower d) && matches ts' s'
      end
  end.

Definition ilike (subject pattern : string) : bool :=
  matches (tokens pattern) subject.

(** A name with none of the three pattern characters. *)
Fixpoint plain (name : string) : bool :=
  match name with
  | EmptyString => true
  | String c name' =>
      negb (Ascii.eqb c "%") && negb (Ascii.eqb c "_") &&
      negb (Ascii.eqb c "\") && plain name'
  end.



End like.

Module sample.

Definition hex (c : ascii) : option N :=
  let n := N.of_nat (nat_of_ascii c) in
  if (48 <=? n)%N && (n <=? 57)%N then Some (n - 48)%N
  else if (97 <=? n)%N && (n <=? 102)%N then Some (n - 87)%N
  else if (65 <=? n)%N && (n <=? 70)%N then Some (n - 55)%N
  else None.

Definition is_dash_position (pos : nat) : bool :=
  (pos =? 8)%nat || (pos =? 13)%nat || (pos =? 18)%nat || (pos =? 23)%nat.

Fixpoint parse_canonical (s : string) (pos : nat) (acc : N) : option N :=
  match s with
  | EmptyString => if (pos =? 36)%nat then Some acc else None
  | String c s' =>
      if is_dash_position pos then
        if Ascii.eqb c "-" then parse_canonical s' (S pos) acc else None
      else
        match hex c with
        | Some d => parse_canonical s' (S pos) (16 * acc + d)%N
        | None => None
        end
  end.

(** The identifiers in their canonical form of 36 characters. *)
Definition Parse (s : string) : Result uuid.UUID :=
  match parse_canonical s 0 0 with
  | Some u => Ok u
  | None => Err (UUIDError ("invalid UUID format"))
  end.

(** A clock that advances by one nanosecond per reading, identifiers
    counted from 1000, and a database that never fails. *)
Definition env : Env := {|
  Now := fun n => time.Date 2026 time.January 15 (Z.of_nat n);
  NewUUID := fun n => (1000 + N.of_nat n)%N;
  uuid_Parse := Parse;
  driver_fault := fun _ => None;
  rows_fault := fun _ => None;
  ILIKE := like.ilike |}.


Definition month (y : Z) (m : time.Month) : time.Time := time.Date y m 1 0.

Definition user1 : uuid.UUID := 7%N.
Definition user2 : uuid.UUID := 8%N.

(** The subscription of scenario 1 of the spec, and the open-ended ones of
    scenarios 3 and 4. *)
Definition yandex : Subscription.t :=
  Subscription.mk 1%N "Yandex Plus" 400 user1
    (month 2025 time.January) (Some (month 2025 time.December))
    (Now env 0) (Now env 0).

Definition netflix : Subscription.t :=
  Subscription.mk 2%N "Netflix" 300 user2
    (month 2025 time.March) None (Now env 1) (Now env 1).

Definition open_ended : Subscription.t :=
  Subscription.mk 4%N "Kinopoisk" 300 user2
    (month 2025 time.January) None (Now env 3) (Now env 3).

(** A state with the given rows, after ten readings of the clock. *)
Definition world (t : list Subscription.t) : World :=
  {| table := t; stmts := []; n_now := 10; n_uuid := 10 |}.

(** Cost filters: the year 2025, June 2025 for one user and a name, a
    window whose start follows its end, the year 2020, and the windows of
    scenarios 3 and 4 of the spec. *)
Definition year2025 : CostFilter.t :=
  CostFilter.mk None "" (month 2025 time.January) (month 2025 time.December).

Definition june_user1 : CostFilter.t :=
  CostFilter.mk (Some user1) "yand" (month 2025 time.June) (month 2025 time.June).

Definition inverted_window : CostFilter.t :=
  CostFilter.mk None "" (month 2025 time.December) (month 2025 time.January).

Definition year2020 : CostFilter.t :=
  CostFilter.mk None "" (month 2020 time.January) (month 2020 time.December).

Definition january_february : CostFilter.t :=
  CostFilter.mk None "" (month 2025 time.January) (month 2025 time.February).

Definition first_half : CostFilter.t :=
  CostFilter.mk None "" (month 2025 time.January) (month 2025 time.June).

(** A creation whose end date precedes its start date. *)
Definition create_inverted : CreateSubscriptionReq.t :=
  CreateSubscriptionReq.mk "Inverted" 100
    "00000000-0000-0000-0000-000000000007" "06-2025" "03-2025".

(** Scenario 5 of the spec: a subscription is created, then its price
    alone is updated. *)
Definition create_yandex : CreateSubscriptionReq.t :=
  CreateSubscriptionReq.mk "Yandex Plus" 400
    "00000000-0000-0000-0000-000000000007" "01-2025" "12-2025".

Definition after_create : World :=
  snd (service.Create env create_yandex initial).

(** Updates: of the price alone, of the name alone, and with a date in the
    wrong format. *)
Definition price_600 : UpdateSubscriptionReq.t :=
  UpdateSubscriptionReq.mk "" 600 "" "".

Definition rename : UpdateSubscriptionReq.t :=
  UpdateSubscriptionReq.mk "Yandex Plus Updated" 0 "" "".








End sample.

(** ** The cost of one subscription, in the words of the specification *)

Module proration.
Section WithEnv.
Variable env : Env.

Definition min_time (a b : time.Time) : time.Time :=
  if sql.le a b then a else b.
Definition max_time (a b : time.Time) : time.Time :=
  if sql.le a b then b else a.

(** year * 12 + month *)
Definition month_number (t : time.Time) : Z :=
  time.Year t * 12 + time.Month_int (time.Mon t).

Definition effective_end (windowEnd : time.Time) (r : Subscription.t)
  : time.Time :=
  min_time (match Subscription.EndDate r with
            | Some e => e
            | None => windowEnd
            end) windowEnd.

Definition effective_start (windowStart : time.Time) (r : Subscription.t)
  : time.Time :=
  max_time (Subscription.StartDate r) windowStart.

(** The raw count of months: it is not clamped. *)
Definition months (f : CostFilter.t) (r : Subscription.t) : Z :=
  month_number (effective_end (CostFilter.EndDate f) r) -
  month_number (effective_start (CostFilter.StartDate f) r) + 1.

(** start_date <= windowEnd and (end_date is null or end_date >= windowStart) *)
Definition in_window (f : CostFilter.t) (r : Subscription.t) : bool :=
  sql.le (Subscription.StartDate r) (CostFilter.EndDate f) &&
  match Subscription.EndDate r with
  | None => true
  | Some e => sql.le (CostFilter.StartDate f) e
  end.

(** The optional filters: the user, and the service name sought anywhere
    in the row's name by the database's ILIKE. *)
Definition matches_filter (f : CostFilter.t) (r : Subscription.t) : bool :=
  match CostFilter.UserID f with
  | Some u => uuid.eqb (Subscription.UserID r) u
  | None => true
  end &&
  (String.eqb (CostFilter.ServiceName f) "" ||
   ILIKE env (Subscription.ServiceName r)
         ("%" ++ CostFilter.ServiceName f ++ "%")).

Definition contribution (f : CostFilter.t) (r : Subscription.t) : Z :=
  if in_window f r && matches_filter f r
  then Subscription.Price r * months f r
  else 0.

Definition total (f : CostFilter.t) (t : list Subscription.t) : Z :=
  fold_right (fun r acc => contribution f r + acc) 0 t.

End WithEnv.

Definition month_granular (t : time.Time) : Prop :=
  time.Day t = 1 /\ time.Nsec t = 0.

(** The end of a row, when it has one, does not precede its start. *)
Definition ordered (r : Subscription.t) : Prop :=
  match Subscription.EndDate r with
  | None => True
  | Some e => sql.le (Subscription.StartDate r) e = true
  end.

(** The dates of a row are month-granular and ordered. *)
Definition well_dated (r : Subscription.t) : Prop :=
  month_granular (Subscription.StartDate r) /\
  match Subscription.EndDate r with
  | None => True
  | Some e => month_granular e
  end /\
  ordered r.

Definition ordered_window (f : CostFilter.t) : Prop :=
  sql.le (CostFilter.StartDate f) (CostFilter.EndDate f) = true.

Definition well_formed_window (f : CostFilter.t) : Prop :=
  month_granular (CostFilter.StartDate f) /\
  month_granular (CostFilter.EndDate f) /\
  ordered_window f.

Definition fits_integer (z : Z) : Prop :=
  -2147483648 <= z <= 2147483647.

End proration.

(** ** The service-name filter, in the words of the specification *)

Module substring.

(** [name] is read at the head of [subject], the case of the letters
    apart. *)
Fixpoint starts_with (name subject : string) : bool :=
  match name, subject with
  | EmptyString, _ => true
  | String _ _, EmptyString => false
  | String c name', String d subject' =>
      Ascii.eqb (like.lower c) (like.lower d) && starts_with name' subject'
  end.

(** The case-insensitive substring match of the specification: [name] is
    read somewhere in [subject]. *)
Fixpoint contains (name subject : string) : bool :=
  starts_with name subject ||
  match subject with
  | EmptyString => false
  | String _ subject' => contains name subject'
  end.

(** The service-name filter.  For a text with none of the characters %, _
    and backslash it is the case-insensitive substring match; a text with
    one of them is read as the LIKE pattern [%text%], in which they are
    pattern characters. *)
Definition name_matches (text subject : string) : bool :=
  if like.plain text then contains text subject
  else like.ilike subject ("%" ++ text ++ "%").

(** The optional filters of the cost query, the user and the service
    name. *)
Definition matches_filter (f : CostFilter.t) (r : Subscription.t) : bool :=
  match CostFilter.UserID f with
  | Some u => uuid.eqb (Subscription.UserID r) u
  | None => true
  end &&
  (String.eqb (CostFilter.ServiceName f) "" ||
   name_matches (CostFilter.ServiceName f) (Subscription.ServiceName r)).

(** The contribution of one subscription and the total, with the filter
    above. *)
Definition contribution (f : CostFilter.t) (r : Subscription.t) : Z :=
  if proration.in_window f r && matches_filter f r
  then Subscription.Price r * proration.months f r
  else 0.

Definition total (f : CostFilter.t) (t : list Subscription.t) : Z :=
  fold_right (fun r acc => contribution f r + acc) 0 t.



End substring.


(** ** Notions used by the statements *)

(** The state after statement [s] joined the log. *)
Definition sent (s : Stmt) (w : World) : World :=
  {| table := table w; stmts := (stmts w ++ [s])%list;
     n_now := n_now w; n_uuid := n_uuid w |}.

(** The conditions [GetTotalCost] appends for a filter. *)
Definition cost_conditions (env : Env) (f : CostFilter.t)
  : list (Subscription.t -> bool) :=
  let conditions : list (Subscription.t -> bool) := [] in
  let conditions :=
    match CostFilter.UserID f with
    | Some u => (conditions ++ [sql.user_id_eq u])%list
    | None => conditions
    end in
  if String.eqb (CostFilter.ServiceName f) "" then conditions
  else (conditions ++
        [sql.service_name_ILIKE env
           ("%" ++ CostFilter.ServiceName f ++ "%")])%list.


(** The rows after UPDATE with [sub]. *)
Definition updated (sub : Subscription.t) (t : list Subscription.t)
  : list Subscription.t :=
  map (fun r => if sql.has_id (Subscription.ID sub) r
                then sql.set_columns sub r else r) t.

(** The row an id addresses: the one [GetByID] reads. *)
Definition stored (id : uuid.UUID) (w : World) : option Subscription.t :=
  find (sql.has_id id) (table w).

(** The state after the clock was read once more. *)
Definition ticked (w : World) : World :=
  {| table := table w; stmts := stmts w;
     n_now := S (n_now w); n_uuid := n_uuid w |}.

(** What [GetByID] answers in a state, by the fault of the driver. *)
Definition answer_GetByID (env : Env) (id : uuid.UUID) (w : World)
  : Result Subscription.t :=
  match driver_fault env (List.length (stmts w)) with
  | Some msg => Err (Errorf "failed to get subscription: " (DriverError msg))
  | None =>
      match stored id w with
      | Some r => Ok r
      | None => Err ErrNotFound
      end
  end.

(** What the repository's [Update] answers in a state. *)
Definition answer_Update (env : Env) (sub : Subscription.t) (w : World)
  : Result unit :=
  match driver_fault env (List.length (stmts w)) with
  | Some msg => Err (Errorf "failed to update subscription: " (DriverError msg))
  | None =>
      match rows_fault env (List.length (stmts w)) with
      | Some msg => Err (Errorf "failed to get rows affected: " (DriverError msg))
      | None =>
          if Z.of_nat (List.length (filter (sql.has_id (Subscription.ID sub)) (table w))) =? 0
          then Err ErrNotFound else Ok tt
      end
  end.

(** [s] has [sub] somewhere inside. *)
Definition contains (s sub : string) : Prop :=
  exists before after, s = before ++ sub ++ after.




(** The requests of the service, and the state after serving one. *)
Inductive Request :=
| CreateRequest (req : CreateSubscriptionReq.t)
| GetByIDRequest (id : uuid.UUID)
| GetAllRequest (filter : SubscriptionFilter.t)
| UpdateRequest (id : uuid.UUID) (req : UpdateSubscriptionReq.t)
| DeleteRequest (id : uuid.UUID)
| GetTotalCostRequest (filter : CostFilter.t).

Definition serve (env : Env) (r : Request) (w : World) : World :=
  match r with
  | CreateRequest req => snd (service.Create env req w)
  | GetByIDRequest id => snd (service.GetByID env id w)
  | GetAllRequest filter => snd (service.GetAll env filter w)
  | UpdateRequest id req => snd (service.Update env id req w)
  | DeleteRequest id => snd (service.Delete env id w)
  | GetTotalCostRequest filter => snd (service.GetTotalCost env filter w)
  end.

(** The states the service reaches from the empty table. *)
Inductive reachable (env : Env) : World -> Prop :=
| reachable_initial : reachable env initial
| reachable_serve (r : Request) (w : World) :
    reachable env w -> reachable env (serve env r w).

(** Successive readings of the clock strictly increase. *)
Definition increasing_clock (env : Env) : Prop :=
  forall n, time.Before (Now env n) (Now env (S n)) = true.

(** Every stored stamp precedes the next reading of the clock. *)
Definition stamped (env : Env) (w : World) : Prop :=
  Forall (fun r =>
            time.Before (Subscription.UpdatedAt r) (Now env (n_now w)) = true)
         (table w).

(** The three ways in which serving a request changes the table, besides
    leaving it as it is: a row stamped with the reading of the clock is
    appended; the rows of one id take the columns of a subscription stamped
    with the reading of the clock; the rows of one id are removed. *)
Inductive change (env : Env) (w w' : World) : Prop :=
| unchanged :
    table w' = table w ->
    (n_now w' = n_now w \/ n_now w' = S (n_now w)) ->
    change env w w'
| appended (sub : Subscription.t) :
    table w' = (table w ++ [sub])%list ->
    Subscription.UpdatedAt sub = Now env (n_now w) ->
    n_now w' = S (n_now w) ->
    change env w w'
| rewritten (sub : Subscription.t) :
    table w' = updated sub (table w) ->
    Subscription.UpdatedAt sub = Now env (n_now w) ->
    n_now w' = S (n_now w) ->
    change env w w'
| removed (id : uuid.UUID) :
    table w' = filter (fun r => negb (sql.has_id id r)) (table w) ->
    n_now w' = n_now w ->
    change env w w'.

(** The columns no update may touch. *)
Definition identity (r : Subscription.t) : uuid.UUID * uuid.UUID * time.Time :=
  (Subscription.ID r, Subscription.UserID r, Subscription.CreatedAt r).


(** The dates of a row are month-granular. *)
Definition granular_dates (r : Subscription.t) : Prop :=
  proration.month_granular (Subscription.StartDate r) /\
  match Subscription.EndDate r with
  | None => True
  | Some e => proration.month_granular e
  end.

(** A request of creation that passes the checks of [service.Create]: the
    user id and the start date parse, the end date is empty or parses. *)
Definition valid_create (env : Env) (req : CreateSubscriptionReq.t) : Prop :=
  (exists u, uuid_Parse env (CreateSubscriptionReq.UserID req) = Ok u) /\
  (exists t, time.Parse_01_2006 (CreateSubscriptionReq.StartDate req) = inr t) /\
  (CreateSubscriptionReq.EndDate req = "" \/
   exists t, time.Parse_01_2006 (CreateSubscriptionReq.EndDate req) = inr t).

(** In a listing, [a] may stand before [b]: it was not created before [b]. *)
Definition not_older (a b : Subscription.t) : Prop :=
  time.Before (Subscription.CreatedAt a) (Subscription.CreatedAt b) = false.

(** The optional filters of a listing. *)
Definition listed (env : Env) (f : SubscriptionFilter.t) (r : Subscription.t)
  : bool :=
  match SubscriptionFilter.UserID f with
  | Some u => uuid.eqb (Subscription.UserID r) u
  | None => true
  end &&
  (String.eqb (SubscriptionFilter.ServiceName f) "" ||
   ILIKE env (Subscription.ServiceName r)
         ("%" ++ SubscriptionFilter.ServiceName f ++ "%")).

(** The answer to a missing subscription. *)
Definition not_found : handler.Response :=
  handler.JSON handler.StatusNotFound
    (handler.ErrorResponse "subscription not found").

(** * Properties *)

Lemma Month_int_range (m : time.Month) : 1 <= time.Month_int m <= 12.
Proof. destruct m; cbn; lia. Qed.

Lemma Before_iff (t u : time.Time) :
  time.Before t u = true <->
  (time.Year t < time.Year u \/
   (time.Year t = time.Year u /\
    (time.Month_int (time.Mon t) < time.Month_int (time.Mon u) \/
     (time.Month_int (time.Mon t) = time.Month_int (time.Mon u) /\
      (time.Day t < time.Day u \/
       (time.Day t = time.Day u /\ time.Nsec t < time.Nsec u)))))).
Proof.
  unfold time.Before.
  rewrite !orb_true_iff, !andb_true_iff, !orb_true_iff, !andb_true_iff.
  rewrite !orb_true_iff, !andb_true_iff, !Z.ltb_lt, !Z.eqb_eq.
  tauto.
Qed.

Lemma Before_irrefl (t : time.Time) : time.Before t t = false.
Proof.
  destruct (time.Before t t) eqn:E; [|reflexivity].
  apply Before_iff in E. lia.
Qed.

Lemma Before_trans (a b c : time.Time) :
  time.Before a b = true -> time.Before b c = true -> time.Before a c = true.
Proof. rewrite !Before_iff. lia. Qed.

Lemma le_iff (a b : time.Time) :
  sql.le a b = true <-> time.Before b a = false.
Proof. unfold sql.le. apply negb_true_iff. Qed.

Lemma le_month_number (a b : time.Time) :
  sql.le a b = true -> proration.month_number a <= proration.month_number b.
Proof.
  intros H. apply le_iff in H.
  destruct (Z_lt_le_dec (proration.month_number b) (proration.month_number a))
    as [Hlt|]; [|assumption].
  exfalso.
  assert (Hb : time.Before b a = true); [|congruence].
  apply Before_iff. unfold proration.month_number in Hlt.
  pose proof (Month_int_range (time.Mon a)).
  pose proof (Month_int_range (time.Mon b)).
  lia.
Qed.

Lemma Month_int_inj (m n : time.Month) :
  time.Month_int m = time.Month_int n -> m = n.
Proof. destruct m, n; cbn; intros H; solve [reflexivity | discriminate H]. Qed.

Lemma Before_total (a b : time.Time) :
  time.Before a b = false -> time.Before b a = false -> a = b.
Proof.
  intros Hab Hba.
  assert (Ha : ~ (time.Before a b = true)) by congruence.
  assert (Hb : ~ (time.Before b a = true)) by congruence.
  rewrite Before_iff in Ha, Hb.
  destruct a as [ya ma da na], b as [yb mb db nb]; cbn in *.
  assert (ya = yb) by lia. subst yb.
  assert (time.Month_int ma = time.Month_int mb) by lia.
  assert (ma = mb) by (apply Month_int_inj; assumption). subst mb.
  assert (da = db) by lia. subst db.
  assert (na = nb) by lia. subst nb.
  reflexivity.
Qed.

Lemma LEAST_min (a b : time.Time) : sql.LEAST a b = proration.min_time a b.
Proof.
  unfold sql.LEAST, proration.min_time, sql.le.
  destruct (time.Before b a); reflexivity.
Qed.

Lemma GREATEST_max (a b : time.Time) : sql.GREATEST a b = proration.max_time a b.
Proof.
  unfold sql.GREATEST, proration.max_time, sql.le.
  destruct (time.Before a b) eqn:Hab, (time.Before b a) eqn:Hba; cbn;
    try reflexivity.
  - pose proof (Before_trans _ _ _ Hab Hba) as H.
    rewrite Before_irrefl in H. discriminate H.
  - apply Before_total; assumption.
Qed.

(** The summed term is the price times the months of the specification. *)
Lemma cost_term_months (f : CostFilter.t) (r : Subscription.t) :
  sql.cost_term (CostFilter.EndDate f) (CostFilter.StartDate f) r =
  Subscription.Price r * proration.months f r.
Proof.
  unfold sql.cost_term, proration.months, proration.effective_end,
    proration.effective_start, proration.month_number,
    sql.EXTRACT_YEAR, sql.EXTRACT_MONTH, sql.COALESCE.
  rewrite LEAST_min, GREATEST_max.
  destruct (Subscription.EndDate r); lia.
Qed.

Lemma cost_where_in_window (f : CostFilter.t) (r : Subscription.t) :
  sql.cost_where (CostFilter.EndDate f) (CostFilter.StartDate f) r =
  proration.in_window f r.
Proof. reflexivity. Qed.

Lemma COALESCE_SUM (l : list Z) :
  sql.COALESCE (sql.SUM l) 0 = fold_right Z.add 0 l.
Proof. destruct l; reflexivity. Qed.

Lemma sum_of_selected (P : Subscription.t -> bool) (g h : Subscription.t -> Z)
      (t : list Subscription.t) :
  (forall r, h r = if P r then g r else 0) ->
  fold_right Z.add 0 (map g (filter P t)) =
  fold_right (fun r acc => h r + acc) 0 t.
Proof.
  intros Hh. induction t as [|r t IH]; cbn; [reflexivity|].
  rewrite Hh. destruct (P r); cbn; rewrite IH; reflexivity.
Qed.

(** The conditions the repository appends are the filter of the
    specification. *)
Lemma cost_conditions_matches (env : Env) (f : CostFilter.t) (r : Subscription.t) :
  sql.all_hold (cost_conditions env f) r = proration.matches_filter env f r.
Proof.
  unfold cost_conditions, proration.matches_filter, sql.all_hold,
    sql.user_id_eq, sql.service_name_ILIKE.
  destruct (CostFilter.UserID f) as [u|];
    destruct (String.eqb (CostFilter.ServiceName f) ""); cbn;
    rewrite ?andb_true_r, ?orb_false_r; reflexivity.
Qed.

(** What the cost query returns when the driver runs it: the total of the
    specification, through the cast to integer. *)
Lemma GetTotalCost_run (env : Env) (f : CostFilter.t) (w : World) :
  driver_fault env (List.length (stmts w)) = None ->
  repository.GetTotalCost env f w =
  (match sql.cast_integer (proration.total env f (table w)) with
   | Ok z => Ok z
   | Err e => Err (Errorf "failed to calculate total cost: " e)
   end, sent (SELECT_TOTAL_COST f) w).
Proof.
  intros Hfault.
  unfold repository.GetTotalCost. fold (cost_conditions env f).
  unfold sql.GetContext_total_cost, bind, sql.send. rewrite Hfault.
  rewrite COALESCE_SUM.
  rewrite (sum_of_selected _ _ (proration.contribution env f)).
  - fold (proration.total env f (table w)). cbn [table].
    destruct (sql.cast_integer _); reflexivity.
  - intros r. unfold proration.contribution.
    rewrite cost_where_in_window, cost_conditions_matches, cost_term_months.
    reflexivity.
Qed.

Lemma cast_integer_fits (z : Z) :
  proration.fits_integer z -> sql.cast_integer z = Ok z.
Proof.
  unfold proration.fits_integer, sql.cast_integer. intros [Hlo Hhi].
  apply Z.leb_le in Hlo, Hhi. rewrite Hlo, Hhi. reflexivity.
Qed.

(** The total in terms of the ILIKE of the environment, whatever it is.
    For month-granular dates, rows whose end does not precede their
    start and a window whose start does not follow its end, the total that
    GetTotalCost returns is the sum, over the stored subscriptions, of their
    contributions: a subscription with start_date <= windowEnd and (end_date
    null or end_date >= windowStart) that matches the user filter and the
    service-name filter contributes price * (month number of the effective
    end - month number of the effective start + 1), where the effective end
    is min(end_date or windowEnd, windowEnd) and the effective start is
    max(start_date, windowStart); every other subscription contributes 0.
    (The query is run by the driver and the total fits the integer type of
    the query's result; the table is only read.) *)
Theorem GetTotalCost_sums_contributions
        (env : Env) (f : CostFilter.t) (w : World) :
  Forall proration.well_dated (table w) ->
  proration.well_formed_window f ->
  driver_fault env (List.length (stmts w)) = None ->
  proration.fits_integer (proration.total env f (table w)) ->
  fst (repository.GetTotalCost env f w) = Ok (proration.total env f (table w)) /\
  table (snd (repository.GetTotalCost env f w)) = table w.
Proof.
  intros _ _ Hfault Hfits.
  rewrite (GetTotalCost_run env f w Hfault).
  rewrite (cast_integer_fits _ Hfits). split; reflexivity.
Qed.

Lemma GetTotalCost_sums_contributions_witness :
  Forall proration.well_dated (table (sample.world [sample.yandex; sample.netflix])) /\
  proration.well_formed_window sample.year2025 /\
  fst (repository.GetTotalCost sample.env sample.year2025
         (sample.world [sample.yandex; sample.netflix])) = Ok 7800.
Proof.
  assert (Hd : Forall proration.well_dated
                 (table (sample.world [sample.yandex; sample.netflix]))).
  { repeat constructor. }
  assert (Hw : proration.well_formed_window sample.year2025).
  { repeat constructor. }
  split; [exact Hd|]. split; [exact Hw|].
  refine (proj1 (GetTotalCost_sums_contributions sample.env sample.year2025
                   (sample.world [sample.yandex; sample.netflix]) Hd Hw _ _)).
  - reflexivity.
  - vm_compute. split; discriminate.
Defined.

(** ** The months counted for a row *)

Lemma le_refl (a : time.Time) : sql.le a a = true.
Proof. unfold sql.le. rewrite Before_irrefl. reflexivity. Qed.

(** A row that the query counts, whose dates are ordered, in a window that
    is ordered, has one month or more. *)
Lemma months_positive (f : CostFilter.t) (r : Subscription.t) :
  proration.ordered r -> proration.ordered_window f ->
  proration.in_window f r = true ->
  1 <= proration.months f r.
Proof.
  unfold proration.ordered, proration.ordered_window, proration.in_window,
    proration.months, proration.effective_end, proration.effective_start,
    proration.min_time, proration.max_time.
  intros Ho Hw Hin. apply andb_true_iff in Hin as [Hs He].
  assert (Hle : forall a b, sql.le a b = true ->
                 proration.month_number a <= proration.month_number b)
    by apply le_month_number.
  destruct (Subscription.EndDate r) as [e|].
  - destruct (sql.le e (CostFilter.EndDate f)),
      (sql.le (Subscription.StartDate r) (CostFilter.StartDate f));
      match goal with
      | |- 1 <= proration.month_number ?x - proration.month_number ?y + 1 =>
          assert (H : sql.le y x = true) by assumption
      end; specialize (Hle _ _ H); lia.
  - rewrite le_refl.
    destruct (sql.le (Subscription.StartDate r) (CostFilter.StartDate f));
      match goal with
      | |- 1 <= proration.month_number ?x - proration.month_number ?y + 1 =>
          assert (H : sql.le y x = true) by assumption
      end; specialize (Hle _ _ H); lia.
Qed.

Lemma contribution_nonneg (env : Env) (f : CostFilter.t) (r : Subscription.t) :
  proration.ordered r -> proration.ordered_window f ->
  0 < Subscription.Price r ->
  0 <= proration.contribution env f r.
Proof.
  intros Ho Hw Hp. unfold proration.contribution.
  destruct (proration.in_window f r) eqn:Hin; cbn; [|lia].
  destruct (proration.matches_filter env f r); [|lia].
  pose proof (months_positive f r Ho Hw Hin). nia.
Qed.

Lemma total_nonneg (env : Env) (f : CostFilter.t) (t : list Subscription.t) :
  Forall proration.ordered t -> proration.ordered_window f ->
  Forall (fun r => 0 < Subscription.Price r) t ->
  0 <= proration.total env f t.
Proof.
  intros Ho Hw Hp. induction t as [|r t IH]; cbn; [lia|].
  inversion Ho as [|? ? Hor Hot]; inversion Hp as [|? ? Hpr Hpt]; subst.
  pose proof (contribution_nonneg env f r Hor Hw Hpr).
  specialize (IH Hot Hpt).
  unfold proration.total in IH. lia.
Qed.

(** What the cost query returns when the driver fails it. *)
Lemma GetTotalCost_fault (env : Env) (f : CostFilter.t) (w : World) (msg : string) :
  driver_fault env (List.length (stmts w)) = Some msg ->
  repository.GetTotalCost env f w =
  (Err (Errorf "failed to calculate total cost: " (DriverError msg)),
   sent (SELECT_TOTAL_COST f) w).
Proof.
  intros Hfault. unfold repository.GetTotalCost.
  unfold sql.GetContext_total_cost, bind, sql.send. rewrite Hfault.
  reflexivity.
Qed.

Lemma GetTotalCost_Ok (env : Env) (f : CostFilter.t) (w : World) (z : Z) :
  fst (repository.GetTotalCost env f w) = Ok z ->
  z = proration.total env f (table w).
Proof.
  destruct (driver_fault env (List.length (stmts w))) as [msg|] eqn:Hfault.
  - rewrite (GetTotalCost_fault env f w msg Hfault). discriminate.
  - rewrite (GetTotalCost_run env f w Hfault). cbn [fst].
    unfold sql.cast_integer.
    destruct (_ && _); intros H; inversion H. reflexivity.
Qed.

(** C3.  The create operation accepts an end date that precedes the start
    date, and the cost query a window whose start follows its end; the month
    count is not clamped.  After Create of a subscription of price 100 from
    06-2025 to 03-2025, the month count of that subscription in the window
    of the year 2025 is -2 and the total returned is -200, with a positive
    price.  A window whose start follows its end gives the well-dated
    subscription of scenario 1 the month count -10 and the total -4000.  The
    handlers answer both queries with 200 and the negative total. *)
Lemma negative_month_count_and_total :
  let created := service.Create sample.env sample.create_inverted initial in
  (exists sub,
      fst created = Ok sub /\
      table (snd created) = [sub] /\
      0 < Subscription.Price sub /\
      proration.in_window sample.year2025 sub = true /\
      proration.months sample.year2025 sub = -2) /\
  fst (repository.GetTotalCost sample.env sample.year2025 (snd created)) = Ok (-200) /\
  proration.in_window sample.inverted_window sample.yandex = true /\
  proration.months sample.inverted_window sample.yandex = -10 /\
  fst (repository.GetTotalCost sample.env sample.inverted_window
         (sample.world [sample.yandex])) = Ok (-4000) /\
  fst (handler.GetTotalCost sample.env "01-2025" "12-2025" "" "" (snd created)) =
  handler.JSON handler.StatusOK
    (handler.OfTotalCost (TotalCostResponse.mk (-200) "RUB")) /\
  fst (handler.GetTotalCost sample.env "12-2025" "01-2025" "" ""
         (sample.world [sample.yandex])) =
  handler.JSON handler.StatusOK
    (handler.OfTotalCost (TotalCostResponse.mk (-4000) "RUB")).
Proof.
  cbv zeta. split; [|repeat split; reflexivity].
  eexists. repeat split; reflexivity.
Qed.

(** Ordered dates.  When every stored end date, if present, does not precede
    its start date and the window's start does not follow its end, every
    subscription the cost query counts has a month count of 1 or more (the
    count is not clamped: rows outside of the window are left out by the
    WHERE clause), and the total GetTotalCost returns is never negative when
    all stored prices are positive. *)
Theorem counted_months_positive_total_nonneg
        (env : Env) (f : CostFilter.t) (w : World) :
  Forall proration.ordered (table w) ->
  proration.ordered_window f ->
  Forall (fun r => 0 < Subscription.Price r) (table w) ->
  (forall r, In r (table w) -> proration.in_window f r = true ->
             1 <= proration.months f r) /\
  (forall total, fst (repository.GetTotalCost env f w) = Ok total -> 0 <= total).
Proof.
  intros Ho Hw Hp. split.
  - intros r Hr Hin. rewrite Forall_forall in Ho.
    apply months_positive; auto.
  - intros total Htotal. apply GetTotalCost_Ok in Htotal. subst total.
    apply total_nonneg; assumption.
Qed.

Lemma counted_months_positive_total_nonneg_witness :
  Forall proration.ordered (table (sample.world [sample.yandex; sample.netflix])) /\
  proration.ordered_window sample.year2025 /\
  Forall (fun r => 0 < Subscription.Price r)
         (table (sample.world [sample.yandex; sample.netflix])) /\
  1 <= proration.months sample.year2025 sample.netflix /\
  0 <= 7800.
Proof.
  assert (Ho : Forall proration.ordered
                 (table (sample.world [sample.yandex; sample.netflix]))).
  { repeat constructor. }
  assert (Hw : proration.ordered_window sample.year2025) by reflexivity.
  assert (Hp : Forall (fun r => 0 < Subscription.Price r)
                 (table (sample.world [sample.yandex; sample.netflix]))).
  { repeat constructor. }
  pose proof (counted_months_positive_total_nonneg sample.env sample.year2025
                (sample.world [sample.yandex; sample.netflix]) Ho Hw Hp)
    as [Hmonths Htotal].
  split; [exact Ho|]. split; [exact Hw|]. split; [exact Hp|]. split.
  - apply Hmonths; [right; left; reflexivity | reflexivity].
  - apply Htotal. reflexivity.
Defined.

(** ** No matching subscription *)

Lemma total_no_match (env : Env) (f : CostFilter.t) (t : list Subscription.t) :
  (forall r, In r t ->
             proration.in_window f r && proration.matches_filter env f r = false) ->
  proration.total env f t = 0.
Proof.
  induction t as [|r t IH]; intros Hno; cbn; [reflexivity|].
  unfold proration.contribution at 1.
  rewrite (Hno r (or_introl eq_refl)).
  unfold proration.total in IH. rewrite IH; [reflexivity|].
  intros r' Hr'. apply Hno. right. exact Hr'.
Qed.

Lemma service_GetTotalCost_eq (env : Env) (f : CostFilter.t) (w : World) :
  service.GetTotalCost env f w =
  (match fst (repository.GetTotalCost env f w) with
   | Err err => Err err
   | Ok totalCost => Ok (TotalCostResponse.mk totalCost "RUB")
   end, snd (repository.GetTotalCost env f w)).
Proof.
  unfold service.GetTotalCost, bind.
  destruct (repository.GetTotalCost env f w) as [[z|e] w']; reflexivity.
Qed.

(** C10.  When the filter of a cost query matches no stored subscription
    and the driver runs the query, GetTotalCost returns the total 0 (the sum
    over no row is NULL and is coalesced to 0), and the service returns it in
    a response of currency RUB; every response of the service's GetTotalCost
    has the currency RUB. *)
Theorem GetTotalCost_no_match_is_zero_RUB
        (env : Env) (f : CostFilter.t) (w : World) :
  (forall r, In r (table w) ->
             proration.in_window f r && proration.matches_filter env f r = false) ->
  driver_fault env (List.length (stmts w)) = None ->
  fst (repository.GetTotalCost env f w) = Ok 0 /\
  fst (service.GetTotalCost env f w) = Ok (TotalCostResponse.mk 0 "RUB") /\
  (forall f' w' resp,
      fst (service.GetTotalCost env f' w') = Ok resp ->
      TotalCostResponse.Currency resp = "RUB").
Proof.
  intros Hno Hfault.
  assert (H0 : fst (repository.GetTotalCost env f w) = Ok 0).
  { rewrite (GetTotalCost_run env f w Hfault).
    rewrite (total_no_match env f (table w) Hno). reflexivity. }
  split; [exact H0|]. split.
  - rewrite service_GetTotalCost_eq. cbn [fst]. rewrite H0. reflexivity.
  - intros f' w' resp. rewrite service_GetTotalCost_eq. cbn [fst].
    destruct (fst (repository.GetTotalCost env f' w')); intros H;
      inversion H. reflexivity.
Qed.

Lemma GetTotalCost_no_match_is_zero_RUB_witness :
  fst (repository.GetTotalCost sample.env sample.year2020
         (sample.world [sample.yandex; sample.netflix])) = Ok 0 /\
  fst (service.GetTotalCost sample.env sample.year2020
         (sample.world [sample.yandex; sample.netflix])) =
  Ok (TotalCostResponse.mk 0 "RUB").
Proof.
  assert (H : forall r, In r (table (sample.world [sample.yandex; sample.netflix])) ->
                proration.in_window sample.year2020 r &&
                proration.matches_filter sample.env sample.year2020 r = false).
  { intros r [Hr|[Hr|[]]]; subst r; reflexivity. }
  pose proof (GetTotalCost_no_match_is_zero_RUB sample.env sample.year2020
                (sample.world [sample.yandex; sample.netflix]) H eq_refl)
    as [H1 [H2 _]].
  split; assumption.
Defined.

(** ** The repository calls of the update, run *)

Lemma GetByID_run (env : Env) (id : uuid.UUID) (w : World) :
  repository.GetByID env id w = (answer_GetByID env id w, sent (SELECT_BY_ID id) w).
Proof.
  unfold repository.GetByID, sql.GetContext_by_id, bind, sql.send,
    answer_GetByID, stored.
  destruct (driver_fault env (List.length (stmts w))) as [msg|]; [reflexivity|].
  cbn [table].
  destruct (find (sql.has_id id) (table w)); reflexivity.
Qed.

Lemma repository_Update_run (env : Env) (sub : Subscription.t) (w : World) :
  repository.Update env sub w =
  (answer_Update env sub w,
   match driver_fault env (List.length (stmts w)) with
   | Some _ => sent (UPDATE sub) w
   | None => set_table (updated sub (table w)) (sent (UPDATE sub) w)
   end).
Proof.
  unfold repository.Update, sql.ExecContext, bind, sql.send, answer_Update.
  destruct (driver_fault env (List.length (stmts w))) as [msg|]; [reflexivity|].
  cbn [table sql.effect]. unfold sql.RowsAffected. cbn [sql.rows_err sql.rows].
  destruct (rows_fault env (List.length (stmts w))); [reflexivity|].
  destruct (_ =? 0); reflexivity.
Qed.

Lemma Update_split (env : Env) (id : uuid.UUID) (req : UpdateSubscriptionReq.t)
      (w : World) :
  service.Update env id req w =
  (r <- service.Update_read env id req ;;
   match r with
   | Err err => ret (Err err)
   | Ok subscription => service.Update_write env subscription
   end) w.
Proof.
  unfold service.Update, service.Update_read, service.Update_write,
    service.Update_assign, bind, ret.
  destruct (repository.GetByID env id w) as [[old|e] w1]; [|reflexivity].
  destruct (negb (String.eqb (UpdateSubscriptionReq.StartDate req) ""));
    [destruct (service.parseMonthYear _)|];
    try reflexivity;
    (destruct (negb (String.eqb (UpdateSubscriptionReq.EndDate req) ""));
     [destruct (service.parseMonthYear _)|]; reflexivity).
Qed.

Lemma Update_read_run (env : Env) (id : uuid.UUID) (req : UpdateSubscriptionReq.t)
      (w : World) :
  service.Update_read env id req w =
  match answer_GetByID env id w with
  | Err e => (Err e, sent (SELECT_BY_ID id) w)
  | Ok old =>
      match service.Update_assign req old with
      | Err e => (Err e, sent (SELECT_BY_ID id) w)
      | Ok sub =>
          (Ok (Subscription.set_UpdatedAt (Now env (n_now w)) sub),
           ticked (sent (SELECT_BY_ID id) w))
      end
  end.
Proof.
  unfold service.Update_read, bind. rewrite GetByID_run.
  destruct (answer_GetByID env id w) as [old|e]; [|reflexivity].
  destruct (service.Update_assign req old); reflexivity.
Qed.

Lemma Update_write_run (env : Env) (sub : Subscription.t) (w : World) :
  service.Update_write env sub w =
  (match answer_Update env sub w with
   | Err e => Err e
   | Ok _ => Ok sub
   end,
   match driver_fault env (List.length (stmts w)) with
   | Some _ => sent (UPDATE sub) w
   | None => set_table (updated sub (table w)) (sent (UPDATE sub) w)
   end).
Proof.
  unfold service.Update_write, bind. rewrite repository_Update_run.
  destruct (answer_Update env sub w); reflexivity.
Qed.

Lemma Update_run (env : Env) (id : uuid.UUID) (req : UpdateSubscriptionReq.t)
      (w : World) :
  service.Update env id req w =
  match answer_GetByID env id w with
  | Err e => (Err e, sent (SELECT_BY_ID id) w)
  | Ok old =>
      match service.Update_assign req old with
      | Err e => (Err e, sent (SELECT_BY_ID id) w)
      | Ok sub =>
          service.Update_write env
            (Subscription.set_UpdatedAt (Now env (n_now w)) sub)
            (ticked (sent (SELECT_BY_ID id) w))
      end
  end.
Proof.
  rewrite Update_split. unfold bind at 1. rewrite Update_read_run.
  destruct (answer_GetByID env id w) as [old|e]; [|reflexivity].
  destruct (service.Update_assign req old); reflexivity.
Qed.

(** The assignments of [Update] touch neither the identity of the row nor
    its stamp, and an absent field of the request keeps the row's field. *)
Lemma Update_assign_Ok (req : UpdateSubscriptionReq.t) (old sub : Subscription.t) :
  service.Update_assign req old = Ok sub ->
  identity sub = identity old /\
  Subscription.UpdatedAt sub = Subscription.UpdatedAt old /\
  (UpdateSubscriptionReq.ServiceName req = "" ->
   Subscription.ServiceName sub = Subscription.ServiceName old) /\
  (UpdateSubscriptionReq.Price req <= 0 ->
   Subscription.Price sub = Subscription.Price old) /\
  (UpdateSubscriptionReq.StartDate req = "" ->
   Subscription.StartDate sub = Subscription.StartDate old) /\
  (UpdateSubscriptionReq.EndDate req = "" ->
   Subscription.EndDate sub = Subscription.EndDate old).
Proof.
  unfold service.Update_assign.
  destruct (String.eqb_spec (UpdateSubscriptionReq.ServiceName req) "") as [Hn|Hn];
    destruct (Z.gtb_spec (UpdateSubscriptionReq.Price req) 0) as [Hp|Hp];
    destruct (String.eqb_spec (UpdateSubscriptionReq.StartDate req) "") as [Hs|Hs];
    cbn [negb];
    try destruct (service.parseMonthYear (UpdateSubscriptionReq.StartDate req));
    try discriminate;
    destruct (String.eqb_spec (UpdateSubscriptionReq.EndDate req) "") as [He|He];
    cbn [negb];
    try destruct (service.parseMonthYear (UpdateSubscriptionReq.EndDate req));
    try discriminate;
    intros H; inversion H; subst; cbn;
    repeat split; intros; solve [reflexivity | contradiction | lia].
Qed.

Lemma identity_set_UpdatedAt (t : time.Time) (s : Subscription.t) :
  identity (Subscription.set_UpdatedAt t s) = identity s.
Proof. reflexivity. Qed.

Lemma identity_updated (sub : Subscription.t) (t : list Subscription.t) :
  map identity (updated sub t) = map identity t.
Proof.
  unfold updated. induction t as [|r t IH]; cbn; [reflexivity|].
  rewrite IH. destruct (sql.has_id (Subscription.ID sub) r); reflexivity.
Qed.

Lemma has_id_true (id : uuid.UUID) (r : Subscription.t) :
  sql.has_id id r = true <-> Subscription.ID r = id.
Proof. unfold sql.has_id, uuid.eqb. apply N.eqb_eq. Qed.

Lemma stored_has_id (id : uuid.UUID) (w : World) (r : Subscription.t) :
  stored id w = Some r -> Subscription.ID r = id /\ In r (table w).
Proof.
  unfold stored. intros H. apply find_some in H as [Hin Hid].
  split; [apply has_id_true; exact Hid | exact Hin].
Qed.

(** The table after the service's [Update], whatever it answers: the rows of
    before, or those rows after one UPDATE. *)
Lemma Update_table (env : Env) (id : uuid.UUID) (req : UpdateSubscriptionReq.t)
      (w : World) :
  table (snd (service.Update env id req w)) = table w \/
  exists sub, table (snd (service.Update env id req w)) = updated sub (table w).
Proof.
  rewrite Update_run.
  destruct (answer_GetByID env id w) as [old|e]; [|left; reflexivity].
  destruct (service.Update_assign req old) as [sub|e]; [|left; reflexivity].
  rewrite Update_write_run. cbn [snd].
  destruct (driver_fault env _); [left; reflexivity|].
  right. eexists. reflexivity.
Qed.

(** C9.  An update never modifies id and user_id (nor created_at): the
    request has no field for them and the UPDATE statement writes only
    service_name, price, start_date, end_date and updated_at.  After the
    service's Update, whatever it answers, every stored row has the id, the
    user_id and the created_at it had before; the same holds of the
    repository's Update with any subscription; and the subscription that a
    successful Update returns has the id asked for and the user_id of the
    stored row. *)
Theorem Update_preserves_id_and_user
        (env : Env) (id : uuid.UUID) (req : UpdateSubscriptionReq.t) (w : World) :
  map identity (table (snd (service.Update env id req w))) = map identity (table w) /\
  (forall sub, map identity (table (snd (repository.Update env sub w))) =
               map identity (table w)) /\
  (forall old sub,
      stored id w = Some old ->
      fst (service.Update env id req w) = Ok sub ->
      Subscription.ID sub = id /\
      Subscription.UserID sub = Subscription.UserID old /\
      Subscription.CreatedAt sub = Subscription.CreatedAt old).
Proof.
  split; [|split].
  - destruct (Update_table env id req w) as [H|[sub H]]; rewrite H;
      [reflexivity | apply identity_updated].
  - intros sub. rewrite repository_Update_run. cbn [snd].
    destruct (driver_fault env _); cbn [table sent set_table];
      [reflexivity | apply identity_updated].
  - intros old sub Hold. rewrite Update_run.
    unfold answer_GetByID. rewrite Hold.
    destruct (driver_fault env _); [discriminate|].
    destruct (service.Update_assign req old) as [sub0|e] eqn:Ha; [|discriminate].
    rewrite Update_write_run. cbn [fst].
    destruct (answer_Update env _ _); [|discriminate].
    intros H. inversion H; subst sub.
    apply Update_assign_Ok in Ha as [Hid _].
    apply stored_has_id in Hold as [Hold _].
    unfold identity in Hid. inversion Hid as [[H1 H2 H3]].
    cbn. rewrite H1, H2, H3. auto.
Qed.

Lemma Update_preserves_id_and_user_witness :
  map identity (table (snd (service.Update sample.env 1%N sample.price_600
                              (sample.world [sample.yandex; sample.netflix])))) =
  [identity sample.yandex; identity sample.netflix] /\
  (exists sub,
      fst (service.Update sample.env 1%N sample.price_600
             (sample.world [sample.yandex; sample.netflix])) = Ok sub /\
      Subscription.ID sub = 1%N /\
      Subscription.UserID sub = sample.user1).
Proof.
  pose proof (Update_preserves_id_and_user sample.env 1%N sample.price_600
                (sample.world [sample.yandex; sample.netflix])) as [H1 [_ H3]].
  split; [exact H1|].
  eexists. split; [reflexivity|].
  specialize (H3 sample.yandex _ eq_refl eq_refl) as [Hid [Hu _]].
  split; [exact Hid | exact Hu].
Defined.

(** ** The statements an update sends *)

(** C2 (what the code does).  The service's Update sends the plain SELECT
    of GetByID and then, at most, one UPDATE: it opens no transaction, reads
    the row with no lock, and never calls UpdateAtomically. *)
Theorem Update_sends_select_then_update
        (env : Env) (id : uuid.UUID) (req : UpdateSubscriptionReq.t) (w : World) :
  stmts (snd (service.Update env id req w)) = (stmts w ++ [SELECT_BY_ID id])%list \/
  exists sub,
    stmts (snd (service.Update env id req w)) =
    (stmts w ++ [SELECT_BY_ID id; UPDATE sub])%list.
Proof.
  rewrite Update_run.
  destruct (answer_GetByID env id w) as [old|e]; [|left; reflexivity].
  destruct (service.Update_assign req old) as [sub|e]; [|left; reflexivity].
  right. exists (Subscription.set_UpdatedAt (Now env (n_now w)) sub).
  rewrite Update_write_run. cbn [snd].
  destruct (driver_fault env _); cbn [stmts sent set_table ticked];
    rewrite <- app_assoc; reflexivity.
Qed.

(** Two updates of one row, the second reading before the first has
    written: both succeed, and the price set by the first is lost.  Served
    one after the other, both changes are kept. *)
Lemma Update_interleaved_loses_price :
  let w0 := sample.world [sample.yandex] in
  let (a, w1) := service.Update_read sample.env 1%N sample.price_600 w0 in
  let (b, w2) := service.Update_read sample.env 1%N sample.rename w1 in
  match a, b with
  | Ok a, Ok b =>
      let (ra, w3) := service.Update_write sample.env a w2 in
      let (rb, w4) := service.Update_write sample.env b w3 in
      ra = Ok a /\ rb = Ok b /\
      Subscription.Price a = 600 /\
      option_map Subscription.Price (stored 1%N w4) = Some 400 /\
      option_map Subscription.ServiceName (stored 1%N w4) = Some "Yandex Plus Updated"
  | _, _ => False
  end /\
  let w' := snd (service.Update sample.env 1%N sample.rename
                   (snd (service.Update sample.env 1%N sample.price_600 w0))) in
  option_map Subscription.Price (stored 1%N w') = Some 600 /\
  option_map Subscription.ServiceName (stored 1%N w') = Some "Yandex Plus Updated".
Proof. vm_compute. repeat split; reflexivity. Qed.

(** The statements of the coordinator, for comparison: a transaction around
    a locking read and the write. *)
Lemma UpdateAtomically_statements :
  stmts (snd (repository.UpdateAtomically sample.env 1%N
                (service.Update_assign sample.price_600)
                (sample.world [sample.yandex]))) =
  [BEGIN; SELECT_FOR_UPDATE 1%N;
   UPDATE (Subscription.set_UpdatedAt (Now sample.env 10)
             (Subscription.set_Price 600 sample.yandex));
   COMMIT].
Proof. reflexivity. Qed.

(** ** An id that addresses no row *)

Lemma UpdateAtomically_missing (env : Env) (id : uuid.UUID)
      (updateFn : Subscription.t -> Result Subscription.t) (w : World) :
  stored id w = None ->
  table (snd (repository.UpdateAtomically env id updateFn w)) = table w /\
  (driver_fault env (List.length (stmts w)) = None ->
   driver_fault env (S (List.length (stmts w))) = None ->
   fst (repository.UpdateAtomically env id updateFn w) = Err ErrNotFound).
Proof.
  unfold stored. intros Hno.
  unfold repository.UpdateAtomically, repository.rollback,
    sql.GetContext_by_id, bind, ret, sql.send.
  destruct (driver_fault env (List.length (stmts w))) as [m|];
    [split; [reflexivity | discriminate]|].
  cbn [table stmts]. rewrite Hno.
  rewrite length_app, Nat.add_comm. cbn [List.length Nat.add].
  destruct (driver_fault env (S (List.length (stmts w)))) as [m|];
    cbn; split; solve [reflexivity | discriminate].
Qed.

(** C5.  For an id that addresses no stored subscription, the update
    writes nothing and answers NotFound: the service's Update leaves the
    table as it was and, the SELECT being run by the driver, returns
    ErrNotFound; so does updateAtomically (its BEGIN and its SELECT being
    run), with any mutation. *)
Theorem update_of_missing_id_is_NotFound
        (env : Env) (id : uuid.UUID) (w : World) :
  stored id w = None ->
  (forall req,
      table (snd (service.Update env id req w)) = table w /\
      (driver_fault env (List.length (stmts w)) = None ->
       fst (service.Update env id req w) = Err ErrNotFound)) /\
  (forall updateFn,
      table (snd (repository.UpdateAtomically env id updateFn w)) = table w /\
      (driver_fault env (List.length (stmts w)) = None ->
       driver_fault env (S (List.length (stmts w))) = None ->
       fst (repository.UpdateAtomically env id updateFn w) = Err ErrNotFound)).
Proof.
  intros Hno. split.
  - intros req. rewrite Update_run. unfold answer_GetByID. rewrite Hno.
    destruct (driver_fault env _); split;
      solve [reflexivity | discriminate].
  - intros updateFn. apply UpdateAtomically_missing. exact Hno.
Qed.

Lemma update_of_missing_id_is_NotFound_witness :
  stored 9%N (sample.world [sample.yandex; sample.netflix]) = None /\
  service.Update sample.env 9%N sample.price_600
    (sample.world [sample.yandex; sample.netflix]) =
  (Err ErrNotFound,
   sent (SELECT_BY_ID 9%N) (sample.world [sample.yandex; sample.netflix])) /\
  fst (repository.UpdateAtomically sample.env 9%N
         (service.Update_assign sample.price_600)
         (sample.world [sample.yandex; sample.netflix])) = Err ErrNotFound /\
  table (snd (repository.UpdateAtomically sample.env 9%N
                (service.Update_assign sample.price_600)
                (sample.world [sample.yandex; sample.netflix]))) =
  [sample.yandex; sample.netflix].
Proof.
  pose proof (update_of_missing_id_is_NotFound sample.env 9%N
                (sample.world [sample.yandex; sample.netflix]) eq_refl)
    as [Hs Ha].
  split; [reflexivity|]. split; [reflexivity|].
  destruct (Ha (service.Update_assign sample.price_600)) as [Ht He].
  split; [apply He; reflexivity | exact Ht].
Defined.

(** ** A successful update *)

Lemma find_updated (id : uuid.UUID) (sub old : Subscription.t)
      (t : list Subscription.t) :
  Subscription.ID sub = id ->
  find (sql.has_id id) t = Some old ->
  find (sql.has_id id) (updated sub t) = Some (sql.set_columns sub old).
Proof.
  intros Hid. subst id. unfold updated.
  induction t as [|r t IH]; cbn; [discriminate|].
  destruct (sql.has_id (Subscription.ID sub) r) eqn:Hr.
  - intros H. inversion H; subst r. cbn.
    unfold sql.has_id at 1. cbn. unfold sql.has_id in Hr. rewrite Hr. reflexivity.
  - intros H. rewrite Hr. apply IH. exact H.
Qed.

Lemma set_columns_same_identity (sub old : Subscription.t) :
  identity sub = identity old -> sql.set_columns sub old = sub.
Proof.
  unfold identity, sql.set_columns. intros H. injection H as H1 H2 H3.
  rewrite <- H1, <- H2, <- H3. destruct sub; reflexivity.
Qed.

Lemma find_counted (id : uuid.UUID) (old : Subscription.t)
      (t : list Subscription.t) :
  find (sql.has_id id) t = Some old ->
  (Z.of_nat (List.length (filter (sql.has_id id) t)) =? 0) = false.
Proof.
  induction t as [|r t IH]; cbn; [discriminate|].
  destruct (sql.has_id id r); [|exact IH].
  intros _. cbn [List.length]. apply Z.eqb_neq. lia.
Qed.

(** A successful [Update] of a stored row: the request was assigned to the
    row read, the result was stamped with the reading of the clock, and the
    stored row is now the subscription returned. *)
Lemma Update_Ok (env : Env) (id : uuid.UUID) (req : UpdateSubscriptionReq.t)
      (w : World) (old sub : Subscription.t) :
  stored id w = Some old ->
  fst (service.Update env id req w) = Ok sub ->
  (exists sub0,
      service.Update_assign req old = Ok sub0 /\
      sub = Subscription.set_UpdatedAt (Now env (n_now w)) sub0) /\
  table (snd (service.Update env id req w)) = updated sub (table w) /\
  n_now (snd (service.Update env id req w)) = S (n_now w) /\
  stored id (snd (service.Update env id req w)) = Some sub.
Proof.
  intros Hold. rewrite Update_run. unfold answer_GetByID. rewrite Hold.
  destruct (driver_fault env (List.length (stmts w))); [discriminate|].
  destruct (service.Update_assign req old) as [sub0|e] eqn:Ha; [|discriminate].
  rewrite Update_write_run. cbn [fst snd]. unfold answer_Update.
  destruct (driver_fault env _); [discriminate|].
  destruct (rows_fault env _); [discriminate|].
  destruct (_ =? 0); [discriminate|].
  intros H. inversion H as [Hsub]. clear H.
  split; [exists sub0; split; reflexivity|].
  split; [reflexivity|]. split; [reflexivity|].
  unfold stored. cbn [table set_table sent ticked].
  pose proof (stored_has_id id w old Hold) as [Hid _].
  apply Update_assign_Ok in Ha as [Hident _].
  rewrite (find_updated id _ old); [|rewrite <- Hid; inversion Hident; reflexivity
                                     |exact Hold].
  rewrite set_columns_same_identity; [reflexivity|].
  rewrite identity_set_UpdatedAt. exact Hident.
Qed.

(** With a driver that runs both statements, the update of a stored row
    succeeds as soon as the assignments do. *)
Lemma Update_succeeds (env : Env) (id : uuid.UUID) (req : UpdateSubscriptionReq.t)
      (w : World) (old sub0 : Subscription.t) :
  stored id w = Some old ->
  driver_fault env (List.length (stmts w)) = None ->
  driver_fault env (S (List.length (stmts w))) = None ->
  rows_fault env (S (List.length (stmts w))) = None ->
  service.Update_assign req old = Ok sub0 ->
  fst (service.Update env id req w) =
  Ok (Subscription.set_UpdatedAt (Now env (n_now w)) sub0).
Proof.
  intros Hold Hf1 Hf2 Hr Ha. rewrite Update_run.
  unfold answer_GetByID. rewrite Hold, Hf1, Ha.
  rewrite Update_write_run. cbn [fst]. unfold answer_Update.
  cbn [stmts ticked sent table].
  rewrite length_app, Nat.add_comm. cbn [List.length Nat.add].
  rewrite Hf2, Hr.
  pose proof (stored_has_id id w old Hold) as [Hid _].
  apply Update_assign_Ok in Ha as [Hident _].
  assert (Hsame : Subscription.ID
                    (Subscription.set_UpdatedAt (Now env (n_now w)) sub0) = id).
  { cbn. inversion Hident as [[H1 H2 H3]]. rewrite H1. exact Hid. }
  rewrite Hsame. unfold stored in Hold.
  rewrite (find_counted id old (table w) Hold). reflexivity.
Qed.

Lemma Update_assign_total (req : UpdateSubscriptionReq.t) (old : Subscription.t) :
  (UpdateSubscriptionReq.StartDate req = "" \/
   exists t, time.Parse_01_2006 (UpdateSubscriptionReq.StartDate req) = inr t) ->
  (UpdateSubscriptionReq.EndDate req = "" \/
   exists t, time.Parse_01_2006 (UpdateSubscriptionReq.EndDate req) = inr t) ->
  exists sub0, service.Update_assign req old = Ok sub0.
Proof.
  intros Hs He. unfold service.Update_assign, service.parseMonthYear.
  destruct (String.eqb_spec (UpdateSubscriptionReq.StartDate req) "") as [Hs0|Hs0];
    cbn [negb].
  - destruct (String.eqb_spec (UpdateSubscriptionReq.EndDate req) "") as [He0|He0];
      cbn [negb]; [eexists; reflexivity|].
    destruct He as [He|[t He]]; [contradiction|].
    rewrite He. cbn. eexists; reflexivity.
  - destruct Hs as [Hs|[ts Hs]]; [contradiction|].
    rewrite Hs. cbn [of_parse].
    destruct (String.eqb_spec (UpdateSubscriptionReq.EndDate req) "") as [He0|He0];
      cbn [negb]; [eexists; reflexivity|].
    destruct He as [He|[t He]]; [contradiction|].
    rewrite He. cbn. eexists; reflexivity.
Qed.

(** An update served alone.  For a stored subscription, a driver that runs
    the two statements of the update with no other statement between them,
    and a clock whose reading follows the stored stamp: an
    update that supplies only a positive price succeeds, sets the price, and
    leaves service_name, start_date and end_date unchanged while updated_at
    advances; in every successful update, an empty service name, a zero (or
    negative) price and an empty date string leave the corresponding field
    as it was, and updated_at advances; and an update whose date strings are
    empty or well-formed succeeds.  The stored row is the subscription
    returned. *)
Theorem Update_keeps_absent_fields
        (env : Env) (id : uuid.UUID) (w : World) (old : Subscription.t) :
  stored id w = Some old ->
  driver_fault env (List.length (stmts w)) = None ->
  driver_fault env (S (List.length (stmts w))) = None ->
  rows_fault env (S (List.length (stmts w))) = None ->
  time.Before (Subscription.UpdatedAt old) (Now env (n_now w)) = true ->
  (forall p, 0 < p ->
     let req := UpdateSubscriptionReq.mk "" p "" "" in
     exists sub,
       fst (service.Update env id req w) = Ok sub /\
       stored id (snd (service.Update env id req w)) = Some sub /\
       Subscription.Price sub = p /\
       Subscription.ServiceName sub = Subscription.ServiceName old /\
       Subscription.StartDate sub = Subscription.StartDate old /\
       Subscription.EndDate sub = Subscription.EndDate old /\
       time.Before (Subscription.UpdatedAt old) (Subscription.UpdatedAt sub) = true) /\
  (forall req sub,
     fst (service.Update env id req w) = Ok sub ->
     stored id (snd (service.Update env id req w)) = Some sub /\
     (UpdateSubscriptionReq.ServiceName req = "" ->
      Subscription.ServiceName sub = Subscription.ServiceName old) /\
     (UpdateSubscriptionReq.Price req <= 0 ->
      Subscription.Price sub = Subscription.Price old) /\
     (UpdateSubscriptionReq.StartDate req = "" ->
      Subscription.StartDate sub = Subscription.StartDate old) /\
     (UpdateSubscriptionReq.EndDate req = "" ->
      Subscription.EndDate sub = Subscription.EndDate old) /\
     time.Before (Subscription.UpdatedAt old) (Subscription.UpdatedAt sub) = true) /\
  (forall req,
     (UpdateSubscriptionReq.StartDate req = "" \/
      exists t, time.Parse_01_2006 (UpdateSubscriptionReq.StartDate req) = inr t) ->
     (UpdateSubscriptionReq.EndDate req = "" \/
      exists t, time.Parse_01_2006 (UpdateSubscriptionReq.EndDate req) = inr t) ->
     exists sub, fst (service.Update env id req w) = Ok sub).
Proof.
  intros Hold Hf1 Hf2 Hr Hclock.
  assert (Hany : forall req sub,
             fst (service.Update env id req w) = Ok sub ->
             stored id (snd (service.Update env id req w)) = Some sub /\
             (UpdateSubscriptionReq.ServiceName req = "" ->
              Subscription.ServiceName sub = Subscription.ServiceName old) /\
             (UpdateSubscriptionReq.Price req <= 0 ->
              Subscription.Price sub = Subscription.Price old) /\
             (UpdateSubscriptionReq.StartDate req = "" ->
              Subscription.StartDate sub = Subscription.StartDate old) /\
             (UpdateSubscriptionReq.EndDate req = "" ->
              Subscription.EndDate sub = Subscription.EndDate old) /\
             time.Before (Subscription.UpdatedAt old)
                         (Subscription.UpdatedAt sub) = true).
  { intros req sub Hok.
    destruct (Update_Ok env id req w old sub Hold Hok)
      as [[sub0 [Ha Hsub]] [_ [_ Hst]]].
    apply Update_assign_Ok in Ha as [_ [_ [Hn [Hp [Hs He]]]]].
    subst sub. cbn. repeat split; auto. }
  split; [|split; [exact Hany|]].
  - intros p Hp req.
    assert (Ha : service.Update_assign req old = Ok (Subscription.set_Price p old)).
    { unfold service.Update_assign, req. cbn.
      destruct (Z.gtb_spec p 0); [reflexivity | lia]. }
    pose proof (Update_succeeds env id req w old _ Hold Hf1 Hf2 Hr Ha) as Hok.
    eexists. split; [exact Hok|].
    destruct (Hany req _ Hok) as [Hst _].
    split; [exact Hst|]. cbn. repeat split. exact Hclock.
  - intros req Hs He.
    destruct (Update_assign_total req old Hs He) as [sub0 Ha].
    eexists. apply (Update_succeeds env id req w old sub0); assumption.
Qed.

Lemma Update_keeps_absent_fields_witness :
  stored 1%N (sample.world [sample.yandex; sample.netflix]) = Some sample.yandex /\
  time.Before (Subscription.UpdatedAt sample.yandex) (Now sample.env 10) = true /\
  exists sub,
    fst (service.Update sample.env 1%N sample.price_600
           (sample.world [sample.yandex; sample.netflix])) = Ok sub /\
    Subscription.Price sub = 600 /\
    Subscription.ServiceName sub = "Yandex Plus" /\
    Subscription.StartDate sub = sample.month 2025 time.January /\
    Subscription.EndDate sub = Some (sample.month 2025 time.December) /\
    Subscription.UpdatedAt sub = Now sample.env 10.
Proof.
  pose proof (Update_keeps_absent_fields sample.env 1%N
                (sample.world [sample.yandex; sample.netflix]) sample.yandex
                eq_refl eq_refl eq_refl eq_refl eq_refl) as [Hprice _].
  split; [reflexivity|]. split; [reflexivity|].
  destruct (Hprice 600 ltac:(lia)) as [sub [Hok [_ [Hp [Hn [Hs [He _]]]]]]].
  exists sub. split; [exact Hok|].
  split; [exact Hp|]. split; [exact Hn|]. split; [exact Hs|]. split; [exact He|].
  cbv in Hok. inversion Hok. reflexivity.
Defined.

(** ** A date the update cannot parse *)

Lemma not_NotFound_parse (prefix : string) (pe : time.ParseError) :
  errors_Is (Errorf prefix (ParseError pe)) ErrNotFound = false.
Proof. reflexivity. Qed.





(** ** A failure of the database, at the HTTP boundary *)





Lemma repository_GetAll_fault (env : Env) (filter : SubscriptionFilter.t)
      (w : World) (msg : string) :
  driver_fault env (List.length (stmts w)) = Some msg ->
  repository.GetAll env filter w =
  (Err (Errorf "failed to get subscriptions: " (DriverError msg)),
   sent (SELECT_ALL filter) w).
Proof.
  intros H. unfold repository.GetAll, sql.SelectContext_all, bind, sql.send.
  rewrite H. reflexivity.
Qed.



(** ** The stamps over the life of a subscription *)

Lemma Before_le (a b : time.Time) :
  time.Before a b = true -> sql.le a b = true.
Proof.
  intros H. apply le_iff.
  destruct (time.Before b a) eqn:Hba; [|reflexivity].
  pose proof (Before_trans _ _ _ H Hba) as Haa.
  rewrite Before_irrefl in Haa. discriminate Haa.
Qed.

(** A successful [Create]: the row is stamped twice with one reading of the
    clock and appended to the table. *)
Lemma Create_Ok (env : Env) (req : CreateSubscriptionReq.t) (w : World)
      (sub : Subscription.t) :
  fst (service.Create env req w) = Ok sub ->
  Subscription.CreatedAt sub = Now env (n_now w) /\
  Subscription.UpdatedAt sub = Now env (n_now w) /\
  table (snd (service.Create env req w)) = (table w ++ [sub])%list /\
  n_now (snd (service.Create env req w)) = S (n_now w).
Proof.
  unfold service.Create, bind, ret.
  destruct (uuid_Parse env _); [|discriminate].
  destruct (service.parseMonthYear _); [|discriminate].
  destruct (if String.eqb (CreateSubscriptionReq.EndDate req) "" then _ else _);
    [|discriminate].
  unfold time_Now, uuid_New, repository.Create, sql.ExecContext, bind, ret,
    sql.send.
  cbn [stmts table n_now n_uuid].
  destruct (driver_fault env _); [discriminate|].
  cbn. intros H. inversion H. repeat split; reflexivity.
Qed.

Lemma Create_change (env : Env) (req : CreateSubscriptionReq.t) (w : World) :
  change env w (snd (service.Create env req w)).
Proof.
  destruct (fst (service.Create env req w)) as [sub|e] eqn:Hr.
  - destruct (Create_Ok env req w sub Hr) as [_ [Hu [Ht Hn]]].
    apply (appended env _ _ sub); assumption.
  - revert Hr. unfold service.Create, bind, ret.
    destruct (uuid_Parse env _); [|intros _; apply unchanged; auto].
    destruct (service.parseMonthYear _); [|intros _; apply unchanged; auto].
    destruct (if String.eqb (CreateSubscriptionReq.EndDate req) "" then _ else _);
      [|intros _; apply unchanged; auto].
    unfold time_Now, uuid_New, repository.Create, sql.ExecContext, bind, ret,
      sql.send.
    cbn [stmts table n_now n_uuid].
    destruct (driver_fault env _); [|discriminate].
    intros _. apply unchanged; cbn; auto.
Qed.

Lemma Update_change (env : Env) (id : uuid.UUID) (req : UpdateSubscriptionReq.t)
      (w : World) :
  change env w (snd (service.Update env id req w)).
Proof.
  rewrite Update_run.
  destruct (answer_GetByID env id w) as [old|e]; [|apply unchanged; cbn; auto].
  destruct (service.Update_assign req old) as [sub|e];
    [|apply unchanged; cbn; auto].
  rewrite Update_write_run. cbn [snd].
  destruct (driver_fault env _).
  - apply unchanged; cbn; auto.
  - apply (rewritten env _ _ (Subscription.set_UpdatedAt (Now env (n_now w)) sub));
      reflexivity.
Qed.

Lemma Delete_change (env : Env) (id : uuid.UUID) (w : World) :
  change env w (snd (service.Delete env id w)).
Proof.
  unfold service.Delete, repository.Delete, sql.ExecContext, bind, ret, sql.send.
  destruct (driver_fault env _); [apply unchanged; cbn; auto|].
  cbn [table sql.effect]. unfold sql.RowsAffected. cbn [sql.rows_err sql.rows].
  destruct (rows_fault env _); [apply (removed env _ _ id); reflexivity|].
  destruct (_ =? 0); apply (removed env _ _ id); reflexivity.
Qed.

Lemma serve_change (env : Env) (r : Request) (w : World) :
  change env w (serve env r w).
Proof.
  destruct r as [req|id|filter|id req|id|filter]; cbn [serve].
  - apply Create_change.
  - unfold service.GetByID. rewrite GetByID_run. apply unchanged; cbn; auto.
  - unfold service.GetAll, repository.GetAll, sql.SelectContext_all, bind, ret,
      sql.send.
    destruct (driver_fault env _); apply unchanged; cbn; auto.
  - apply Update_change.
  - apply Delete_change.
  - rewrite service_GetTotalCost_eq. cbn [snd].
    unfold repository.GetTotalCost, sql.GetContext_total_cost, bind, ret, sql.send.
    destruct (driver_fault env _); [apply unchanged; cbn; auto|].
    destruct (sql.cast_integer _); apply unchanged; cbn; auto.
Qed.

Lemma change_stamped (env : Env) (w w' : World) :
  increasing_clock env -> change env w w' -> stamped env w -> stamped env w'.
Proof.
  unfold stamped. intros Hclock Hch Hst.
  assert (Hnext : Forall (fun r => time.Before (Subscription.UpdatedAt r)
                                     (Now env (S (n_now w))) = true) (table w)).
  { eapply Forall_impl; [|exact Hst]. cbn. intros r Hr.
    eapply Before_trans; [exact Hr | apply Hclock]. }
  destruct Hch as [Ht Hn | sub Ht Hu Hn | sub Ht Hu Hn | id Ht Hn]; rewrite Ht.
  - destruct Hn as [Hn|Hn]; rewrite Hn; assumption.
  - rewrite Hn. apply Forall_app. split; [exact Hnext|].
    constructor; [|constructor]. rewrite Hu. apply Hclock.
  - rewrite Hn. unfold updated. apply Forall_map.
    eapply Forall_impl; [|exact Hnext]. cbn. intros r Hr.
    destruct (sql.has_id (Subscription.ID sub) r); [|exact Hr].
    cbn. rewrite Hu. apply Hclock.
  - rewrite Hn. apply Forall_forall. intros r Hr.
    apply filter_In in Hr as [Hr _].
    rewrite Forall_forall in Hst. apply Hst. exact Hr.
Qed.

Lemma reachable_stamped (env : Env) (w : World) :
  increasing_clock env -> reachable env w -> stamped env w.
Proof.
  intros Hclock Hw. induction Hw as [|r w Hw IH].
  - constructor.
  - eapply change_stamped; [exact Hclock | apply serve_change | exact IH].
Qed.

Lemma find_app_found (id : uuid.UUID) (t : list Subscription.t)
      (sub old : Subscription.t) :
  find (sql.has_id id) t = Some old ->
  find (sql.has_id id) (t ++ [sub]) = Some old.
Proof.
  induction t as [|r t IH]; cbn; [discriminate|].
  destruct (sql.has_id id r); [auto | exact IH].
Qed.

Lemma find_updated_other (id : uuid.UUID) (sub : Subscription.t)
      (t : list Subscription.t) :
  Subscription.ID sub <> id ->
  find (sql.has_id id) (updated sub t) = find (sql.has_id id) t.
Proof.
  intros Hne. unfold updated. induction t as [|r t IH]; cbn; [reflexivity|].
  destruct (sql.has_id (Subscription.ID sub) r) eqn:Hr.
  - apply has_id_true in Hr.
    assert (Hn : sql.has_id id r = false).
    { destruct (sql.has_id id r) eqn:E; [|reflexivity].
      apply has_id_true in E. congruence. }
    assert (Hm : sql.has_id id (sql.set_columns sub r) = false) by exact Hn.
    rewrite Hn, Hm. exact IH.
  - rewrite IH. reflexivity.
Qed.

Lemma find_removed (id id' : uuid.UUID) (t : list Subscription.t)
      (new : Subscription.t) :
  find (sql.has_id id) (filter (fun r => negb (sql.has_id id' r)) t) = Some new ->
  find (sql.has_id id) t = Some new.
Proof.
  induction t as [|r t IH]; cbn; [discriminate|].
  destruct (sql.has_id id' r) eqn:Hr'; cbn.
  - intros H. destruct (sql.has_id id r) eqn:Hr.
    + apply has_id_true in Hr, Hr'. subst id'. subst id.
      apply find_some in H as [Hin Hid]. apply filter_In in Hin as [_ Hneg].
      rewrite Hid in Hneg. discriminate Hneg.
    + apply IH. exact H.
  - destruct (sql.has_id id r); [auto | exact IH].
Qed.

(** Serving a request never takes the stamp of a stored row back. *)
Lemma change_monotone (env : Env) (w w' : World) (id : uuid.UUID)
      (old new : Subscription.t) :
  change env w w' -> stamped env w ->
  stored id w = Some old -> stored id w' = Some new ->
  sql.le (Subscription.UpdatedAt old) (Subscription.UpdatedAt new) = true.
Proof.
  unfold stored, stamped. intros Hch Hst Hold Hnew.
  destruct Hch as [Ht Hn | sub Ht Hu Hn | sub Ht Hu Hn | id' Ht Hn];
    rewrite Ht in Hnew.
  - rewrite Hold in Hnew. inversion Hnew. apply le_refl.
  - rewrite (find_app_found id _ sub old Hold) in Hnew.
    inversion Hnew. apply le_refl.
  - destruct (N.eq_dec (Subscription.ID sub) id) as [Hid|Hid].
    + rewrite (find_updated id sub old _ Hid Hold) in Hnew.
      inversion Hnew. cbn. rewrite Hu. apply Before_le.
      rewrite Forall_forall in Hst. apply Hst.
      apply find_some in Hold as [Hin _]. exact Hin.
    + rewrite (find_updated_other id sub _ Hid) in Hnew.
      rewrite Hold in Hnew. inversion Hnew. apply le_refl.
  - apply find_removed in Hnew. rewrite Hold in Hnew.
    inversion Hnew. apply le_refl.
Qed.

(** Requests served one after the other.  With a clock whose successive
    readings strictly increase, in every state the service reaches from the
    empty table by requests served one at a time: a subscription is
    created with created_at equal to updated_at, and is stored; every
    successful update of a stored subscription stores and returns an
    updated_at strictly later than the one stored before; and no request
    served takes the updated_at of a stored subscription back. *)
Theorem updated_at_monotone (env : Env) (w : World) :
  increasing_clock env ->
  reachable env w ->
  (forall req sub,
      fst (service.Create env req w) = Ok sub ->
      Subscription.CreatedAt sub = Subscription.UpdatedAt sub /\
      In sub (table (snd (service.Create env req w)))) /\
  (forall id req old sub,
      stored id w = Some old ->
      fst (service.Update env id req w) = Ok sub ->
      time.Before (Subscription.UpdatedAt old) (Subscription.UpdatedAt sub) = true /\
      stored id (snd (service.Update env id req w)) = Some sub) /\
  (forall r id old new,
      stored id w = Some old ->
      stored id (serve env r w) = Some new ->
      sql.le (Subscription.UpdatedAt old) (Subscription.UpdatedAt new) = true).
Proof.
  intros Hclock Hw.
  pose proof (reachable_stamped env w Hclock Hw) as Hst.
  split; [|split].
  - intros req sub Hok.
    destruct (Create_Ok env req w sub Hok) as [Hc [Hu [Ht _]]].
    split; [congruence|]. rewrite Ht. apply in_or_app. right. left. reflexivity.
  - intros id req old sub Hold Hok.
    destruct (Update_Ok env id req w old sub Hold Hok)
      as [[sub0 [Ha Hsub]] [_ [_ Hstored]]].
    split; [|exact Hstored].
    apply Update_assign_Ok in Ha as [_ [Hu _]].
    subst sub. cbn.
    unfold stamped in Hst. rewrite Forall_forall in Hst. apply Hst.
    apply (stored_has_id id w old Hold).
  - intros r id old new Hold Hnew.
    apply (change_monotone env w (serve env r w) id old new);
      [apply serve_change | exact Hst | exact Hold | exact Hnew].
Qed.

Lemma sample_clock_increasing : increasing_clock sample.env.
Proof. intros n. apply Before_iff. cbn. lia. Qed.

Lemma updated_at_monotone_witness :
  increasing_clock sample.env /\
  reachable sample.env sample.after_create /\
  (exists sub,
      fst (service.Create sample.env sample.create_yandex sample.after_create) = Ok sub /\
      Subscription.CreatedAt sub = Subscription.UpdatedAt sub) /\
  (exists old sub,
      stored 1000%N sample.after_create = Some old /\
      fst (service.Update sample.env 1000%N sample.price_600 sample.after_create) = Ok sub /\
      time.Before (Subscription.UpdatedAt old) (Subscription.UpdatedAt sub) = true).
Proof.
  assert (Hreach : reachable sample.env sample.after_create).
  { apply (reachable_serve sample.env (CreateRequest sample.create_yandex) initial).
    apply reachable_initial. }
  pose proof (updated_at_monotone sample.env sample.after_create
                sample_clock_increasing Hreach) as [Hc [Hu _]].
  split; [exact sample_clock_increasing|]. split; [exact Hreach|]. split.
  - assert (Hok : exists sub,
               fst (service.Create sample.env sample.create_yandex
                      sample.after_create) = Ok sub)
      by (vm_compute; eexists; reflexivity).
    destruct Hok as [sub Hok]. exists sub. split; [exact Hok|].
    exact (proj1 (Hc sample.create_yandex sub Hok)).
  - assert (Hold : exists old, stored 1000%N sample.after_create = Some old)
      by (vm_compute; eexists; reflexivity).
    assert (Hok : exists sub,
               fst (service.Update sample.env 1000%N sample.price_600
                      sample.after_create) = Ok sub)
      by (vm_compute; eexists; reflexivity).
    destruct Hold as [old Hold]. destruct Hok as [sub Hok].
    exists old, sub. split; [exact Hold|]. split; [exact Hok|].
    exact (proj1 (Hu 1000%N sample.price_600 old sub Hold Hok)).
Defined.

(** ** The sample ILIKE on a name without pattern characters *)






(** An underscore in the name sought stands for any character, and a
    backslash takes the next character literally. *)
Example ilike_pattern_characters :
  like.ilike "abc" ("%" ++ "a_c" ++ "%") = true /\
  like.ilike "a\c" ("%" ++ "a\c" ++ "%") = false /\
  like.ilike "Yandex Plus" ("%" ++ "yand" ++ "%") = true.
Proof. repeat split; reflexivity. Qed.

(** ** The scenarios of the specification *)

Example scenario_1 :
  fst (repository.GetTotalCost sample.env sample.year2025
         (sample.world [sample.yandex])) = Ok 4800 /\
  proration.months sample.year2025 sample.yandex = 12.
Proof. split; reflexivity. Qed.

Example scenario_2 :
  fst (repository.GetTotalCost sample.env sample.june_user1
         (sample.world [sample.yandex; sample.netflix])) = Ok 400 /\
  proration.months sample.june_user1 sample.yandex = 1.
Proof. split; reflexivity. Qed.

Example scenario_3 :
  fst (repository.GetTotalCost sample.env sample.january_february
         (sample.world [sample.netflix])) = Ok 0 /\
  proration.in_window sample.january_february sample.netflix = false.
Proof. split; reflexivity. Qed.

Example scenario_4 :
  fst (repository.GetTotalCost sample.env sample.first_half
         (sample.world [sample.open_ended])) = Ok 1800 /\
  proration.months sample.first_half sample.open_ended = 6.
Proof. split; reflexivity. Qed.

(** * The service-name filter of the cost query *)









(** * Two updates of one subscription whose reads precede both writes *)

(** C6.  Two updates of the subscription that Create stored, each read
    before any of the two writes, as the SELECT and the UPDATE of Update
    are two statements outside of a transaction.  One supplies only the
    price 600, the other only a service name.  When the rename writes
    first, the write of the price-only update puts the former service name
    back; when the price-only update writes first, the write of the rename,
    whose price is zero, puts the former price back.  Both updates succeed
    in both orders. *)
Lemma Update_interleaved_resets_absent_fields :
  UpdateSubscriptionReq.ServiceName sample.price_600 = "" /\
  UpdateSubscriptionReq.Price sample.rename = 0 /\
  exists a b w1 w2,
    service.Update_read sample.env 1000%N sample.price_600 sample.after_create
    = (Ok a, w1) /\
    service.Update_read sample.env 1000%N sample.rename w1 = (Ok b, w2) /\
    (exists w3 w4,
        service.Update_write sample.env b w2 = (Ok b, w3) /\
        service.Update_write sample.env a w3 = (Ok a, w4) /\
        option_map Subscription.ServiceName (stored 1000%N w3)
        = Some "Yandex Plus Updated" /\
        option_map Subscription.ServiceName (stored 1000%N w4)
        = Some "Yandex Plus") /\
    (exists w3 w4,
        service.Update_write sample.env a w2 = (Ok a, w3) /\
        service.Update_write sample.env b w3 = (Ok b, w4) /\
        option_map Subscription.Price (stored 1000%N w3) = Some 600 /\
        option_map Subscription.Price (stored 1000%N w4) = Some 400).
Proof.
  split; [reflexivity|]. split; [reflexivity|].
  do 4 eexists.
  split; [vm_compute; reflexivity|].
  split; [vm_compute; reflexivity|].
  split; do 2 eexists.
  - split; [vm_compute; reflexivity|].
    split; [vm_compute; reflexivity|].
    split; reflexivity.
  - split; [vm_compute; reflexivity|].
    split; [vm_compute; reflexivity|].
    split; reflexivity.
Qed.

(** C8.  With the clock of the sample, whose successive readings strictly
    increase, and in the state reached by one Create: two updates of the
    stored subscription read before any of them writes, and take the
    readings 1 and 2 of the clock.  The update that read last writes first
    and stores the updated_at of reading 2; the other then writes, succeeds,
    and stores the updated_at of reading 1, which is earlier. *)
Lemma Update_interleaved_lowers_updated_at :
  increasing_clock sample.env /\
  reachable sample.env sample.after_create /\
  exists a b w1 w2 w3 w4,
    service.Update_read sample.env 1000%N sample.price_600 sample.after_create
    = (Ok a, w1) /\
    service.Update_read sample.env 1000%N sample.rename w1 = (Ok b, w2) /\
    service.Update_write sample.env b w2 = (Ok b, w3) /\
    service.Update_write sample.env a w3 = (Ok a, w4) /\
    option_map Subscription.UpdatedAt (stored 1000%N w3) = Some (Now sample.env 2) /\
    option_map Subscription.UpdatedAt (stored 1000%N w4) = Some (Now sample.env 1) /\
    time.Before (Now sample.env 1) (Now sample.env 2) = true.
Proof.
  split; [exact sample_clock_increasing|].
  split.
  { apply (reachable_serve sample.env (CreateRequest sample.create_yandex) initial).
    apply reachable_initial. }
  do 6 eexists.
  split; [vm_compute; reflexivity|].
  split; [vm_compute; reflexivity|].
  split; [vm_compute; reflexivity|].
  split; [vm_compute; reflexivity|].
  repeat split; reflexivity.
Qed.

(** * Further properties of the operations *)

(** ** Creation *)

(** What a successful [Create] returns: the fields of the request, parsed,
    the next identifier and the reading of the clock. *)
Lemma Create_fields (env : Env) (req : CreateSubscriptionReq.t) (w : World)
      (sub : Subscription.t) :
  fst (service.Create env req w) = Ok sub ->
  Subscription.ID sub = NewUUID env (n_uuid w) /\
  Subscription.ServiceName sub = CreateSubscriptionReq.ServiceName req /\
  Subscription.Price sub = CreateSubscriptionReq.Price req /\
  uuid_Parse env (CreateSubscriptionReq.UserID req) = Ok (Subscription.UserID sub) /\
  time.Parse_01_2006 (CreateSubscriptionReq.StartDate req) =
  inr (Subscription.StartDate sub) /\
  match Subscription.EndDate sub with
  | None => CreateSubscriptionReq.EndDate req = ""
  | Some e =>
      CreateSubscriptionReq.EndDate req <> "" /\
      time.Parse_01_2006 (CreateSubscriptionReq.EndDate req) = inr e
  end.
Proof.
  unfold service.Create, service.parseMonthYear, bind, ret.
  destruct (uuid_Parse env _) as [u|]; [|discriminate].
  destruct (time.Parse_01_2006 (CreateSubscriptionReq.StartDate req)) as [|s];
    cbn [of_parse]; [discriminate|].
  destruct (String.eqb_spec (CreateSubscriptionReq.EndDate req) "") as [He|He].
  - unfold time_Now, uuid_New, repository.Create, sql.ExecContext, bind, ret,
      sql.send. cbn [stmts table n_now n_uuid].
    destruct (driver_fault env _); [discriminate|].
    cbn. intros H. inversion H. cbn. repeat split; auto.
  - destruct (time.Parse_01_2006 (CreateSubscriptionReq.EndDate req)) as [|e];
      cbn [of_parse]; [discriminate|].
    unfold time_Now, uuid_New, repository.Create, sql.ExecContext, bind, ret,
      sql.send. cbn [stmts table n_now n_uuid].
    destruct (driver_fault env _); [discriminate|].
    cbn. intros H. inversion H. cbn. repeat split; auto.
Qed.

Lemma Create_statements (env : Env) (req : CreateSubscriptionReq.t) (w : World)
      (sub : Subscription.t) :
  fst (service.Create env req w) = Ok sub ->
  stmts (snd (service.Create env req w)) = (stmts w ++ [INSERT sub])%list.
Proof.
  unfold service.Create, service.parseMonthYear, bind, ret.
  destruct (uuid_Parse env _) as [u|]; [|discriminate].
  destruct (of_parse _); [|discriminate].
  destruct (if String.eqb (CreateSubscriptionReq.EndDate req) "" then _ else _);
    [|discriminate].
  unfold time_Now, uuid_New, repository.Create, sql.ExecContext, bind, ret,
    sql.send. cbn [stmts table n_now n_uuid].
  destruct (driver_fault env _); [discriminate|].
  cbn. intros H. inversion H. reflexivity.
Qed.

(** A valid request is created as soon as the driver runs the INSERT. *)
Lemma Create_succeeds (env : Env) (req : CreateSubscriptionReq.t) (w : World) :
  valid_create env req ->
  driver_fault env (List.length (stmts w)) = None ->
  exists sub, fst (service.Create env req w) = Ok sub.
Proof.
  intros [[u Hu] [[s Hs] He]] Hfault.
  unfold service.Create, service.parseMonthYear, bind, ret.
  rewrite Hu, Hs. cbn [of_parse].
  assert (Hend : exists endDate,
             (if String.eqb (CreateSubscriptionReq.EndDate req) "" then Ok None
              else match of_parse (time.Parse_01_2006 (CreateSubscriptionReq.EndDate req)) with
                   | Err err => Err (Errorf "invalid end_date format: " err)
                   | Ok ed => Ok (Some ed)
                   end) = Ok endDate).
  { destruct (String.eqb_spec (CreateSubscriptionReq.EndDate req) "");
      [eexists; reflexivity|].
    destruct He as [He|[e He]]; [contradiction|].
    rewrite He. eexists; reflexivity. }
  destruct Hend as [endDate Hend]. rewrite Hend.
  unfold time_Now, uuid_New, repository.Create, sql.ExecContext, bind, ret,
    sql.send. cbn [stmts table n_now n_uuid]. rewrite Hfault.
  eexists. reflexivity.
Qed.

Lemma find_app_new (id : uuid.UUID) (t : list Subscription.t)
      (sub : Subscription.t) :
  find (sql.has_id id) t = None ->
  Subscription.ID sub = id ->
  find (sql.has_id id) (t ++ [sub]) = Some sub.
Proof.
  intros Hno Hid. induction t as [|r t IH]; cbn in *.
  - apply has_id_true in Hid. rewrite Hid. reflexivity.
  - destruct (sql.has_id id r); [discriminate | apply IH; exact Hno].
Qed.

(** X1.  Create, then read: when POST /subscriptions is given a request that
    passes the checks of Create and the driver runs the INSERT, the answer is
    201 with a subscription that has the name and the price of the request,
    the parsed user id and start date, and the next generated id; if that id
    addressed no row before, GET /subscriptions/:id with that id (the driver
    running the SELECT) answers 200 with the same subscription. *)
Theorem create_then_get
        (env : Env) (req : CreateSubscriptionReq.t) (w : World)
        (idParam : string) :
  valid_create env req ->
  driver_fault env (List.length (stmts w)) = None ->
  driver_fault env (S (List.length (stmts w))) = None ->
  stored (NewUUID env (n_uuid w)) w = None ->
  uuid_Parse env idParam = Ok (NewUUID env (n_uuid w)) ->
  exists sub,
    handler.CreateSubscription env (Ok req) w =
    (handler.JSON handler.StatusCreated (handler.OfSubscription sub),
     snd (service.Create env req w)) /\
    Subscription.ID sub = NewUUID env (n_uuid w) /\
    Subscription.ServiceName sub = CreateSubscriptionReq.ServiceName req /\
    Subscription.Price sub = CreateSubscriptionReq.Price req /\
    uuid_Parse env (CreateSubscriptionReq.UserID req) = Ok (Subscription.UserID sub) /\
    time.Parse_01_2006 (CreateSubscriptionReq.StartDate req) =
    inr (Subscription.StartDate sub) /\
    fst (handler.GetSubscription env idParam (snd (service.Create env req w))) =
    handler.JSON handler.StatusOK (handler.OfSubscription sub).
Proof.
  intros Hvalid Hf1 Hf2 Hfresh Hid.
  destruct (Create_succeeds env req w Hvalid Hf1) as [sub Hok].
  destruct (Create_fields env req w sub Hok) as [Hi [Hn [Hp [Hu [Hs _]]]]].
  destruct (Create_Ok env req w sub Hok) as [_ [_ [Ht _]]].
  pose proof (Create_statements env req w sub Hok) as Hst.
  exists sub. split.
  - unfold handler.CreateSubscription, bind, ret.
    destruct (service.Create env req w) as [r w'] eqn:E. cbn [fst snd] in *.
    rewrite Hok. reflexivity.
  - repeat (split; [assumption|]).
    unfold handler.GetSubscription, service.GetByID, bind, ret. rewrite Hid.
    rewrite GetByID_run. unfold answer_GetByID, stored.
    rewrite Hst, length_app, Nat.add_comm. cbn [List.length Nat.add].
    rewrite Hf2, Ht.
    rewrite (find_app_new _ _ sub Hfresh Hi). reflexivity.
Qed.

Lemma create_then_get_witness :
  valid_create sample.env sample.create_yandex /\
  exists sub,
    fst (handler.CreateSubscription sample.env (Ok sample.create_yandex) initial) =
    handler.JSON handler.StatusCreated (handler.OfSubscription sub) /\
    Subscription.ServiceName sub = "Yandex Plus" /\
    Subscription.Price sub = 400 /\
    fst (handler.GetSubscription sample.env "00000000-0000-0000-0000-0000000003e8"
           (snd (service.Create sample.env sample.create_yandex initial))) =
    handler.JSON handler.StatusOK (handler.OfSubscription sub).
Proof.
  assert (Hv : valid_create sample.env sample.create_yandex).
  { split; [eexists; reflexivity|]. split; [eexists; reflexivity|].
    right. eexists; reflexivity. }
  split; [exact Hv|].
  destruct (create_then_get sample.env sample.create_yandex initial
              "00000000-0000-0000-0000-0000000003e8"
              Hv eq_refl eq_refl eq_refl eq_refl)
    as [sub [Hc [_ [Hn [Hp [_ [_ Hg]]]]]]].
  exists sub. rewrite Hc. cbn [fst].
  split; [reflexivity|]. split; [exact Hn|]. split; [exact Hp | exact Hg].
Defined.

(** X2.  A request that Create rejects costs nothing, and the error names
    the first field that fails.  When the user id does not parse, Create
    returns the error of uuid.Parse under the prefix of user_id, whatever
    the dates are.  When the user id parses and the start date does not,
    Create returns the parse error of the start date under the prefix of
    start_date, whatever the end date is.  When both parse and the end date
    is given and does not parse, Create returns the parse error of the end
    date under the prefix of end_date.  In the three cases the state is the
    one of before: no statement is sent, no identifier is drawn, the clock
    is not read.  For a date that does not parse the handler answers 500
    with the prefix followed by the text of the parse error. *)
Theorem Create_rejected_leaves_state
        (env : Env) (req : CreateSubscriptionReq.t) (w : World) :
  (forall e,
      uuid_Parse env (CreateSubscriptionReq.UserID req) = Err e ->
      service.Create env req w =
      (Err (Errorf "invalid user_id format: " e), w)) /\
  (forall u pe,
      uuid_Parse env (CreateSubscriptionReq.UserID req) = Ok u ->
      time.Parse_01_2006 (CreateSubscriptionReq.StartDate req) = inl pe ->
      service.Create env req w =
      (Err (Errorf "invalid start_date format: " (ParseError pe)), w) /\
      handler.CreateSubscription env (Ok req) w =
      (handler.JSON handler.StatusInternalServerError
         (handler.ErrorResponse
            ("invalid start_date format: " ++ time.ParseError_Error pe)), w)) /\
  (forall u startDate pe,
      uuid_Parse env (CreateSubscriptionReq.UserID req) = Ok u ->
      time.Parse_01_2006 (CreateSubscriptionReq.StartDate req) = inr startDate ->
      CreateSubscriptionReq.EndDate req <> "" ->
      time.Parse_01_2006 (CreateSubscriptionReq.EndDate req) = inl pe ->
      service.Create env req w =
      (Err (Errorf "invalid end_date format: " (ParseError pe)), w) /\
      handler.CreateSubscription env (Ok req) w =
      (handler.JSON handler.StatusInternalServerError
         (handler.ErrorResponse
            ("invalid end_date format: " ++ time.ParseError_Error pe)), w)).
Proof.
  unfold handler.CreateSubscription, bind.
  unfold service.Create, service.parseMonthYear, ret.
  split; [|split].
  - intros e He. rewrite He. reflexivity.
  - intros u pe Hu Hs. rewrite Hu, Hs. cbn [of_parse]. split; reflexivity.
  - intros u startDate pe Hu Hs Hne He. rewrite Hu, Hs. cbn [of_parse].
    destruct (String.eqb_spec (CreateSubscriptionReq.EndDate req) "");
      [contradiction|].
    rewrite He. cbn [of_parse]. split; reflexivity.
Qed.

Lemma Create_rejected_leaves_state_witness :
  service.Create sample.env
    (CreateSubscriptionReq.mk "Yandex" 100 "not-a-uuid" "2025-01" "2025-12")
    (sample.world [sample.yandex]) =
  (Err (Errorf "invalid user_id format: " (UUIDError "invalid UUID format")),
   sample.world [sample.yandex]) /\
  (exists pe,
      service.Create sample.env
        (CreateSubscriptionReq.mk "Yandex" 100
           "00000000-0000-0000-0000-000000000007" "2025-01" "2025-12")
        (sample.world [sample.yandex]) =
      (Err (Errorf "invalid start_date format: " (ParseError pe)),
       sample.world [sample.yandex])) /\
  (exists pe,
      service.Create sample.env
        (CreateSubscriptionReq.mk "Yandex" 100
           "00000000-0000-0000-0000-000000000007" "01-2025" "2025-12")
        (sample.world [sample.yandex]) =
      (Err (Errorf "invalid end_date format: " (ParseError pe)),
       sample.world [sample.yandex])).
Proof.
  split; [|split].
  - exact (proj1 (Create_rejected_leaves_state sample.env
                    (CreateSubscriptionReq.mk "Yandex" 100 "not-a-uuid"
                       "2025-01" "2025-12")
                    (sample.world [sample.yandex])) _ eq_refl).
  - eexists.
    exact (proj1 (proj1 (proj2 (Create_rejected_leaves_state sample.env
                    (CreateSubscriptionReq.mk "Yandex" 100
                       "00000000-0000-0000-0000-000000000007"
                       "2025-01" "2025-12")
                    (sample.world [sample.yandex]))) _ _ eq_refl eq_refl)).
  - eexists.
    refine (proj1 (proj2 (proj2 (Create_rejected_leaves_state sample.env
                    (CreateSubscriptionReq.mk "Yandex" 100
                       "00000000-0000-0000-0000-000000000007"
                       "01-2025" "2025-12")
                    (sample.world [sample.yandex]))) _ _ _ eq_refl eq_refl _ eq_refl)).
    discriminate.
Defined.

(** ** Deletion *)

Lemma filter_missing (id : uuid.UUID) (t : list Subscription.t) :
  find (sql.has_id id) t = None ->
  filter (fun r => negb (sql.has_id id r)) t = t /\
  filter (sql.has_id id) t = [].
Proof.
  induction t as [|r t IH]; cbn; [auto|].
  destruct (sql.has_id id r); [discriminate|].
  intros H. destruct (IH H) as [H1 H2]. cbn. rewrite H1. auto.
Qed.

Lemma find_removed_self (id : uuid.UUID) (t : list Subscription.t) :
  find (sql.has_id id) (filter (fun r => negb (sql.has_id id r)) t) = None.
Proof.
  induction t as [|r t IH]; cbn; [reflexivity|].
  destruct (sql.has_id id r) eqn:Hr; cbn; [exact IH|].
  rewrite Hr. exact IH.
Qed.

Lemma find_removed_other (id id' : uuid.UUID) (t : list Subscription.t) :
  id' <> id ->
  find (sql.has_id id') (filter (fun r => negb (sql.has_id id r)) t) =
  find (sql.has_id id') t.
Proof.
  intros Hne. induction t as [|r t IH]; cbn; [reflexivity|].
  destruct (sql.has_id id r) eqn:Hr; cbn.
  - destruct (sql.has_id id' r) eqn:Hr'; [|exact IH].
    apply has_id_true in Hr, Hr'. congruence.
  - destruct (sql.has_id id' r); [reflexivity | exact IH].
Qed.

Lemma Delete_run (env : Env) (id : uuid.UUID) (w : World) :
  driver_fault env (List.length (stmts w)) = None ->
  rows_fault env (List.length (stmts w)) = None ->
  service.Delete env id w =
  (if Z.of_nat (List.length (filter (sql.has_id id) (table w))) =? 0
   then Err ErrNotFound else Ok tt,
   set_table (filter (fun r => negb (sql.has_id id r)) (table w))
             (sent (DELETE id) w)).
Proof.
  intros Hf Hr.
  unfold service.Delete, repository.Delete, sql.ExecContext, bind, ret, sql.send.
  rewrite Hf. cbn [table sql.effect]. unfold sql.RowsAffected.
  cbn [sql.rows_err sql.rows]. rewrite Hr.
  destruct (_ =? 0); reflexivity.
Qed.

(** X3.  Delete, the driver running the statement: for an id that addresses
    no row it returns ErrNotFound and the table is as before; for a stored
    id it succeeds, no row has the id afterwards, every other id addresses
    the row it addressed before, and reading the id next (the driver running
    the SELECT) returns ErrNotFound. *)
Theorem Delete_removes_the_id (env : Env) (id : uuid.UUID) (w : World) :
  driver_fault env (List.length (stmts w)) = None ->
  rows_fault env (List.length (stmts w)) = None ->
  (stored id w = None ->
   fst (service.Delete env id w) = Err ErrNotFound /\
   table (snd (service.Delete env id w)) = table w) /\
  (forall old,
      stored id w = Some old ->
      fst (service.Delete env id w) = Ok tt /\
      stored id (snd (service.Delete env id w)) = None /\
      (forall id', id' <> id ->
                   stored id' (snd (service.Delete env id w)) = stored id' w) /\
      (driver_fault env (S (List.length (stmts w))) = None ->
       fst (service.GetByID env id (snd (service.Delete env id w))) =
       Err ErrNotFound)).
Proof.
  intros Hf Hr. rewrite (Delete_run env id w Hf Hr). cbn [fst snd].
  split.
  - unfold stored. intros Hno.
    destruct (filter_missing id (table w) Hno) as [H1 H2].
    rewrite H2. cbn. split; [reflexivity | exact H1].
  - intros old Hold. unfold stored in *.
    rewrite (find_counted id old (table w) Hold). cbn [table set_table sent].
    split; [reflexivity|]. split; [apply find_removed_self|].
    split; [intros id' Hne; apply find_removed_other; exact Hne|].
    intros Hf2. unfold service.GetByID. rewrite GetByID_run. cbn [fst].
    unfold answer_GetByID, stored. cbn [stmts table set_table sent].
    rewrite length_app, Nat.add_comm. cbn [List.length Nat.add].
    rewrite Hf2, find_removed_self. reflexivity.
Qed.

Lemma Delete_removes_the_id_witness :
  service.Delete sample.env 9%N (sample.world [sample.yandex; sample.netflix]) =
  (Err ErrNotFound,
   sent (DELETE 9%N) (sample.world [sample.yandex; sample.netflix])) /\
  fst (service.Delete sample.env 1%N
         (sample.world [sample.yandex; sample.netflix])) = Ok tt /\
  table (snd (service.Delete sample.env 1%N
                (sample.world [sample.yandex; sample.netflix]))) =
  [sample.netflix].
Proof.
  pose proof (Delete_removes_the_id sample.env 1%N
                (sample.world [sample.yandex; sample.netflix]) eq_refl eq_refl)
    as [_ H].
  split; [reflexivity|].
  split; [exact (proj1 (H sample.yandex eq_refl)) | reflexivity].
Defined.

(** ** The repository's Update *)

Lemma updated_missing (sub : Subscription.t) (t : list Subscription.t) :
  find (sql.has_id (Subscription.ID sub)) t = None -> updated sub t = t.
Proof.
  unfold updated. induction t as [|r t IH]; cbn; [reflexivity|].
  destruct (sql.has_id (Subscription.ID sub) r); [discriminate|].
  intros H. rewrite (IH H). reflexivity.
Qed.

(** X4.  The repository's Update, the driver running the statement: for a
    subscription whose id addresses no row it returns ErrNotFound (no row
    affected) and the table is as before; for one whose id is stored it
    succeeds, and the stored row has the name, price, dates and updated_at of
    the subscription given and the id, user_id and created_at it had. *)
Theorem repository_Update_by_id (env : Env) (sub : Subscription.t) (w : World) :
  driver_fault env (List.length (stmts w)) = None ->
  rows_fault env (List.length (stmts w)) = None ->
  (stored (Subscription.ID sub) w = None ->
   fst (repository.Update env sub w) = Err ErrNotFound /\
   table (snd (repository.Update env sub w)) = table w) /\
  (forall old,
      stored (Subscription.ID sub) w = Some old ->
      fst (repository.Update env sub w) = Ok tt /\
      stored (Subscription.ID sub) (snd (repository.Update env sub w)) =
      Some (Subscription.mk (Subscription.ID old)
              (Subscription.ServiceName sub) (Subscription.Price sub)
              (Subscription.UserID old)
              (Subscription.StartDate sub) (Subscription.EndDate sub)
              (Subscription.CreatedAt old) (Subscription.UpdatedAt sub))).
Proof.
  intros Hf Hr. rewrite repository_Update_run. unfold answer_Update.
  rewrite Hf, Hr. cbn [fst snd table set_table sent]. unfold stored. split.
  - intros Hno. destruct (filter_missing _ (table w) Hno) as [_ H2].
    rewrite H2, (updated_missing sub (table w) Hno). split; reflexivity.
  - intros old Hold. rewrite (find_counted _ old (table w) Hold).
    split; [reflexivity|]. cbn [table set_table sent].
    rewrite (find_updated _ sub old (table w) eq_refl Hold). reflexivity.
Qed.

Lemma repository_Update_by_id_witness :
  fst (repository.Update sample.env sample.open_ended
         (sample.world [sample.yandex; sample.netflix])) = Err ErrNotFound /\
  table (snd (repository.Update sample.env sample.open_ended
                (sample.world [sample.yandex; sample.netflix]))) =
  [sample.yandex; sample.netflix].
Proof.
  exact (proj1 (repository_Update_by_id sample.env sample.open_ended
                  (sample.world [sample.yandex; sample.netflix])
                  eq_refl eq_refl) eq_refl).
Defined.

(** ** Listing *)

Lemma insert_desc_In (r x : Subscription.t) (l : list Subscription.t) :
  In x (sql.insert_desc r l) <-> x = r \/ In x l.
Proof.
  induction l as [|y l IH]; cbn.
  - intuition.
  - destruct (time.Before _ _); cbn; [rewrite IH|]; intuition.
Qed.

Lemma ORDER_BY_In (x : Subscription.t) (l : list Subscription.t) :
  In x (sql.ORDER_BY_created_at_DESC l) <-> In x l.
Proof.
  unfold sql.ORDER_BY_created_at_DESC.
  induction l as [|y l IH]; cbn; [reflexivity|].
  rewrite insert_desc_In, IH. intuition.
Qed.

Lemma ORDER_BY_length (l : list Subscription.t) :
  List.length (sql.ORDER_BY_created_at_DESC l) = List.length l.
Proof.
  unfold sql.ORDER_BY_created_at_DESC.
  induction l as [|y l IH]; cbn; [reflexivity|]. rewrite <- IH. clear IH.
  generalize (fold_right sql.insert_desc [] l). intros s.
  induction s as [|z s IHs]; cbn; [reflexivity|].
  destruct (time.Before _ _); cbn; [rewrite IHs|]; reflexivity.
Qed.

Lemma Before_asym (a b : time.Time) :
  time.Before a b = true -> time.Before b a = false.
Proof. intros H. apply le_iff, Before_le. exact H. Qed.

Lemma insert_desc_Sorted (r : Subscription.t) (l : list Subscription.t) :
  Sorted not_older l -> Sorted not_older (sql.insert_desc r l).
Proof.
  induction l as [|x l IH]; cbn; intros Hs.
  - repeat constructor.
  - destruct (time.Before (Subscription.CreatedAt r) (Subscription.CreatedAt x))
      eqn:Hb.
    + inversion Hs as [|? ? Hl Hh]; subst. constructor; [apply IH; exact Hl|].
      destruct l as [|y l]; cbn.
      * constructor. unfold not_older. apply Before_asym. exact Hb.
      * destruct (time.Before (Subscription.CreatedAt r) (Subscription.CreatedAt y));
          constructor.
        -- inversion Hh. assumption.
        -- unfold not_older. apply Before_asym. exact Hb.
    + constructor; [exact Hs|]. constructor. exact Hb.
Qed.

Lemma ORDER_BY_Sorted (l : list Subscription.t) :
  Sorted not_older (sql.ORDER_BY_created_at_DESC l).
Proof.
  unfold sql.ORDER_BY_created_at_DESC.
  induction l as [|x l IH]; cbn; [constructor | apply insert_desc_Sorted; exact IH].
Qed.

Lemma Sorted_skipn (n : nat) (l : list Subscription.t) :
  Sorted not_older l -> Sorted not_older (skipn n l).
Proof.
  revert l. induction n as [|n IH]; intros l Hs; [exact Hs|].
  destruct l as [|x l]; [constructor|]. cbn. apply IH.
  inversion Hs. assumption.
Qed.

Lemma Sorted_firstn (n : nat) (l : list Subscription.t) :
  Sorted not_older l -> Sorted not_older (firstn n l).
Proof.
  revert l. induction n as [|n IH]; intros l Hs; [constructor|].
  destruct l as [|x l]; [constructor|]. cbn.
  inversion Hs as [|? ? Hl Hh]; subst. constructor; [apply IH; exact Hl|].
  destruct n; [constructor|]. destruct l; [constructor|]. cbn.
  constructor. inversion Hh. assumption.
Qed.

Lemma In_skipn (n : nat) (x : Subscription.t) (l : list Subscription.t) :
  In x (skipn n l) -> In x l.
Proof.
  revert l. induction n as [|n IH]; intros l; [auto|].
  destruct l; cbn; [auto|]. intros H. right. apply IH. exact H.
Qed.

Lemma In_firstn (n : nat) (x : Subscription.t) (l : list Subscription.t) :
  In x (firstn n l) -> In x l.
Proof.
  revert l. induction n as [|n IH]; intros l; cbn; [contradiction|].
  destruct l; cbn; [auto|]. intros [H|H]; [left; exact H | right; apply IH; exact H].
Qed.

(** The conditions [GetAll] appends are the filters of the listing. *)
Lemma GetAll_run (env : Env) (f : SubscriptionFilter.t) (w : World) :
  driver_fault env (List.length (stmts w)) = None ->
  repository.GetAll env f w =
  (Ok (let selected := sql.ORDER_BY_created_at_DESC (filter (listed env f) (table w)) in
       let skipped :=
         if SubscriptionFilter.Offset f >? 0
         then skipn (Z.to_nat (SubscriptionFilter.Offset f)) selected
         else selected in
       if SubscriptionFilter.Limit f >? 0
       then firstn (Z.to_nat (SubscriptionFilter.Limit f)) skipped
       else skipped),
   sent (SELECT_ALL f) w).
Proof.
  intros Hf.
  unfold repository.GetAll, sql.SelectContext_all, bind, ret, sql.send.
  rewrite Hf. cbn [table].
  assert (Hfilter : forall conds,
             (forall r, sql.all_hold conds r = listed env f r) ->
             filter (sql.all_hold conds) (table w) = filter (listed env f) (table w)).
  { intros conds H. apply filter_ext. exact H. }
  rewrite Hfilter.
  - destruct (SubscriptionFilter.Offset f >? 0), (SubscriptionFilter.Limit f >? 0);
      reflexivity.
  - intros r. unfold listed, sql.all_hold, sql.user_id_eq, sql.service_name_ILIKE.
    destruct (SubscriptionFilter.UserID f);
      destruct (String.eqb (SubscriptionFilter.ServiceName f) ""); cbn;
      rewrite ?andb_true_r, ?orb_false_r; reflexivity.
Qed.

Lemma GetAll_limit (env : Env) (f : SubscriptionFilter.t) (w : World)
      (l : list Subscription.t) :
  fst (repository.GetAll env f w) = Ok l ->
  0 < SubscriptionFilter.Limit f ->
  Z.of_nat (List.length l) <= SubscriptionFilter.Limit f.
Proof.
  destruct (driver_fault env (List.length (stmts w))) as [msg|] eqn:Hf.
  { rewrite (repository_GetAll_fault env f w msg Hf). discriminate. }
  rewrite (GetAll_run env f w Hf). cbn [fst].
  intros H Hpos. inversion H as [Hl]. clear H.
  destruct (Z.gtb_spec (SubscriptionFilter.Limit f) 0); [|lia].
  rewrite length_firstn. lia.
Qed.

(** X5.  What GetAll lists: every subscription listed is a stored row that
    passes the user filter and the service-name filter; the list is ordered
    by created_at, most recent first (no row stands before one created after
    it); with a positive limit it has at most that many rows; without limit
    and offset it has every stored row that passes the filters; and the
    table is only read. *)
Theorem GetAll_lists_filtered_newest_first
        (env : Env) (f : SubscriptionFilter.t) (w : World)
        (l : list Subscription.t) :
  fst (repository.GetAll env f w) = Ok l ->
  (forall r, In r l -> In r (table w) /\ listed env f r = true) /\
  Sorted not_older l /\
  (0 < SubscriptionFilter.Limit f ->
   Z.of_nat (List.length l) <= SubscriptionFilter.Limit f) /\
  (SubscriptionFilter.Limit f <= 0 -> SubscriptionFilter.Offset f <= 0 ->
   List.length l = List.length (filter (listed env f) (table w)) /\
   forall r, In r (table w) -> listed env f r = true -> In r l) /\
  table (snd (repository.GetAll env f w)) = table w.
Proof.
  destruct (driver_fault env (List.length (stmts w))) as [msg|] eqn:Hf.
  { rewrite (repository_GetAll_fault env f w msg Hf). discriminate. }
  rewrite (GetAll_run env f w Hf). cbn [fst snd].
  intros H. inversion H as [Hl]. clear H.
  set (selected := sql.ORDER_BY_created_at_DESC (filter (listed env f) (table w))).
  assert (Hsel : forall r, In r selected -> In r (table w) /\ listed env f r = true).
  { intros r Hr. unfold selected in Hr.
    apply (proj1 (ORDER_BY_In r _)) in Hr.
    apply (proj1 (filter_In _ _ _)) in Hr. exact Hr. }
  assert (Hsorted : Sorted not_older selected) by apply ORDER_BY_Sorted.
  split; [|split; [|split; [|split]]].
  - intros r Hr. apply Hsel.
    destruct (SubscriptionFilter.Limit f >? 0);
      [apply In_firstn in Hr|];
      (destruct (SubscriptionFilter.Offset f >? 0);
       [apply In_skipn in Hr|]; exact Hr).
  - destruct (SubscriptionFilter.Limit f >? 0); [apply Sorted_firstn|];
      (destruct (SubscriptionFilter.Offset f >? 0); [apply Sorted_skipn|];
       exact Hsorted).
  - intros Hpos. destruct (Z.gtb_spec (SubscriptionFilter.Limit f) 0); [|lia].
    rewrite length_firstn. lia.
  - intros Hlim Hoff.
    destruct (Z.gtb_spec (SubscriptionFilter.Limit f) 0); [lia|].
    destruct (Z.gtb_spec (SubscriptionFilter.Offset f) 0); [lia|].
    split; [apply ORDER_BY_length|].
    intros r Hr Hm. apply ORDER_BY_In. apply filter_In. auto.
  - reflexivity.
Qed.

Lemma GetAll_lists_filtered_newest_first_witness :
  fst (repository.GetAll sample.env (SubscriptionFilter.mk None "" 1 0)
         (sample.world [sample.yandex; sample.netflix; sample.open_ended])) =
  Ok [sample.open_ended] /\
  Sorted not_older [sample.open_ended].
Proof.
  split; [reflexivity|].
  exact (proj1 (proj2 (GetAll_lists_filtered_newest_first sample.env
                         (SubscriptionFilter.mk None "" 1 0)
                         (sample.world [sample.yandex; sample.netflix;
                                        sample.open_ended])
                         [sample.open_ended] eq_refl))).
Defined.

(** ** The handlers *)

(** X6.  The page size of GET /subscriptions: when the answer is a list, it
    has at most 20 subscriptions unless the limit parameter is a positive
    integer, and at most that many when it is; an empty, malformed, zero or
    negative limit falls back to 20. *)
Theorem GetAllSubscriptions_page_size
        (env : Env) (service_name user_id limit offset : string) (w : World)
        (code : Z) (l : list Subscription.t) :
  fst (handler.GetAllSubscriptions env service_name user_id limit offset w) =
  handler.JSON code (handler.OfSubscriptions l) ->
  Z.of_nat (List.length l) <=
  match strconv.Atoi limit with
  | Some n => if 0 <? n then n else 20
  | None => 20
  end.
Proof.
  unfold handler.GetAllSubscriptions, service.GetAll, handler.parseQueryInt,
    bind, ret.
  destruct (if negb (String.eqb user_id "") then _ else _) as [userID|];
    [|discriminate].
  set (lim := if negb (String.eqb limit "") then _ else 20).
  set (off := if negb (String.eqb offset "") then _ else 0).
  assert (Hlim : lim = match strconv.Atoi limit with
                       | Some n => if 0 <? n then n else 20
                       | None => 20
                       end).
  { unfold lim. destruct (String.eqb_spec limit "") as [H0|H0]; cbn [negb].
    - subst limit. reflexivity.
    - destruct (strconv.Atoi limit) as [n|]; [|reflexivity].
      rewrite Z.gtb_ltb. reflexivity. }
  assert (Hpos : 0 < lim).
  { rewrite Hlim. destruct (strconv.Atoi limit) as [n|]; [|lia].
    destruct (Z.ltb_spec 0 n); lia. }
  rewrite <- Hlim. clear Hlim.
  destruct (repository.GetAll env (SubscriptionFilter.mk userID service_name lim off) w)
    as [[l'|e] w'] eqn:E; [|discriminate].
  intros H. inversion H; subst l'.
  assert (Hok : fst (repository.GetAll env
                       (SubscriptionFilter.mk userID service_name lim off) w) = Ok l)
    by (rewrite E; reflexivity).
  apply (GetAll_limit env _ w l Hok). exact Hpos.
Qed.

Lemma GetAllSubscriptions_page_size_witness :
  fst (handler.GetAllSubscriptions sample.env "" "" "1" "-3"
         (sample.world [sample.yandex; sample.netflix])) =
  handler.JSON 200 (handler.OfSubscriptions [sample.netflix]) /\
  Z.of_nat (List.length [sample.netflix]) <= 1.
Proof.
  split; [reflexivity|].
  exact (GetAllSubscriptions_page_size sample.env "" "" "1" "-3"
           (sample.world [sample.yandex; sample.netflix]) 200 [sample.netflix]
           eq_refl).
Defined.

(** X7.  A request answered with 400 never reached the service: whenever a
    handler answers with the status 400, the state is the one of before (no
    statement was sent, nothing was written). *)
Theorem bad_request_leaves_state (env : Env) (w : World) :
  (forall bound,
      handler.code_of (fst (handler.CreateSubscription env bound w)) = 400 ->
      snd (handler.CreateSubscription env bound w) = w) /\
  (forall idParam,
      handler.code_of (fst (handler.GetSubscription env idParam w)) = 400 ->
      snd (handler.GetSubscription env idParam w) = w) /\
  (forall service_name user_id limit offset,
      handler.code_of
        (fst (handler.GetAllSubscriptions env service_name user_id limit offset w)) = 400 ->
      snd (handler.GetAllSubscriptions env service_name user_id limit offset w) = w) /\
  (forall idParam bound,
      handler.code_of (fst (handler.UpdateSubscription env idParam bound w)) = 400 ->
      snd (handler.UpdateSubscription env idParam bound w) = w) /\
  (forall idParam,
      handler.code_of (fst (handler.DeleteSubscription env idParam w)) = 400 ->
      snd (handler.DeleteSubscription env idParam w) = w) /\
  (forall start_date end_date service_name user_id,
      handler.code_of
        (fst (handler.GetTotalCost env start_date end_date service_name user_id w)) = 400 ->
      snd (handler.GetTotalCost env start_date end_date service_name user_id w) = w).
Proof.
  repeat split.
  - intros bound. unfold handler.CreateSubscription, bind, ret.
    destruct bound as [req|e]; [|reflexivity].
    destruct (service.Create env req w) as [[sub|e] w']; discriminate.
  - intros idParam. unfold handler.GetSubscription, bind, ret.
    destruct (uuid_Parse env idParam) as [id|]; [|reflexivity].
    destruct (service.GetByID env id w) as [[sub|e] w'];
      [|destruct (errors_Is e ErrNotFound)]; discriminate.
  - intros service_name user_id limit offset.
    unfold handler.GetAllSubscriptions, bind, ret.
    destruct (if negb (String.eqb user_id "") then _ else _);
      [|reflexivity].
    destruct (service.GetAll env _ w) as [[l|e] w']; discriminate.
  - intros idParam bound. unfold handler.UpdateSubscription, bind, ret.
    destruct (uuid_Parse env idParam) as [id|]; [|reflexivity].
    destruct bound as [req|e]; [|reflexivity].
    destruct (service.Update env id req w) as [[sub|e] w'];
      [|destruct (errors_Is e ErrNotFound)]; discriminate.
  - intros idParam. unfold handler.DeleteSubscription, bind, ret.
    destruct (uuid_Parse env idParam) as [id|]; [|reflexivity].
    destruct (service.Delete env id w) as [[u|e] w'];
      [|destruct (errors_Is e ErrNotFound)]; discriminate.
  - intros start_date end_date service_name user_id.
    unfold handler.GetTotalCost, bind, ret.
    destruct (String.eqb start_date "" || String.eqb end_date "");
      [reflexivity|].
    destruct (handler.parseMonthYear start_date); [|reflexivity].
    destruct (handler.parseMonthYear end_date); [|reflexivity].
    destruct (if negb (String.eqb user_id "") then _ else _); [|reflexivity].
    destruct (service.GetTotalCost env _ w) as [[r|e] w']; discriminate.
Qed.

Lemma answer_missing (env : Env) (id : uuid.UUID) (w : World) :
  stored id w = None ->
  driver_fault env (List.length (stmts w)) = None ->
  answer_GetByID env id w = Err ErrNotFound.
Proof. intros Hno Hf. unfold answer_GetByID. rewrite Hf, Hno. reflexivity. Qed.

(** X8.  An id that addresses no row is answered with 404: GET, PUT and
    DELETE of /subscriptions/:id, the driver running the statement, answer
    with the status 404 and the text [subscription not found], and the table
    is as before. *)
Theorem missing_id_answered_404
        (env : Env) (idParam : string) (id : uuid.UUID) (w : World) :
  uuid_Parse env idParam = Ok id ->
  stored id w = None ->
  driver_fault env (List.length (stmts w)) = None ->
  rows_fault env (List.length (stmts w)) = None ->
  (fst (handler.GetSubscription env idParam w) = not_found /\
   table (snd (handler.GetSubscription env idParam w)) = table w) /\
  (forall req,
      fst (handler.UpdateSubscription env idParam (Ok req) w) = not_found /\
      table (snd (handler.UpdateSubscription env idParam (Ok req) w)) = table w) /\
  (fst (handler.DeleteSubscription env idParam w) = not_found /\
   table (snd (handler.DeleteSubscription env idParam w)) = table w).
Proof.
  intros Hid Hno Hf Hr.
  pose proof (answer_missing env id w Hno Hf) as Ha.
  split; [|split].
  - unfold handler.GetSubscription, service.GetByID, bind, ret. rewrite Hid.
    rewrite GetByID_run, Ha. split; reflexivity.
  - intros req. unfold handler.UpdateSubscription, bind, ret. rewrite Hid.
    rewrite Update_run, Ha. split; reflexivity.
  - unfold handler.DeleteSubscription, bind, ret. rewrite Hid.
    rewrite (Delete_run env id w Hf Hr).
    destruct (filter_missing id (table w) Hno) as [H1 H2].
    rewrite H2. cbn. split; [reflexivity | exact H1].
Qed.

Lemma missing_id_answered_404_witness :
  fst (handler.GetSubscription sample.env
         "00000000-0000-0000-0000-000000000009"
         (sample.world [sample.yandex])) = not_found /\
  fst (handler.DeleteSubscription sample.env
         "00000000-0000-0000-0000-000000000009"
         (sample.world [sample.yandex])) = not_found.
Proof.
  pose proof (missing_id_answered_404 sample.env
                "00000000-0000-0000-0000-000000000009" 9%N
                (sample.world [sample.yandex]) eq_refl eq_refl eq_refl eq_refl)
    as [Hg [_ Hd]].
  split; [exact (proj1 Hg) | exact (proj1 Hd)].
Defined.

(** X9.  The three GET handlers only read: whatever their input and whatever
    the driver does, the table, the clock and the identifier source are as
    before the request, and at most one statement was sent. *)
Theorem GET_handlers_only_read (env : Env) (w : World) :
  (forall idParam,
      let w' := snd (handler.GetSubscription env idParam w) in
      table w' = table w /\ n_now w' = n_now w /\ n_uuid w' = n_uuid w /\
      (stmts w' = stmts w \/ exists s, stmts w' = (stmts w ++ [s])%list)) /\
  (forall service_name user_id limit offset,
      let w' := snd (handler.GetAllSubscriptions env service_name user_id
                       limit offset w) in
      table w' = table w /\ n_now w' = n_now w /\ n_uuid w' = n_uuid w /\
      (stmts w' = stmts w \/ exists s, stmts w' = (stmts w ++ [s])%list)) /\
  (forall start_date end_date service_name user_id,
      let w' := snd (handler.GetTotalCost env start_date end_date service_name
                       user_id w) in
      table w' = table w /\ n_now w' = n_now w /\ n_uuid w' = n_uuid w /\
      (stmts w' = stmts w \/ exists s, stmts w' = (stmts w ++ [s])%list)).
Proof.
  assert (Hsame : table w = table w /\ n_now w = n_now w /\ n_uuid w = n_uuid w /\
                  (stmts w = stmts w \/ exists s, stmts w = (stmts w ++ [s])%list))
    by auto.
  assert (Hsent : forall s,
             table (sent s w) = table w /\ n_now (sent s w) = n_now w /\
             n_uuid (sent s w) = n_uuid w /\
             (stmts (sent s w) = stmts w \/
              exists s', stmts (sent s w) = (stmts w ++ [s'])%list)).
  { intros s. repeat split. right. exists s. reflexivity. }
  split; [|split].
  - intros idParam. cbv zeta.
    unfold handler.GetSubscription, service.GetByID, bind, ret.
    destruct (uuid_Parse env idParam) as [id|]; [|exact Hsame].
    rewrite GetByID_run.
    destruct (answer_GetByID env id w) as [sub|e];
      [|destruct (errors_Is e ErrNotFound)]; apply Hsent.
  - intros service_name user_id limit offset. cbv zeta.
    unfold handler.GetAllSubscriptions, service.GetAll, bind, ret.
    destruct (if negb (String.eqb user_id "") then _ else _); [|exact Hsame].
    match goal with |- context [repository.GetAll env ?f w] => set (flt := f) end.
    destruct (driver_fault env (List.length (stmts w))) as [msg|] eqn:Hf.
    + rewrite (repository_GetAll_fault env flt w msg Hf). apply Hsent.
    + rewrite (GetAll_run env flt w Hf). apply Hsent.
  - intros start_date end_date service_name user_id. cbv zeta.
    unfold handler.GetTotalCost, bind, ret.
    destruct (String.eqb start_date "" || String.eqb end_date "");
      [exact Hsame|].
    destruct (handler.parseMonthYear start_date); [|exact Hsame].
    destruct (handler.parseMonthYear end_date); [|exact Hsame].
    destruct (if negb (String.eqb user_id "") then _ else _); [|exact Hsame].
    match goal with |- context [service.GetTotalCost env ?f w] => set (flt := f) end.
    rewrite service_GetTotalCost_eq.
    destruct (driver_fault env (List.length (stmts w))) as [msg|] eqn:Hf.
    + rewrite (GetTotalCost_fault env flt w msg Hf). apply Hsent.
    + rewrite (GetTotalCost_run env flt w Hf).
      destruct (sql.cast_integer _); apply Hsent.
Qed.

(** ** The dates the program accepts *)

Lemma digit_range (c : ascii) : time.isDigit c = true -> 0 <= time.digit c <= 9.
Proof.
  unfold time.isDigit, time.digit. intros H.
  apply andb_true_iff in H as [H1 H2].
  apply Nat.leb_le in H1, H2. lia.
Qed.

Lemma digit_inj (c d : ascii) :
  time.isDigit c = true -> time.isDigit d = true ->
  time.digit c = time.digit d -> c = d.
Proof.
  unfold time.digit. intros _ _ H.
  assert (Hn : nat_of_ascii c = nat_of_ascii d) by lia.
  rewrite <- (ascii_nat_embedding c), <- (ascii_nat_embedding d), Hn.
  reflexivity.
Qed.

Lemma Month_of_int_Some (z : Z) (m : time.Month) :
  time.Month_of_int z = Some m -> time.Month_int m = z.
Proof.
  intros H. destruct z as [|p|p]; try discriminate H.
  repeat (match goal with q : positive |- _ => destruct q end;
          cbn in H; try discriminate H).
  all: inversion H; reflexivity.
Qed.

(** The strings [time.Parse] accepts at the layout 01-2006. *)
Lemma Parse_inv (s : string) (t : time.Time) :
  time.Parse_01_2006 s = inr t ->
  exists m1 m2 y1 y2 y3 y4,
    s = String m1 (String m2 (String "-"
          (String y1 (String y2 (String y3 (String y4 EmptyString)))))) /\
    time.isDigit m1 = true /\ time.isDigit m2 = true /\
    time.isDigit y1 = true /\ time.isDigit y2 = true /\
    time.isDigit y3 = true /\ time.isDigit y4 = true /\
    time.Month_int (time.Mon t) = 10 * time.digit m1 + time.digit m2 /\
    time.Year t = 1000 * time.digit y1 + 100 * time.digit y2 +
                  10 * time.digit y3 + time.digit y4 /\
    time.Day t = 1 /\ time.Nsec t = 0.
Proof.
  unfold time.Parse_01_2006.
  destruct s as [|m1 [|m2 rest]]; try discriminate.
  destruct (time.isDigit m1) eqn:Hm1; [|discriminate].
  destruct (time.isDigit m2) eqn:Hm2; [|discriminate].
  cbn [andb].
  destruct (time.Month_of_int _) as [mon|] eqn:Hmon; [|discriminate].
  destruct rest as [|dash rest]; [discriminate|].
  destruct (Ascii.eqb_spec dash "-") as [Hd|Hd].
  - subst dash.
    destruct rest as [|y1 [|y2 [|y3 [|y4 extra]]]]; try discriminate.
    destruct (time.isDigit y1) eqn:Hy1; [|discriminate].
    destruct (time.isDigit y2) eqn:Hy2; [|discriminate].
    destruct (time.isDigit y3) eqn:Hy3; [|discriminate].
    destruct (time.isDigit y4) eqn:Hy4; [|discriminate].
    cbn [andb].
    destruct extra; [|discriminate].
    intros H. inversion H. subst t. cbn.
    exists m1, m2, y1, y2, y3, y4.
    repeat split; try assumption.
    apply Month_of_int_Some. exact Hmon.
  - destruct dash as [[] [] [] [] [] [] [] []]; try discriminate.
    exfalso. apply Hd. reflexivity.
Qed.

Lemma Month_of_int_Month_int (m : time.Month) :
  time.Month_of_int (time.Month_int m) = Some m.
Proof. destruct m; reflexivity. Qed.

(** X10.  What parseMonthYear accepts.  It parses a string to a date exactly
    when the string is made of two digits, a dash and four digits, the two
    digits read as a month from 1 to 12, and the date is the first day, at
    midnight, of the month written and of the year written.  So a string it
    parses has seven characters, the year is from 0 to 9999, the handler's
    parseMonthYear gives the same date, and two strings that parse to the
    same date are the same string. *)
Theorem parseMonthYear_accepts_MM_YYYY (s : string) (t : time.Time) :
  (service.parseMonthYear s = Ok t <->
   exists m1 m2 y1 y2 y3 y4,
     s = String m1 (String m2 (String "-"
           (String y1 (String y2 (String y3 (String y4 EmptyString)))))) /\
     time.isDigit m1 = true /\ time.isDigit m2 = true /\
     time.isDigit y1 = true /\ time.isDigit y2 = true /\
     time.isDigit y3 = true /\ time.isDigit y4 = true /\
     1 <= 10 * time.digit m1 + time.digit m2 <= 12 /\
     time.Month_int (time.Mon t) = 10 * time.digit m1 + time.digit m2 /\
     time.Year t = 1000 * time.digit y1 + 100 * time.digit y2 +
                   10 * time.digit y3 + time.digit y4 /\
     time.Day t = 1 /\ time.Nsec t = 0) /\
  (service.parseMonthYear s = Ok t ->
   String.length s = 7%nat /\
   proration.month_granular t /\
   0 <= time.Year t <= 9999 /\
   handler.parseMonthYear s = Ok t /\
   (forall s', service.parseMonthYear s' = Ok t -> s' = s)).
Proof.
  unfold service.parseMonthYear, handler.parseMonthYear, of_parse.
  split; [split|].
  - destruct (time.Parse_01_2006 s) as [pe|t0] eqn:Hs; [discriminate|].
    intros H. inversion H. subst t0.
    destruct (Parse_inv s t Hs)
      as [m1 [m2 [y1 [y2 [y3 [y4
          [Hstr [Hm1 [Hm2 [Hy1 [Hy2 [Hy3 [Hy4 [Hmon [Hyear [Hday Hns]]]]]]]]]]]]]]]].
    exists m1, m2, y1, y2, y3, y4.
    pose proof (Month_int_range (time.Mon t)) as Hrange.
    rewrite Hmon in Hrange.
    repeat split; try assumption; lia.
  - intros [m1 [m2 [y1 [y2 [y3 [y4
        [Hstr [Hm1 [Hm2 [Hy1 [Hy2 [Hy3 [Hy4 [_ [Hmon [Hyear [Hday Hns]]]]]]]]]]]]]]]]].
    subst s. unfold time.Parse_01_2006.
    rewrite Hm1, Hm2, Hy1, Hy2, Hy3, Hy4. cbn [andb].
    rewrite <- Hmon, Month_of_int_Month_int.
    cbn [Ascii.eqb Bool.eqb]. rewrite <- Hyear.
    destruct t as [year mon day nsec]. cbn in Hday, Hns. subst day nsec.
    reflexivity.
  - destruct (time.Parse_01_2006 s) as [pe|t0] eqn:Hs; [discriminate|].
    intros H. inversion H. subst t0.
    destruct (Parse_inv s t Hs)
      as [m1 [m2 [y1 [y2 [y3 [y4
          [Hstr [Hm1 [Hm2 [Hy1 [Hy2 [Hy3 [Hy4 [Hmon [Hyear [Hday Hns]]]]]]]]]]]]]]]].
    pose proof (digit_range _ Hm1). pose proof (digit_range _ Hm2).
    pose proof (digit_range _ Hy1). pose proof (digit_range _ Hy2).
    pose proof (digit_range _ Hy3). pose proof (digit_range _ Hy4).
    split; [subst s; reflexivity|].
    split; [split; assumption|].
    split; [lia|]. split; [reflexivity|].
    intros s'.
    destruct (time.Parse_01_2006 s') as [pe|t0] eqn:Hs'; [discriminate|].
    intros H'. inversion H'. subst t0.
    destruct (Parse_inv s' t Hs')
      as [n1 [n2 [z1 [z2 [z3 [z4
          [Hstr' [Hn1 [Hn2 [Hz1 [Hz2 [Hz3 [Hz4 [Hmon' [Hyear' _]]]]]]]]]]]]]]].
    pose proof (digit_range _ Hn1). pose proof (digit_range _ Hn2).
    pose proof (digit_range _ Hz1). pose proof (digit_range _ Hz2).
    pose proof (digit_range _ Hz3). pose proof (digit_range _ Hz4).
    assert (m1 = n1) by (apply digit_inj; [assumption..|lia]).
    assert (m2 = n2) by (apply digit_inj; [assumption..|lia]).
    assert (y1 = z1) by (apply digit_inj; [assumption..|lia]).
    assert (y2 = z2) by (apply digit_inj; [assumption..|lia]).
    assert (y3 = z3) by (apply digit_inj; [assumption..|lia]).
    assert (y4 = z4) by (apply digit_inj; [assumption..|lia]).
    subst. reflexivity.
Qed.

Lemma parseMonthYear_accepts_MM_YYYY_witness :
  service.parseMonthYear "07-2025" = Ok (sample.month 2025 time.July) /\
  proration.month_granular (sample.month 2025 time.July) /\
  0 <= 2025 <= 9999 /\
  service.parseMonthYear "13-2025" <> Ok (sample.month 2025 time.January) /\
  service.parseMonthYear "07/2025" <> Ok (sample.month 2025 time.July).
Proof.
  pose proof (parseMonthYear_accepts_MM_YYYY "07-2025"
                (sample.month 2025 time.July)) as [[_ Hback] Hrest].
  assert (Hok : service.parseMonthYear "07-2025" =
                Ok (sample.month 2025 time.July)).
  { apply Hback. exists "0"%char, "7"%char, "2"%char, "0"%char, "2"%char, "5"%char.
    repeat split; try reflexivity; vm_compute; discriminate. }
  destruct (Hrest Hok) as [_ [Hg [Hy _]]].
  split; [exact Hok|]. split; [exact Hg|]. split; [exact Hy|].
  split; discriminate.
Defined.

(** ** What holds of every stored row *)

Lemma Parse_granular (s : string) (t : time.Time) :
  time.Parse_01_2006 s = inr t -> proration.month_granular t.
Proof.
  intros H. destruct (Parse_inv s t H)
    as [? [? [? [? [? [? [_ [_ [_ [_ [_ [_ [_ [_ [_ [Hd Hn]]]]]]]]]]]]]]]].
  split; assumption.
Qed.

Lemma Update_assign_granular (req : UpdateSubscriptionReq.t)
      (old sub : Subscription.t) :
  granular_dates old -> service.Update_assign req old = Ok sub ->
  granular_dates sub.
Proof.
  unfold service.Update_assign, service.parseMonthYear, granular_dates.
  intros [Hs He].
  destruct (String.eqb (UpdateSubscriptionReq.ServiceName req) "");
    destruct (UpdateSubscriptionReq.Price req >? 0);
    destruct (String.eqb (UpdateSubscriptionReq.StartDate req) ""); cbn [negb];
    try (destruct (time.Parse_01_2006 (UpdateSubscriptionReq.StartDate req))
           as [|ts] eqn:Hps; cbn [of_parse]; [discriminate|];
         apply Parse_granular in Hps);
    destruct (String.eqb (UpdateSubscriptionReq.EndDate req) ""); cbn [negb];
    try (destruct (time.Parse_01_2006 (UpdateSubscriptionReq.EndDate req))
           as [|te] eqn:Hpe; cbn [of_parse]; [discriminate|];
         apply Parse_granular in Hpe);
    intros H; inversion H; subst; cbn; split; assumption.
Qed.

Lemma Create_Err_table (env : Env) (req : CreateSubscriptionReq.t) (w : World)
      (e : error) :
  fst (service.Create env req w) = Err e ->
  table (snd (service.Create env req w)) = table w.
Proof.
  unfold service.Create, bind, ret.
  destruct (uuid_Parse env _); [|reflexivity].
  destruct (service.parseMonthYear _); [|reflexivity].
  destruct (if String.eqb (CreateSubscriptionReq.EndDate req) "" then _ else _);
    [|reflexivity].
  unfold time_Now, uuid_New, repository.Create, sql.ExecContext, bind, ret,
    sql.send.
  cbn [stmts table n_now n_uuid].
  destruct (driver_fault env _); [reflexivity | discriminate].
Qed.

(** The table after a request: the one of before; or with one row more,
    created with equal stamps and month-granular dates; or with the rows of
    one id rewritten from a copy of a stored row to which a request was
    assigned, stamped with the reading of the clock; or without the rows of
    one id. *)
Lemma serve_table (env : Env) (r : Request) (w : World) :
  table (serve env r w) = table w \/
  (exists sub,
      table (serve env r w) = (table w ++ [sub])%list /\
      Subscription.CreatedAt sub = Subscription.UpdatedAt sub /\
      granular_dates sub) \/
  (exists req old sub0,
      In old (table w) /\
      service.Update_assign req old = Ok sub0 /\
      table (serve env r w) =
      updated (Subscription.set_UpdatedAt (Now env (n_now w)) sub0) (table w)) \/
  (exists id,
      table (serve env r w) = filter (fun x => negb (sql.has_id id x)) (table w)).
Proof.
  destruct r as [req|id|f|id req|id|f]; cbn [serve].
  - destruct (fst (service.Create env req w)) as [sub|e] eqn:Hr.
    + right. left. exists sub.
      destruct (Create_Ok env req w sub Hr) as [Hc [Hu [Ht _]]].
      destruct (Create_fields env req w sub Hr) as [_ [_ [_ [_ [Hs He]]]]].
      split; [exact Ht|]. split; [congruence|]. split.
      * apply (Parse_granular _ _ Hs).
      * destruct (Subscription.EndDate sub) as [e|]; [|exact I].
        apply (Parse_granular _ _ (proj2 He)).
    + left. apply (Create_Err_table env req w e Hr).
  - left. unfold service.GetByID. rewrite GetByID_run. reflexivity.
  - left. unfold service.GetAll.
    destruct (driver_fault env (List.length (stmts w))) as [msg|] eqn:Hf.
    + rewrite (repository_GetAll_fault env f w msg Hf). reflexivity.
    + rewrite (GetAll_run env f w Hf). reflexivity.
  - rewrite Update_run. unfold answer_GetByID.
    destruct (driver_fault env (List.length (stmts w))); [left; reflexivity|].
    destruct (stored id w) as [old|] eqn:Hold; [|left; reflexivity].
    destruct (service.Update_assign req old) as [sub0|e] eqn:Ha;
      [|left; reflexivity].
    rewrite Update_write_run. cbn [snd].
    destruct (driver_fault env _); [left; reflexivity|].
    right. right. left. exists req, old, sub0.
    split; [apply (stored_has_id id w old Hold)|].
    split; [exact Ha | reflexivity].
  - unfold service.Delete, repository.Delete, sql.ExecContext, bind, ret, sql.send.
    destruct (driver_fault env _); [left; reflexivity|].
    right. right. right. exists id.
    cbn [table sql.effect]. unfold sql.RowsAffected. cbn [sql.rows_err sql.rows].
    destruct (rows_fault env _); [reflexivity|].
    destruct (_ =? 0); reflexivity.
  - left. rewrite service_GetTotalCost_eq. cbn [snd].
    destruct (driver_fault env (List.length (stmts w))) as [msg|] eqn:Hf.
    + rewrite (GetTotalCost_fault env f w msg Hf). reflexivity.
    + rewrite (GetTotalCost_run env f w Hf). reflexivity.
Qed.

Lemma Forall_removed (P : Subscription.t -> Prop) (id : uuid.UUID)
      (t : list Subscription.t) :
  Forall P t -> Forall P (filter (fun x => negb (sql.has_id id x)) t).
Proof.
  intros H. apply Forall_forall. intros x Hx.
  apply filter_In in Hx as [Hx _].
  rewrite Forall_forall in H. apply H. exact Hx.
Qed.

(** X11.  Every stored date is month-granular: in every state the service
    reaches from the empty table, the start date and the end date (when
    present) of every row are the first day of a month at midnight, since
    Create and Update store only dates that parseMonthYear returned. *)
Theorem stored_dates_month_granular (env : Env) (w : World) :
  reachable env w -> Forall granular_dates (table w).
Proof.
  intros Hw. induction Hw as [|r w Hw IH]; [constructor|].
  destruct (serve_table env r w)
    as [Ht|[[sub [Ht [_ Hg]]]|[[req [old [sub0 [Hin [Ha Ht]]]]]|[id Ht]]]];
    rewrite Ht.
  - exact IH.
  - apply Forall_app. split; [exact IH|]. constructor; [exact Hg | constructor].
  - assert (Hg : granular_dates sub0).
    { apply (Update_assign_granular req old sub0); [|exact Ha].
      rewrite Forall_forall in IH. apply IH. exact Hin. }
    unfold updated. apply Forall_map.
    eapply Forall_impl; [|exact IH]. cbn. intros x Hx.
    destruct (sql.has_id _ x); [exact Hg | exact Hx].
  - apply Forall_removed. exact IH.
Qed.

Lemma sample_reachable :
  reachable sample.env
    (serve sample.env (UpdateRequest 1000%N sample.price_600) sample.after_create).
Proof.
  apply reachable_serve.
  apply (reachable_serve sample.env (CreateRequest sample.create_yandex) initial).
  apply reachable_initial.
Qed.

Lemma stored_dates_month_granular_witness :
  Forall granular_dates
    (table (serve sample.env (UpdateRequest 1000%N sample.price_600)
              sample.after_create)).
Proof.
  exact (stored_dates_month_granular sample.env _ sample_reachable).
Defined.

Lemma le_Before (a b c : time.Time) :
  sql.le a b = true -> time.Before b c = true -> sql.le a c = true.
Proof.
  rewrite !le_iff. intros Hab Hbc.
  destruct (time.Before c a) eqn:Hca; [|reflexivity].
  assert (Hn : ~ time.Before b a = true) by congruence.
  rewrite Before_iff in Hn, Hbc, Hca. lia.
Qed.

(** X12.  No row is older than its last update: with a clock whose
    successive readings strictly increase, in every state the service
    reaches from the empty table, created_at <= updated_at holds of every
    row. *)
Theorem created_at_before_updated_at (env : Env) (w : World) :
  increasing_clock env ->
  reachable env w ->
  Forall (fun r => sql.le (Subscription.CreatedAt r)
                          (Subscription.UpdatedAt r) = true) (table w).
Proof.
  intros Hclock Hw. induction Hw as [|r w Hw IH]; [constructor|].
  pose proof (reachable_stamped env w Hclock Hw) as Hst.
  destruct (serve_table env r w)
    as [Ht|[[sub [Ht [Hc _]]]|[[req [old [sub0 [Hin [Ha Ht]]]]]|[id Ht]]]];
    rewrite Ht.
  - exact IH.
  - apply Forall_app. split; [exact IH|].
    constructor; [|constructor]. rewrite Hc. apply le_refl.
  - unfold updated. apply Forall_map.
    unfold stamped in Hst. rewrite Forall_forall in IH, Hst.
    apply Forall_forall. intros x Hx.
    destruct (sql.has_id _ x); [|apply IH; exact Hx].
    cbn. apply (le_Before _ (Subscription.UpdatedAt x)); [apply IH | apply Hst];
      exact Hx.
  - apply Forall_removed. exact IH.
Qed.

Lemma created_at_before_updated_at_witness :
  Forall (fun r => sql.le (Subscription.CreatedAt r)
                          (Subscription.UpdatedAt r) = true)
    (table (serve sample.env (UpdateRequest 1000%N sample.price_600)
              sample.after_create)).
Proof.
  exact (created_at_before_updated_at sample.env _ sample_clock_increasing
           sample_reachable).
Defined.

(** ** The total cost across other operations *)

Lemma total_app (env : Env) (f : CostFilter.t) (t u : list Subscription.t) :
  proration.total env f (t ++ u) =
  proration.total env f t + proration.total env f u.
Proof.
  unfold proration.total. induction t as [|r t IH]; cbn; [reflexivity|].
  rewrite IH. lia.
Qed.

Lemma total_split (env : Env) (f : CostFilter.t) (P : Subscription.t -> bool)
      (t : list Subscription.t) :
  proration.total env f t =
  proration.total env f (filter P t) +
  proration.total env f (filter (fun r => negb (P r)) t).
Proof.
  unfold proration.total. induction t as [|r t IH]; cbn; [reflexivity|].
  destruct (P r); cbn; rewrite IH; lia.
Qed.

Lemma GetTotalCost_table (env : Env) (f : CostFilter.t) (w : World) :
  table (snd (repository.GetTotalCost env f w)) = table w.
Proof.
  destruct (driver_fault env (List.length (stmts w))) as [msg|] eqn:Hf.
  - rewrite (GetTotalCost_fault env f w msg Hf). reflexivity.
  - rewrite (GetTotalCost_run env f w Hf). reflexivity.
Qed.

Lemma Delete_Ok_table (env : Env) (id : uuid.UUID) (w : World) :
  fst (service.Delete env id w) = Ok tt ->
  table (snd (service.Delete env id w)) =
  filter (fun r => negb (sql.has_id id r)) (table w).
Proof.
  unfold service.Delete, repository.Delete, sql.ExecContext, bind, ret, sql.send.
  destruct (driver_fault env _); [discriminate|].
  cbn [table sql.effect]. unfold sql.RowsAffected. cbn [sql.rows_err sql.rows].
  destruct (rows_fault env _); [discriminate|].
  destruct (_ =? 0); [discriminate | reflexivity].
Qed.

(** X13.  A created subscription adds its own contribution to the total
    cost, and nothing else: when the cost query returns [a], a subscription
    is then created, and the same query then returns [b], [b] is [a] plus
    the contribution of the created subscription (its price times its months
    in the window if it is in the window and passes the filters, 0
    otherwise). *)
Theorem Create_adds_its_contribution
        (env : Env) (f : CostFilter.t) (req : CreateSubscriptionReq.t)
        (w : World) (a b : Z) (sub : Subscription.t) :
  let q1 := repository.GetTotalCost env f w in
  let c := service.Create env req (snd q1) in
  let q2 := repository.GetTotalCost env f (snd c) in
  fst q1 = Ok a -> fst c = Ok sub -> fst q2 = Ok b ->
  b = a + proration.contribution env f sub.
Proof.
  cbv zeta. intros Ha Hc Hb.
  apply GetTotalCost_Ok in Ha, Hb.
  destruct (Create_Ok env req _ sub Hc) as [_ [_ [Ht _]]].
  rewrite Ht, GetTotalCost_table, total_app in Hb.
  subst a b. cbn. lia.
Qed.

Lemma Create_adds_its_contribution_witness :
  exists sub,
    fst (repository.GetTotalCost sample.env sample.year2025
           (sample.world [sample.netflix])) = Ok 3000 /\
    fst (service.Create sample.env sample.create_yandex
           (snd (repository.GetTotalCost sample.env sample.year2025
                   (sample.world [sample.netflix])))) = Ok sub /\
    proration.contribution sample.env sample.year2025 sub = 4800 /\
    7800 = 3000 + proration.contribution sample.env sample.year2025 sub.
Proof.
  assert (Hc : exists sub,
             fst (service.Create sample.env sample.create_yandex
                    (snd (repository.GetTotalCost sample.env sample.year2025
                            (sample.world [sample.netflix])))) = Ok sub /\
             proration.contribution sample.env sample.year2025 sub = 4800)
    by (vm_compute; eexists; split; reflexivity).
  destruct Hc as [sub [Hc H4800]]. exists sub.
  split; [reflexivity|]. split; [exact Hc|]. split; [exact H4800|].
  refine (Create_adds_its_contribution sample.env sample.year2025
            sample.create_yandex (sample.world [sample.netflix])
            3000 7800 sub eq_refl Hc _).
  vm_compute. reflexivity.
Defined.

(** X14.  A deletion takes the contributions of the deleted rows off the
    total cost, and nothing else: when the cost query returns [a], the
    deletion of an id then succeeds, and the same query then returns [b],
    [b] is [a] minus the contributions of the rows that had the id. *)
Theorem Delete_removes_its_contribution
        (env : Env) (f : CostFilter.t) (id : uuid.UUID)
        (w : World) (a b : Z) :
  let q1 := repository.GetTotalCost env f w in
  let d := service.Delete env id (snd q1) in
  let q2 := repository.GetTotalCost env f (snd d) in
  fst q1 = Ok a -> fst d = Ok tt -> fst q2 = Ok b ->
  b = a - proration.total env f (filter (sql.has_id id) (table w)).
Proof.
  cbv zeta. intros Ha Hd Hb.
  apply GetTotalCost_Ok in Ha, Hb.
  rewrite (Delete_Ok_table env id _ Hd), GetTotalCost_table in Hb.
  rewrite (total_split env f (sql.has_id id) (table w)) in Ha.
  subst a b. lia.
Qed.

Lemma Delete_removes_its_contribution_witness :
  fst (repository.GetTotalCost sample.env sample.year2025
         (sample.world [sample.yandex; sample.netflix])) = Ok 7800 /\
  proration.total sample.env sample.year2025
    (filter (sql.has_id 1%N) [sample.yandex; sample.netflix]) = 4800 /\
  3000 = 7800 - proration.total sample.env sample.year2025
                  (filter (sql.has_id 1%N)
                     (table (sample.world [sample.yandex; sample.netflix]))).
Proof.
  split; [reflexivity|]. split; [reflexivity|].
  exact (Delete_removes_its_contribution sample.env sample.year2025 1%N
           (sample.world [sample.yandex; sample.netflix]) 7800 3000
           eq_refl eq_refl eq_refl).
Defined.

(** X15.  GET /subscriptions/cost, end to end: with start_date and end_date
    in the form MM-YYYY, a user_id that is absent or parses, a driver that
    runs the query and a total that fits the integer of the query, the
    answer is 200 with currency RUB and, as total, the sum of the
    contributions of the stored rows for the window from the first day of
    the start month to the first day of the end month and the filters given;
    the first parameter is the start of the window and the second its end. *)
Theorem GetTotalCost_answers_total
        (env : Env) (start_date end_date service_name user_id : string)
        (w : World) (s e : time.Time) (userID : option uuid.UUID) :
  time.Parse_01_2006 start_date = inr s ->
  time.Parse_01_2006 end_date = inr e ->
  match userID with
  | None => user_id = ""
  | Some u => user_id <> "" /\ uuid_Parse env user_id = Ok u
  end ->
  driver_fault env (List.length (stmts w)) = None ->
  let f := CostFilter.mk userID service_name s e in
  proration.fits_integer (proration.total env f (table w)) ->
  fst (handler.GetTotalCost env start_date end_date service_name user_id w) =
  handler.JSON handler.StatusOK
    (handler.OfTotalCost
       (TotalCostResponse.mk (proration.total env f (table w)) "RUB")) /\
  proration.month_granular (CostFilter.StartDate f) /\
  proration.month_granular (CostFilter.EndDate f).
Proof.
  intros Hs He Hu Hf f Hfits.
  split; [|split; [apply (Parse_granular _ _ Hs) | apply (Parse_granular _ _ He)]].
  unfold handler.GetTotalCost, handler.parseMonthYear.
  assert (Hs0 : String.eqb start_date "" = false).
  { destruct (String.eqb_spec start_date ""); [subst; discriminate Hs | reflexivity]. }
  assert (He0 : String.eqb end_date "" = false).
  { destruct (String.eqb_spec end_date ""); [subst; discriminate He | reflexivity]. }
  rewrite Hs0, He0, Hs, He. cbn [orb of_parse].
  assert (Hparsed : (if negb (String.eqb user_id "")
                     then match uuid_Parse env user_id with
                          | Ok u => Ok (Some u)
                          | Err err => Err err
                          end
                     else Ok None) = Ok userID).
  { destruct userID as [u|].
    - destruct Hu as [Hne Hu].
      destruct (String.eqb_spec user_id ""); [contradiction|].
      cbn [negb]. rewrite Hu. reflexivity.
    - subst user_id. reflexivity. }
  rewrite Hparsed. unfold bind, ret. fold f.
  rewrite service_GetTotalCost_eq, (GetTotalCost_run env f w Hf).
  cbn [fst]. rewrite (cast_integer_fits _ Hfits). reflexivity.
Qed.

Lemma GetTotalCost_answers_total_witness :
  fst (handler.GetTotalCost sample.env "01-2025" "12-2025" "" ""
         (sample.world [sample.yandex; sample.netflix])) =
  handler.JSON handler.StatusOK
    (handler.OfTotalCost (TotalCostResponse.mk 7800 "RUB")).
Proof.
  refine (proj1 (GetTotalCost_answers_total sample.env "01-2025" "12-2025" "" ""
                   (sample.world [sample.yandex; sample.netflix])
                   (sample.month 2025 time.January)
                   (sample.month 2025 time.December) None
                   eq_refl eq_refl eq_refl eq_refl _)).
  vm_compute. split; discriminate.
Defined.

(** ** The answer 404 *)

Lemma count_zero_missing (id : uuid.UUID) (t : list Subscription.t) :
  (Z.of_nat (List.length (filter (sql.has_id id) t)) =? 0) = true ->
  find (sql.has_id id) t = None.
Proof.
  intros H. destruct (find (sql.has_id id) t) as [old|] eqn:Hf; [|reflexivity].
  rewrite (find_counted id old t Hf) in H. discriminate H.
Qed.

Lemma not_NotFound_driver (prefix msg : string) :
  errors_Is (Errorf prefix (DriverError msg)) ErrNotFound = false.
Proof. reflexivity. Qed.

Lemma Update_assign_not_NotFound (req : UpdateSubscriptionReq.t)
      (old : Subscription.t) (e : error) :
  service.Update_assign req old = Err e -> errors_Is e ErrNotFound = false.
Proof.
  unfold service.Update_assign, service.parseMonthYear.
  destruct (negb (String.eqb (UpdateSubscriptionReq.StartDate req) ""));
    [destruct (time.Parse_01_2006 (UpdateSubscriptionReq.StartDate req));
     cbn [of_parse]|];
    try (intros H; inversion H; reflexivity);
    (destruct (negb (String.eqb (UpdateSubscriptionReq.EndDate req) ""));
     [destruct (time.Parse_01_2006 (UpdateSubscriptionReq.EndDate req));
      cbn [of_parse]|];
     intros H; inversion H; reflexivity).
Qed.

(** X16.  The answer 404 is given only for an id that addresses no row:
    when GET, PUT or DELETE of /subscriptions/:id answers with the status
    404, the id parsed and no stored row has it; a failure of the driver,
    whatever its message, is never answered with 404. *)
Theorem not_found_means_no_row (env : Env) (idParam : string) (w : World) :
  (handler.code_of (fst (handler.GetSubscription env idParam w)) = 404 ->
   exists id, uuid_Parse env idParam = Ok id /\ stored id w = None /\
              driver_fault env (List.length (stmts w)) = None) /\
  (forall bound,
      handler.code_of (fst (handler.UpdateSubscription env idParam bound w)) = 404 ->
      exists id, uuid_Parse env idParam = Ok id /\ stored id w = None /\
                 driver_fault env (List.length (stmts w)) = None) /\
  (handler.code_of (fst (handler.DeleteSubscription env idParam w)) = 404 ->
   exists id, uuid_Parse env idParam = Ok id /\ stored id w = None /\
              driver_fault env (List.length (stmts w)) = None).
Proof.
  split; [|split].
  - unfold handler.GetSubscription, service.GetByID, bind, ret.
    destruct (uuid_Parse env idParam) as [id|]; [|discriminate].
    rewrite GetByID_run. unfold answer_GetByID.
    destruct (driver_fault env _) eqn:Hf; [discriminate|].
    destruct (stored id w) eqn:Hno; [discriminate|].
    intros _. exists id. auto.
  - intros bound. unfold handler.UpdateSubscription, bind, ret.
    destruct (uuid_Parse env idParam) as [id|]; [|discriminate].
    destruct bound as [req|]; [|discriminate].
    rewrite Update_run. unfold answer_GetByID.
    destruct (driver_fault env (List.length (stmts w))) eqn:Hf; [discriminate|].
    destruct (stored id w) as [old|] eqn:Hold; [|intros _; exists id; auto].
    clear Hf.
    destruct (service.Update_assign req old) as [sub0|e] eqn:Ha.
    + rewrite Update_write_run. cbn [fst]. unfold answer_Update.
      destruct (driver_fault env _); [cbn; discriminate|].
      destruct (rows_fault env _); [cbn; discriminate|].
      cbn [table ticked sent].
      assert (Hid : Subscription.ID
                      (Subscription.set_UpdatedAt (Now env (n_now w)) sub0) = id).
      { apply Update_assign_Ok in Ha as [Hident _].
        injection Hident as H1 _ _. cbn. rewrite H1.
        apply (stored_has_id id w old Hold). }
      rewrite Hid. unfold stored in Hold.
      rewrite (find_counted id old (table w) Hold). discriminate.
    + cbn [fst]. rewrite (Update_assign_not_NotFound req old e Ha). discriminate.
  - unfold handler.DeleteSubscription, service.Delete, repository.Delete,
      sql.ExecContext, bind, ret, sql.send.
    destruct (uuid_Parse env idParam) as [id|]; [|discriminate].
    destruct (driver_fault env _) eqn:Hf; [discriminate|].
    cbn [table sql.effect]. unfold sql.RowsAffected. cbn [sql.rows_err sql.rows].
    destruct (rows_fault env _); [discriminate|].
    destruct (_ =? 0) eqn:Hz; [|discriminate].
    intros _. exists id. split; [reflexivity|]. split; [|reflexivity].
    apply count_zero_missing. exact Hz.
Qed.

(** ** The same update twice *)

Lemma Update_assign_again (req : UpdateSubscriptionReq.t)
      (old sub0 : Subscription.t) (t : time.Time) :
  service.Update_assign req old = Ok sub0 ->
  service.Update_assign req (Subscription.set_UpdatedAt t sub0) =
  Ok (Subscription.set_UpdatedAt t sub0).
Proof.
  unfold service.Update_assign.
  destruct (negb (String.eqb (UpdateSubscriptionReq.ServiceName req) ""));
    destruct (UpdateSubscriptionReq.Price req >? 0);
    destruct (negb (String.eqb (UpdateSubscriptionReq.StartDate req) ""));
    try destruct (service.parseMonthYear (UpdateSubscriptionReq.StartDate req));
    try discriminate;
    destruct (negb (String.eqb (UpdateSubscriptionReq.EndDate req) ""));
    try destruct (service.parseMonthYear (UpdateSubscriptionReq.EndDate req));
    try discriminate;
    intros H; inversion H; subst; reflexivity.
Qed.

(** X17.  An update is idempotent but for the stamp: when the same request
    updates a stored subscription twice in a row with success, the second
    update returns the subscription the first returned, with a new
    updated_at only. *)
Theorem Update_twice_changes_stamp_only
        (env : Env) (id : uuid.UUID) (req : UpdateSubscriptionReq.t)
        (w : World) (old sub1 sub2 : Subscription.t) :
  stored id w = Some old ->
  fst (service.Update env id req w) = Ok sub1 ->
  fst (service.Update env id req (snd (service.Update env id req w))) = Ok sub2 ->
  sub2 = Subscription.set_UpdatedAt (Now env (S (n_now w))) sub1.
Proof.
  intros Hold H1 H2.
  destruct (Update_Ok env id req w old sub1 Hold H1)
    as [[sub0 [Ha Hs1]] [_ [Hn Hst]]].
  destruct (Update_Ok env id req _ sub1 sub2 Hst H2) as [[sub0' [Ha' Hs2]] _].
  rewrite Hn in Hs2. subst sub1.
  rewrite (Update_assign_again req old sub0 _ Ha) in Ha'.
  inversion Ha'. subst sub0' sub2. reflexivity.
Qed.

Lemma Update_twice_changes_stamp_only_witness :
  exists sub1 sub2,
    fst (service.Update sample.env 1%N sample.price_600
           (sample.world [sample.yandex])) = Ok sub1 /\
    fst (service.Update sample.env 1%N sample.price_600
           (snd (service.Update sample.env 1%N sample.price_600
                   (sample.world [sample.yandex])))) = Ok sub2 /\
    sub2 = Subscription.set_UpdatedAt (Now sample.env 11) sub1.
Proof.
  assert (H1 : exists sub1,
             fst (service.Update sample.env 1%N sample.price_600
                    (sample.world [sample.yandex])) = Ok sub1)
    by (vm_compute; eexists; reflexivity).
  assert (H2 : exists sub2,
             fst (service.Update sample.env 1%N sample.price_600
                    (snd (service.Update sample.env 1%N sample.price_600
                            (sample.world [sample.yandex])))) = Ok sub2)
    by (vm_compute; eexists; reflexivity).
  destruct H1 as [sub1 H1]. destruct H2 as [sub2 H2].
  exists sub1, sub2. split; [exact H1|]. split; [exact H2|].
  exact (Update_twice_changes_stamp_only sample.env 1%N sample.price_600
           (sample.world [sample.yandex]) sample.yandex sub1 sub2
           eq_refl H1 H2).
Defined.
